(** * Dashbot: the interaction log, the intent responder and the CSV/DB reconciler

    A shallow embedding of [app.py], [sync_csv_db.py] and [auto_sync.py].

    - Python [str] values are lists of Unicode code points ([pystr]); literals
      are written as UTF-8 string literals and decoded by [u8].
    - The objects a JSON body or a pandas cell can hold are the values of
      [pyval]; a pandas cell is taken as the Python object of the same value
      (numpy scalar types are not told apart).
    - The [interaction_log] table is a finite map from the integer primary
      key to a row ([gmap Z LogRow]).  Integers are unbounded; the limits of
      SQLite (64-bit keys, number of placeholders) are not modelled.
    - Python exceptions are explicit: code that may raise lives in a small
      state-and-exception monad over a database connection, and every
      [try/except] of the source is a [match] on the outcome.  A connection
      has its own view of the table; only [commit] changes what the
      database file holds.
    - Python floats are idealised as rationals ([Q]); IEEE rounding is not
      modelled.
    - Library functions whose full behaviour is outside the repository
      ([str.lower], [int(str)], [float(str)], rounding of a float, SQLite's
      reading of a text as an integer) are the fields of the interface
      [PyBuiltins]: the general statements hold for every implementation.
      [basic_builtins] is an instance for Basic Latin and Cyrillic text and
      plain decimal numerals, used to run the model. *)

From Stdlib Require Import ZArith QArith Qround String Ascii List Bool Lia.
From stdpp Require Import gmap strings list fin_maps.

Local Open Scope Z_scope.
Local Open Scope list_scope.

(** ** Python strings *)

Module PyStr.

Definition pystr : Type := list N.

(** UTF-8 decoding of a byte string (well-formed input assumed; a truncated
    sequence ends the decoding). *)
Fixpoint utf8_decode (bs : list N) : pystr :=
  match bs with
  | [] => []
  | b0 :: r0 =>
    if (b0 <? 128)%N then b0 :: utf8_decode r0
    else match r0 with
    | [] => []
    | b1 :: r1 =>
      if (b0 <? 224)%N then ((b0 - 192) * 64 + (b1 - 128))%N :: utf8_decode r1
      else match r1 with
      | [] => []
      | b2 :: r2 =>
        if (b0 <? 240)%N
        then ((b0 - 224) * 4096 + (b1 - 128) * 64 + (b2 - 128))%N :: utf8_decode r2
        else match r2 with
        | [] => []
        | b3 :: r3 =>
          ((b0 - 240) * 262144 + (b1 - 128) * 4096 + (b2 - 128) * 64 + (b3 - 128))%N
            :: utf8_decode r3
        end
      end
    end
  end.

Fixpoint bytes_of_string (s : string) : list N :=
  match s with
  | EmptyString => []
  | String a s' => N_of_ascii a :: bytes_of_string s'
  end.

Definition u8 (s : string) : pystr := utf8_decode (bytes_of_string s).

(** [p] is a prefix of [s]. *)
Fixpoint startswith (p s : pystr) : bool :=
  match p, s with
  | [], _ => true
  | _ :: _, [] => false
  | a :: p', b :: s' => (a =? b)%N && startswith p' s'
  end.

(** Python's [needle in hay] on strings: substring test. *)
Fixpoint contains (needle hay : pystr) : bool :=
  startswith needle hay ||
  match hay with
  | [] => false
  | _ :: hay' => contains needle hay'
  end.

(** [str.isspace] on one code point: the Unicode white-space characters that
    [str.strip()] removes. *)
Definition is_space (c : N) : bool :=
  ((9 <=? c) && (c <=? 13) || (28 <=? c) && (c <=? 32) || (c =? 133) || (c =? 160)
   || (c =? 5760) || (8192 <=? c) && (c <=? 8202) || (c =? 8232) || (c =? 8233)
   || (c =? 8239) || (c =? 8287) || (c =? 12288))%N.

Fixpoint lstrip (s : pystr) : pystr :=
  match s with
  | [] => []
  | c :: s' => if is_space c then lstrip s' else s
  end.

(** [str.strip()] with no argument. *)
Definition strip (s : pystr) : pystr := rev (lstrip (rev (lstrip s))).

(** Python truthiness of a [str]: non-empty. *)
Definition truthy (s : pystr) : bool :=
  match s with [] => false | _ :: _ => true end.

End PyStr.
Export PyStr.

(** ** Library functions taken as an interface *)

Class PyBuiltins := {
  (** [str.lower()] *)
  str_lower : pystr → pystr;
  (** [int(s)] on a [str]: [None] stands for [ValueError] *)
  int_of_str : pystr → option Z;
  (** [float(s)] on a [str]: [None] stands for [ValueError] *)
  float_of_str : pystr → option Q;
  (** [round(x, ndigits)] on a float *)
  round_float : Q → nat → Q;
  (** the integer SQLite reads a text value as when it meets the
      [INTEGER PRIMARY KEY] column, if the text is a well-formed integer *)
  sqlite_int_of_text : pystr → option Z;
}.

(** ** The intent responder ([app.py], [generate_bot_reply]) *)

(** The two [datetime.now().strftime(...)] results the responder embeds:
    ["%H:%M"] and ["%d.%m.%Y"]. *)
Record Clock := { now_HM : pystr; now_dmY : pystr }.

(** The triple [(reply, intent, resolved)]. *)
Definition Reply : Type := pystr * pystr * bool.

Definition reply_text (r : Reply) : pystr := r.1.1.
Definition reply_intent (r : Reply) : pystr := r.1.2.
Definition reply_resolved (r : Reply) : bool := r.2.

(** [any(kw in text for kw in kws)] *)
Definition any_in (kws : list pystr) (text : pystr) : bool :=
  existsb (fun kw => contains kw text) kws.

Module Kw.
Definition greeting : list pystr :=
  [u8 "привет"; u8 "здравствуй"; u8 "hello"; u8 "hi"; u8 "добрый день";
   u8 "добрый вечер"; u8 "доброе утро"].
Definition time_query : list pystr := [u8 "время"; u8 "который час"].
Definition date_query : list pystr :=
  [u8 "дата"; u8 "какое число"; u8 "какой день"; u8 "число"].
Definition weather_query : list pystr := [u8 "погода"; u8 "дождь"; u8 "солнце"].
Definition help_request : list pystr :=
  [u8 "помощь"; u8 "help"; u8 "что ты умеешь"; u8 "функции"].
Definition thanks : list pystr :=
  [u8 "спасибо"; u8 "благодарю"; u8 "thanks"; u8 "thank you"].
Definition goodbye : list pystr :=
  [u8 "пока"; u8 "до свидания"; u8 "bye"; u8 "goodbye"; u8 "увидимся"].
Definition bot_info : list pystr :=
  [u8 "кто ты"; u8 "что ты"; u8 "как тебя зовут"; u8 "имя"].
Definition bot_age : list pystr := [u8 "возраст"; u8 "сколько тебе"].
End Kw.

Module Msg.
Definition greeting : pystr := u8 "Здравствуйте! Чем могу помочь?".
Definition time_query (clk : Clock) : pystr := u8 "Сейчас " ++ now_HM clk ++ u8 ".".
Definition date_query (clk : Clock) : pystr := u8 "Сегодня " ++ now_dmY clk ++ u8 ".".
Definition weather_query : pystr :=
  u8 "К сожалению, я не могу проверить погоду. Рекомендую посмотреть в приложении погоды.".
Definition help_request : pystr :=
  u8 "Я умею отвечать на приветствия, говорить время и дату, а также отвечать на простые вопросы. Попробуйте спросить что-то простое!".
Definition thanks : pystr := u8 "Пожалуйста! Рад был помочь!".
Definition goodbye : pystr := u8 "До свидания! Хорошего дня!".
Definition bot_info : pystr :=
  u8 "Я простой чат-бот, созданный для демонстрации. Меня зовут Бот!".
Definition bot_age : pystr := u8 "Я только что родился в этом коде! 😊".
Definition unknown : pystr :=
  u8 "Извините, я не понял вопрос. Попробуйте сформулировать по-другому или спросите о времени, дате или просто поздоровайтесь!".
End Msg.

Section Responder.
Context `{!PyBuiltins}.

(** [generate_bot_reply], branch by branch.  The [time.sleep] calls have
    no effect on the returned value and are left out. *)
Definition generate_bot_reply (clk : Clock) (user_text : pystr) : Reply :=
  let text := str_lower user_text in
  if any_in Kw.greeting text then
    (Msg.greeting, u8 "greeting", true)
  else if contains (u8 "время") text || contains (u8 "который час") text then
    (Msg.time_query clk, u8 "time_query", true)
  else if contains (u8 "дата") text || contains (u8 "какое число") text
          || contains (u8 "какой день") text || contains (u8 "число") text then
    (Msg.date_query clk, u8 "date_query", true)
  else if contains (u8 "погода") text || contains (u8 "дождь") text
          || contains (u8 "солнце") text then
    (Msg.weather_query, u8 "weather_query", false)
  else if any_in Kw.help_request text then
    (Msg.help_request, u8 "help_request", true)
  else if any_in Kw.thanks text then
    (Msg.thanks, u8 "thanks", true)
  else if any_in Kw.goodbye text then
    (Msg.goodbye, u8 "goodbye", true)
  else if any_in Kw.bot_info text then
    (Msg.bot_info, u8 "bot_info", true)
  else if contains (u8 "возраст") text || contains (u8 "сколько тебе") text then
    (Msg.bot_age, u8 "bot_info", true)
  else
    (Msg.unknown, u8 "unknown", false).

End Responder.

(** *** The responder as the specification words it: an ordered table *)

Record Category := {
  cat_keywords : list pystr;
  cat_reply : Clock → pystr;
  cat_intent : pystr;
  cat_resolved : bool;
}.

(** The categories in priority order. *)
Definition categories : list Category :=
  [ {| cat_keywords := Kw.greeting; cat_reply := fun _ => Msg.greeting;
       cat_intent := u8 "greeting"; cat_resolved := true |};
    {| cat_keywords := Kw.time_query; cat_reply := Msg.time_query;
       cat_intent := u8 "time_query"; cat_resolved := true |};
    {| cat_keywords := Kw.date_query; cat_reply := Msg.date_query;
       cat_intent := u8 "date_query"; cat_resolved := true |};
    {| cat_keywords := Kw.weather_query; cat_reply := fun _ => Msg.weather_query;
       cat_intent := u8 "weather_query"; cat_resolved := false |};
    {| cat_keywords := Kw.help_request; cat_reply := fun _ => Msg.help_request;
       cat_intent := u8 "help_request"; cat_resolved := true |};
    {| cat_keywords := Kw.thanks; cat_reply := fun _ => Msg.thanks;
       cat_intent := u8 "thanks"; cat_resolved := true |};
    {| cat_keywords := Kw.goodbye; cat_reply := fun _ => Msg.goodbye;
       cat_intent := u8 "goodbye"; cat_resolved := true |};
    {| cat_keywords := Kw.bot_info; cat_reply := fun _ => Msg.bot_info;
       cat_intent := u8 "bot_info"; cat_resolved := true |};
    {| cat_keywords := Kw.bot_age; cat_reply := fun _ => Msg.bot_age;
       cat_intent := u8 "bot_info"; cat_resolved := true |} ].

(** A category matches when one of its keywords is a substring. *)
Definition cat_matches (text : pystr) (c : Category) : bool :=
  any_in (cat_keywords c) text.

Definition cat_result (clk : Clock) (c : Category) : Reply :=
  (cat_reply c clk, cat_intent c, cat_resolved c).

(** First match in priority order, [unknown] when there is none. *)
Definition first_match_reply (clk : Clock) (text : pystr) : Reply :=
  match List.find (cat_matches text) categories with
  | Some c => cat_result clk c
  | None => (Msg.unknown, u8 "unknown", false)
  end.


(** ** Python values and exceptions *)

(** The Python objects that reach the code from a parsed JSON body or from a
    pandas cell.  [PFloat] carries a finite float, [PNaN] is [float('nan')]
    (the pandas marker of an empty cell), [PCompound] is a list or a dict. *)
Inductive pyval :=
| PNone
| PBool (b : bool)
| PInt (z : Z)
| PFloat (q : Q)
| PNaN
| PStr (s : pystr)
| PCompound.

Inductive exn :=
| ValueError | TypeError | AttributeError | ZeroDivisionError
| ParserError | EmptyDataError | FileNotFoundError
| OperationalError | IntegrityError | InterfaceError.

Inductive outcome (A : Type) :=
| Return (a : A)
| Raise (e : exn).
Arguments Return {A} a.
Arguments Raise {A} e.

Definition Z_of_bool (b : bool) : Z := if b then 1 else 0.

(** [pd.notna(v)] on a scalar. *)
Definition pd_notna (v : pyval) : bool :=
  match v with
  | PNone | PNaN => false
  | _ => true
  end.

(** The integer a float truncates to: [int(x)] rounds toward zero. *)
Definition Q_trunc (q : Q) : Z := Z.quot (Qnum q) (Z.pos (Qden q)).

Section Coercions.
Context `{!PyBuiltins}.

(** [int(v)] *)
Definition py_int (v : pyval) : outcome Z :=
  match v with
  | PBool b => Return (Z_of_bool b)
  | PInt z => Return z
  | PFloat q => Return (Q_trunc q)
  | PStr s => match int_of_str s with Some z => Return z | None => Raise ValueError end
  | PNaN => Raise ValueError
  | PNone | PCompound => Raise TypeError
  end.

(** [float(v)].  [float(nan)] is [nan], which [Q] cannot hold; the callers
    below test [pd.notna] first, so that case is never evaluated. *)
Definition py_float (v : pyval) : outcome Q :=
  match v with
  | PBool b => Return (inject_Z (Z_of_bool b))
  | PInt z => Return (inject_Z z)
  | PFloat q => Return q
  | PStr s => match float_of_str s with Some q => Return q | None => Raise ValueError end
  | PNaN => Raise ValueError
  | PNone | PCompound => Raise TypeError
  end.

(** [round(v, ndigits)] with [ndigits >= 0]: an [int] comes back unchanged,
    a float is rounded. *)
Definition py_round (v : pyval) (ndigits : nat) : outcome pyval :=
  match v with
  | PBool b => Return (PInt (Z_of_bool b))
  | PInt z => Return (PInt z)
  | PFloat q => Return (PFloat (round_float q ndigits))
  | PNaN => Return PNaN
  | PNone | PStr _ | PCompound => Raise TypeError
  end.

End Coercions.

(** [isinstance(v, int)]: [bool] is a subclass of [int]. *)
Definition isinstance_int (v : pyval) : bool :=
  match v with
  | PBool _ | PInt _ => true
  | _ => false
  end.

(** [v < n] and [v > n] for an [int] (or [bool]) [v] and an integer [n]. *)
Definition int_value (v : pyval) : option Z :=
  match v with
  | PBool b => Some (Z_of_bool b)
  | PInt z => Some z
  | _ => None
  end.

(** ** The [interaction_log] table *)

(** A non-NULL SQLite value. *)
Inductive scalar :=
| SInt (z : Z)
| SReal (q : Q)
| SText (s : pystr).

(** A value bound to a [?] placeholder: [None] is NULL.  A [nan] is stored
    as NULL, a [bool] as an integer; a list or a dict cannot be bound. *)
Definition sql_bind (v : pyval) : outcome (option scalar) :=
  match v with
  | PNone | PNaN => Return None
  | PBool b => Return (Some (SInt (Z_of_bool b)))
  | PInt z => Return (Some (SInt z))
  | PFloat q => Return (Some (SReal q))
  | PStr s => Return (Some (SText s))
  | PCompound => Raise InterfaceError
  end.

(** One row, without its primary key.  The first five columns are declared
    [NOT NULL] (in [InteractionLog] and in [_init_database] alike).
    Column affinity conversions of SQLite are not modelled: a column keeps
    the value that was bound. *)
Record LogRow := {
  user_id : scalar;
  session_id : scalar;
  timestamp : scalar;
  query_text : scalar;
  bot_response : scalar;
  intent : option scalar;
  resolved : Z;
  rating : option Z;
  response_time : option Q;
  channel : option scalar;
  language : option scalar;
}.

(** The table: primary key [id] to row. *)
Abbreviation Store := (gmap Z LogRow).

Definition set_rating (r : LogRow) (v : option Z) : LogRow :=
  {| user_id := user_id r; session_id := session_id r; timestamp := timestamp r;
     query_text := query_text r; bot_response := bot_response r;
     intent := intent r; resolved := resolved r; rating := v;
     response_time := response_time r; channel := channel r;
     language := language r |}.

(** The key SQLite gives a row inserted with a NULL [id] into an
    [INTEGER PRIMARY KEY] column: one more than the largest key in use,
    [1] for an empty table. *)
Definition max_key (st : Store) : option Z :=
  foldr (fun k acc => match acc with None => Some k | Some m => Some (Z.max k m) end)
        None (elements (dom st)).

Definition fresh_id (st : Store) : Z :=
  match max_key st with
  | None => 1
  | Some m => m + 1
  end.

(** ** Connections, transactions and the exception monad *)

(** A connection (or ORM session) sees its own uncommitted writes in
    [working]; [durable] is what the database file holds, and what is left
    when a connection goes away without a commit. *)
Record Conn := {
  durable : Store;
  working : Store;
  (** instrumentation: the texts [generate_bot_reply] was called with *)
  replies_asked : list pystr;
}.

Definition connect (st : Store) : Conn :=
  {| durable := st; working := st; replies_asked := [] |}.

Definition M (A : Type) : Type := Conn → outcome A * Conn.

Definition ret {A} (a : A) : M A := fun c => (Return a, c).
Definition raise {A} (e : exn) : M A := fun c => (Raise e, c).
Definition bind {A B} (m : M A) (k : A → M B) : M B :=
  fun c => match m c with
           | (Return a, c') => k a c'
           | (Raise e, c') => (Raise e, c')
           end.
Definition lift {A} (o : outcome A) : M A := fun c => (o, c).

Notation "x <- m ;; k" := (bind m (fun x => k))
  (at level 100, m at level 60, right associativity).
Notation "m ;;; k" := (bind m (fun _ => k))
  (at level 100, right associativity).

Definition get_working : M Store := fun c => (Return (working c), c).
Definition put_working (st : Store) : M unit :=
  fun c => (Return tt, {| durable := durable c; working := st;
                          replies_asked := replies_asked c |}).

(** [conn.commit()] / [db.session.commit()] after the pending statements
    went through. *)
Definition commit : M unit :=
  fun c => (Return tt, {| durable := working c; working := working c;
                          replies_asked := replies_asked c |}).

(** [db.session.rollback()] *)
Definition rollback : M unit :=
  fun c => (Return tt, {| durable := durable c; working := durable c;
                          replies_asked := replies_asked c |}).

(** [try: m except e: h] for one exception class. *)
Definition catch {A} (m : M A) (handles : exn → bool) (h : M A) : M A :=
  fun c => match m c with
           | (Raise e, c') => if handles e then h c' else (Raise e, c')
           | r => r
           end.

(** Sequencing of plain outcomes (no connection involved). *)
Definition obind {A B} (o : outcome A) (k : A → outcome B) : outcome B :=
  match o with
  | Return a => k a
  | Raise e => Raise e
  end.

Notation "x <~ o ;; k" := (obind o (fun x => k))
  (at level 100, o at level 60, right associativity).

(** ** SQL statements on [interaction_log] *)

(** The parameters of an [INSERT] or [UPDATE] of a full row, as Python
    objects, in the order of the columns. *)
Record RowData := {
  d_id : pyval;
  d_user_id : pyval;
  d_session_id : pyval;
  d_timestamp : pyval;
  d_query_text : pyval;
  d_bot_response : pyval;
  d_intent : pyval;
  d_resolved : Z;
  d_rating : option Z;
  d_response_time : option Q;
  d_channel : pyval;
  d_language : pyval;
}.

(** Is the rational an integer, and which. *)
Definition Q_as_int (q : Q) : option Z :=
  if (Z.rem (Qnum q) (Z.pos (Qden q)) =? 0) then Some (Z.quot (Qnum q) (Z.pos (Qden q)))
  else None.

Section Sql.
Context `{!PyBuiltins}.

(** The key a bound value selects in [WHERE id = ?]: NULL and values that
    are no integer select nothing. *)
Definition key_of_scalar (v : option scalar) : option Z :=
  match v with
  | None => None
  | Some (SInt z) => Some z
  | Some (SReal q) => Q_as_int q
  | Some (SText s) => sqlite_int_of_text s
  end.

(** A NOT NULL column refuses NULL. *)
Definition not_null (v : option scalar) : outcome scalar :=
  match v with
  | Some x => Return x
  | None => Raise IntegrityError
  end.

(** Binding of all twelve parameters: a value SQLite cannot hold makes
    [cursor.execute] raise before the statement runs. *)
Definition bind_params (d : RowData) : outcome unit :=
  _ <~ sql_bind (d_id d) ;;
  _ <~ sql_bind (d_user_id d) ;;
  _ <~ sql_bind (d_session_id d) ;;
  _ <~ sql_bind (d_timestamp d) ;;
  _ <~ sql_bind (d_query_text d) ;;
  _ <~ sql_bind (d_bot_response d) ;;
  _ <~ sql_bind (d_intent d) ;;
  _ <~ sql_bind (d_channel d) ;;
  _ <~ sql_bind (d_language d) ;;
  Return tt.

(** The row the eleven non-key parameters make, under the NOT NULL
    constraints. *)
Definition bound_row (d : RowData) : outcome LogRow :=
  u <~ sql_bind (d_user_id d) ;;
  s <~ sql_bind (d_session_id d) ;;
  t <~ sql_bind (d_timestamp d) ;;
  q <~ sql_bind (d_query_text d) ;;
  b <~ sql_bind (d_bot_response d) ;;
  i <~ sql_bind (d_intent d) ;;
  ch <~ sql_bind (d_channel d) ;;
  la <~ sql_bind (d_language d) ;;
  u' <~ not_null u ;;
  s' <~ not_null s ;;
  t' <~ not_null t ;;
  q' <~ not_null q ;;
  b' <~ not_null b ;;
  Return {| user_id := u'; session_id := s'; timestamp := t'; query_text := q';
            bot_response := b'; intent := i; resolved := d_resolved d;
            rating := d_rating d; response_time := d_response_time d;
            channel := ch; language := la |}.

(** [DELETE FROM interaction_log] *)
Definition sql_delete_all : M unit := put_working ∅.

(** [SELECT id FROM interaction_log], collected into a set. *)
Definition sql_select_ids : M (gset Z) :=
  st <- get_working ;; ret (dom st).

(** [DELETE FROM interaction_log WHERE id IN (...)] *)
Definition sql_delete_in (ids : gset Z) : M unit :=
  st <- get_working ;;
  put_working (filter (fun kv => kv.1 ∉ ids) st).

(** [SELECT id FROM interaction_log WHERE id = ?], then
    [cursor.fetchone() is not None]. *)
Definition sql_exists (id : pyval) : M bool :=
  k <- lift (sql_bind id) ;;
  st <- get_working ;;
  ret (match key_of_scalar k with
       | Some z => bool_decide (is_Some (st !! z))
       | None => false
       end).

(** [UPDATE interaction_log SET user_id = ?, ..., language = ? WHERE id = ?]:
    every column but the key is overwritten; no matching row, no change. *)
Definition sql_update (d : RowData) : M unit :=
  lift (bind_params d) ;;;
  k <- lift (sql_bind (d_id d)) ;;
  st <- get_working ;;
  match key_of_scalar k with
  | Some z =>
    match st !! z with
    | Some _ => row <- lift (bound_row d) ;; put_working (<[z := row]> st)
    | None => ret tt
    end
  | None => ret tt
  end.

(** The key of an inserted row: a NULL [id] gets the next free key, a
    value that is no integer is refused (datatype mismatch). *)
Definition insert_key (st : Store) (k : option scalar) : outcome Z :=
  match k with
  | None => Return (fresh_id st)
  | Some _ =>
    match key_of_scalar k with
    | Some z => Return z
    | None => Raise IntegrityError
    end
  end.

(** [INSERT INTO interaction_log (id, user_id, ..., language) VALUES (?, ...)] *)
Definition sql_insert (d : RowData) : M Z :=
  lift (bind_params d) ;;;
  k <- lift (sql_bind (d_id d)) ;;
  st <- get_working ;;
  key <- lift (insert_key st k) ;;
  row <- lift (bound_row d) ;;
  match st !! key with
  | Some _ => raise IntegrityError
  | None => put_working (<[key := row]> st) ;;; ret key
  end.

End Sql.

(** ** The CSV snapshot as pandas reads it *)

(** A [DataFrame]: the header and the cells of each line. *)
Record DataFrame := {
  df_columns : list string;
  df_data : list (list pyval);
}.

(** [pd.DataFrame()] *)
Definition empty_frame : DataFrame := {| df_columns := []; df_data := [] |}.

(** [df.empty]: an axis of length zero. *)
Definition df_empty (df : DataFrame) : bool :=
  match df_columns df, df_data df with
  | [], _ | _, [] => true
  | _, _ => false
  end.

(** A row as [iterrows] yields it: column name to cell. *)
Abbreviation Series := (gmap string pyval).

Definition iterrows (df : DataFrame) : list Series :=
  map (fun cells => list_to_map (zip (df_columns df) cells)) (df_data df).

(** [row.get(key, default)] *)
Definition row_get (row : Series) (key : string) (dflt : pyval) : pyval :=
  default dflt (row !! key).

(** The integer a Python object equals (and hashes like), if any: what
    membership in a set of [int] keys compares. *)
Definition int_key (v : pyval) : option Z :=
  match v with
  | PBool b => Some (Z_of_bool b)
  | PInt z => Some z
  | PFloat q => Q_as_int q
  | _ => None
  end.

(** [set(df['id'].tolist()) if not df.empty and 'id' in df.columns else set()],
    restricted to the members an [int] can equal. *)
Definition csv_id_set (df : DataFrame) : gset Z :=
  if negb (df_empty df) && bool_decide ("id"%string ∈ df_columns df)
  then list_to_set (omap (fun row => int_key (row_get row "id" PNaN)) (iterrows df))
  else ∅.

(** What is at [csv_path]. *)
Inductive CsvFile :=
| NoFile                      (* [os.path.exists] is false *)
| Garbled                     (* [pd.read_csv] fails to parse *)
| NoData                      (* zero bytes: [pd.errors.EmptyDataError] *)
| Parsed (df : DataFrame).

Record SyncEnv := {
  csv_file : CsvFile;
  (** does [sqlite3.connect(db_path)] succeed *)
  db_reachable : bool;
}.

Definition path_exists (f : CsvFile) : bool :=
  match f with NoFile => false | _ => true end.

Definition read_csv (f : CsvFile) : outcome DataFrame :=
  match f with
  | NoFile => Raise FileNotFoundError
  | Garbled => Raise ParserError
  | NoData => Raise EmptyDataError
  | Parsed df => Return df
  end.

Definition sqlite3_connect (env : SyncEnv) : M unit :=
  if db_reachable env then ret tt else raise OperationalError.

Definition is_EmptyDataError (e : exn) : bool :=
  match e with EmptyDataError => true | _ => false end.

(** [for x in xs: body(x)] *)
Fixpoint for_each {A} (xs : list A) (body : A → M unit) : M unit :=
  match xs with
  | [] => ret tt
  | x :: xs' => body x ;;; for_each xs' body
  end.

Section Reconciler.
Context `{!PyBuiltins}.

(** The [data] dictionary built from one CSV row. *)
Definition prepare_data (row : Series) : outcome RowData :=
  res <~ (if pd_notna (row_get row "resolved" PNone)
          then py_int (row_get row "resolved" (PInt 1))
          else Return 1) ;;
  rat <~ (if pd_notna (row_get row "rating" PNone)
          then z <~ py_int (row_get row "rating" PNone) ;; Return (Some z)
          else Return None) ;;
  rt <~ (if pd_notna (row_get row "response_time" PNone)
         then q <~ py_float (row_get row "response_time" PNone) ;; Return (Some q)
         else Return None) ;;
  Return {| d_id := row_get row "id" PNone;
            d_user_id := row_get row "user_id" (PStr []);
            d_session_id := row_get row "session_id" (PStr []);
            d_timestamp := row_get row "timestamp" (PStr []);
            d_query_text := row_get row "query_text" (PStr []);
            d_bot_response := row_get row "bot_response" (PStr []);
            d_intent := row_get row "intent" PNone;
            d_resolved := res;
            d_rating := rat;
            d_response_time := rt;
            d_channel := row_get row "channel" (PStr (u8 "web"));
            d_language := row_get row "language" (PStr (u8 "ru")) |}.

(** The body of the [for _, row in df.iterrows()] loop. *)
Definition upsert_row (row : Series) : M unit :=
  data <- lift (prepare_data row) ;;
  exists_ <- sql_exists (d_id data) ;;
  if (exists_ : bool) then sql_update data
  else (_ <- sql_insert data ;; ret tt).

(** The [try] block of [CSVDBSync.csv_to_db]. *)
Definition csv_to_db_try (env : SyncEnv) : M bool :=
  if negb (path_exists (csv_file env)) then ret false
  else
    df <- catch (lift (read_csv (csv_file env))) is_EmptyDataError (ret empty_frame) ;;
    sqlite3_connect env ;;;
    if df_empty df then
      sql_delete_all ;;;
      commit ;;;
      ret true
    else
      existing_ids <- sql_select_ids ;;
      let csv_ids := csv_id_set df in
      let ids_to_delete := existing_ids ∖ csv_ids in
      (if bool_decide (ids_to_delete ≠ ∅) then sql_delete_in ids_to_delete else ret tt) ;;;
      for_each (iterrows df) upsert_row ;;;
      commit ;;;
      ret true.

(** [CSVDBSync.csv_to_db]: any exception is logged and turned into [False];
    the connection is dropped, and with it whatever was not committed. *)
Definition csv_to_db (env : SyncEnv) (st : Store) : bool * Store :=
  match csv_to_db_try env (connect st) with
  | (Return b, c) => (b, durable c)
  | (Raise _, c) => (false, durable c)
  end.

(** [AutoSync.sync_csv_to_db] in [auto_sync.py] repeats the same statements. *)
Definition sync_csv_to_db_try (env : SyncEnv) : M bool :=
  if negb (path_exists (csv_file env)) then ret false
  else
    df <- catch (lift (read_csv (csv_file env))) is_EmptyDataError (ret empty_frame) ;;
    sqlite3_connect env ;;;
    if df_empty df then
      sql_delete_all ;;;
      commit ;;;
      ret true
    else
      existing_ids <- sql_select_ids ;;
      let csv_ids := csv_id_set df in
      let ids_to_delete := existing_ids ∖ csv_ids in
      (if bool_decide (ids_to_delete ≠ ∅) then sql_delete_in ids_to_delete else ret tt) ;;;
      for_each (iterrows df) upsert_row ;;;
      commit ;;;
      ret true.

Definition sync_csv_to_db (env : SyncEnv) (st : Store) : bool * Store :=
  match sync_csv_to_db_try env (connect st) with
  | (Return b, c) => (b, durable c)
  | (Raise _, c) => (false, durable c)
  end.

End Reconciler.

(** ** The HTTP handlers of [app.py] *)

(** A parsed JSON object: [request.get_json()] gives [None] for a [null]
    body, otherwise the dictionary. *)
Abbreviation Json := (gmap string pyval).

(** The body of an error envelope [{"error": ...}] with its status, or the
    payload of a success. *)
Record Stats := {
  total_interactions : Z;
  rated_interactions : Z;
  average_rating : pyval;
  resolved_count : Z;
  resolution_rate : pyval;
  average_response_time : pyval;
  intent_distribution : list (option scalar * Z);
}.

Inductive Response :=
| ChatOk (response : pystr) (log_id : Z) (intent : pystr) (resolved : bool)
| RateOk (log_id : pyval) (rating : pyval)
| StatsOk (s : Stats)
| ClientError (status : Z) (error : pystr)
| ServerError (e : exn).

Definition status_of (r : Response) : Z :=
  match r with
  | ChatOk _ _ _ _ | RateOk _ _ | StatsOk _ => 200
  | ClientError s _ => s
  | ServerError _ => 500
  end.

(** What [chat] reads from outside the request: the clock of the responder,
    the column default [datetime.utcnow], a fresh [uuid.uuid4()] and the
    measured [time.time() - start_time]. *)
Record ChatEnv := {
  clock : Clock;
  utcnow : pystr;
  uuid4 : pystr;
  elapsed : Q;
}.

(** [not data] for a parsed body. *)
Definition json_falsy (data : option Json) : bool :=
  match data with
  | None => true
  | Some d => bool_decide (dom d = ∅)
  end.

(** ['key' in data] *)
Definition json_has (d : Json) (key : string) : bool :=
  bool_decide (is_Some (d !! key)).

(** [data.get(key, default)] *)
Definition json_get (d : Json) (key : string) (dflt : pyval) : pyval :=
  default dflt (d !! key).

(** [data[key]] *)
Definition json_item (d : Json) (key : string) : outcome pyval :=
  match d !! key with
  | Some v => Return v
  | None => Raise TypeError
  end.

(** [v.strip()]: only a [str] has the method. *)
Definition py_strip (v : pyval) : outcome pystr :=
  match v with
  | PStr s => Return (strip s)
  | _ => Raise AttributeError
  end.

Module Err.
Definition no_message : pystr := u8 "Отсутствует поле 'message' в запросе".
Definition blank_message : pystr := u8 "Сообщение не может быть пустым".
Definition no_fields : pystr := u8 "Отсутствуют поля 'log_id' или 'rating'".
Definition bad_rating : pystr := u8 "Оценка должна быть числом от 1 до 5".
Definition not_found : pystr := u8 "Запись не найдена".
End Err.

Section Handlers.
Context `{!PyBuiltins}.

(** The call [generate_bot_reply(user_input)], recorded in the connection's
    instrumentation; [user_text.lower()] needs a [str]. *)
Definition call_generate_bot_reply (clk : Clock) (user_input : pyval) : M Reply :=
  fun c =>
    let c' := {| durable := durable c; working := working c;
                 replies_asked := replies_asked c ++ [match user_input with
                                                      | PStr s => s
                                                      | _ => []
                                                      end] |} in
    match user_input with
    | PStr s => (Return (generate_bot_reply clk s), c')
    | _ => (Raise AttributeError, c')
    end.

(** The [try] block of [chat]. *)
Definition chat_try (env : ChatEnv) (data : option Json) : M Response :=
  match data with
  | None => ret (ClientError 400 Err.no_message)
  | Some d =>
    if json_falsy data || negb (json_has d "message") then
      ret (ClientError 400 Err.no_message)
    else
      user_input <- lift (json_item d "message") ;;
      stripped <- lift (py_strip user_input) ;;
      if negb (truthy stripped) then
        ret (ClientError 400 Err.blank_message)
      else
        let user_id := json_get d "user_id" (PStr (u8 "anonymous")) in
        let session_id := json_get d "session_id" (PStr (uuid4 env)) in
        let channel := json_get d "channel" (PStr (u8 "web")) in
        let language := json_get d "language" (PStr (u8 "ru")) in
        r <- call_generate_bot_reply (clock env) user_input ;;
        let response_time := elapsed env in
        let log_entry :=
          {| d_id := PNone;
             d_user_id := user_id;
             d_session_id := session_id;
             d_timestamp := PStr (utcnow env);
             d_query_text := user_input;
             d_bot_response := PStr (reply_text r);
             d_intent := PStr (reply_intent r);
             d_resolved := Z_of_bool (reply_resolved r);
             d_rating := None;
             d_response_time := Some response_time;
             d_channel := channel;
             d_language := language |} in
        new_id <- sql_insert log_entry ;;
        commit ;;;
        ret (ChatOk (reply_text r) new_id (reply_intent r) (reply_resolved r))
  end.

(** What a handler leaves behind: the response, the table as the database
    file holds it, and the recorded responder calls. *)
Record Served := {
  response : Response;
  store_after : Store;
  responder_calls : list pystr;
}.

(** [try: ... except Exception as e: db.session.rollback(); return 500] *)
Definition serve (body : M Response) (st : Store) : Served :=
  match body (connect st) with
  | (Return r, c) =>
    {| response := r; store_after := durable c; responder_calls := replies_asked c |}
  | (Raise e, c) =>
    let c' := (rollback c).2 in
    {| response := ServerError e; store_after := durable c';
       responder_calls := replies_asked c' |}
  end.

Definition chat (env : ChatEnv) (data : option Json) (st : Store) : Served :=
  serve (chat_try env data) st.

(** [db.session.get(InteractionLog, log_id)].  Keys that are no integers are
    matched the way the [WHERE id = ?] of the reconciler matches them. *)
Definition session_get (log_id : pyval) : M (option (Z * LogRow)) :=
  k <- lift (sql_bind log_id) ;;
  st <- get_working ;;
  ret (match key_of_scalar k with
       | Some z => match st !! z with Some r => Some (z, r) | None => None end
       | None => None
       end).

(** [not isinstance(rating, int) or rating < 1 or rating > 5] *)
Definition rating_rejected (rating : pyval) : bool :=
  negb (isinstance_int rating) ||
  match int_value rating with
  | Some z => (z <? 1) || (5 <? z)
  | None => true
  end.

(** The [try] block of [rate_response]. *)
Definition rate_response_try (data : option Json) : M Response :=
  match data with
  | None => ret (ClientError 400 Err.no_fields)
  | Some d =>
    if json_falsy data || negb (json_has d "log_id") || negb (json_has d "rating") then
      ret (ClientError 400 Err.no_fields)
    else
      log_id <- lift (json_item d "log_id") ;;
      rating <- lift (json_item d "rating") ;;
      if rating_rejected rating then
        ret (ClientError 400 Err.bad_rating)
      else
        log_entry <- session_get log_id ;;
        match log_entry with
        | None => ret (ClientError 404 Err.not_found)
        | Some (z, row) =>
          st <- get_working ;;
          put_working (<[z := set_rating row (int_value rating)]> st) ;;;
          commit ;;;
          ret (RateOk log_id rating)
        end
  end.

Definition rate_response (data : option Json) (st : Store) : Served :=
  serve (rate_response_try data) st.

(** *** Statistics *)

(** [a / b] on two [int]s: true division. *)
Definition py_truediv (a b : Z) : outcome Q :=
  if b =? 0 then Raise ZeroDivisionError
  else Return (Qred (inject_Z a / inject_Z b)).

(** SQL [AVG] over the non-NULL values of a column: NULL for none. *)
Definition sql_avg (xs : list Q) : option Q :=
  match xs with
  | [] => None
  | _ => Some (Qred (fold_right Qplus 0%Q xs / inject_Z (Z.of_nat (length xs))))
  end.

(** [x or 0] on the scalar a query returns: [None] and [0.0] are falsy. *)
Definition or_zero (x : option Q) : pyval :=
  match x with
  | None => PInt 0
  | Some q => if Qeq_bool q 0 then PInt 0 else PFloat q
  end.

(** Equality of two column values as [GROUP BY] sees it. *)
Definition sql_same (a b : option scalar) : bool :=
  match a, b with
  | None, None => true
  | Some (SInt x), Some (SInt y) => x =? y
  | Some (SReal x), Some (SReal y) => Qeq_bool x y
  | Some (SInt x), Some (SReal y) | Some (SReal y), Some (SInt x) => Qeq_bool (inject_Z x) y
  | Some (SText x), Some (SText y) => bool_decide (x = y)
  | _, _ => false
  end.

(** One more row in the group of [key]. *)
Fixpoint count_in (key : option scalar) (groups : list (option scalar * Z))
  : list (option scalar * Z) :=
  match groups with
  | [] => [(key, 1)]
  | (k, n) :: rest =>
    if sql_same k key then (k, n + 1) :: rest else (k, n) :: count_in key rest
  end.

(** [SELECT intent, COUNT(id) ... GROUP BY intent] *)
Definition group_by_intent (rows : list LogRow) : list (option scalar * Z) :=
  fold_left (fun groups r => count_in (intent r) groups) rows [].

Definition count_where (p : LogRow → bool) (rows : list LogRow) : Z :=
  Z.of_nat (length (List.filter p rows)).

(** The [try] block of [get_stats]. *)
Definition get_stats_try (st : Store) : outcome Stats :=
  let rows := (map_to_list st).*2 in
  let total_interactions := count_where (fun _ => true) rows in
  let rated_interactions :=
    count_where (fun r => bool_decide (is_Some (rating r))) rows in
  let avg_rating :=
    or_zero (sql_avg (omap (fun r => inject_Z <$> rating r) rows)) in
  let resolved_count := count_where (fun r => resolved r =? 1) rows in
  let intent_stats := group_by_intent rows in
  let avg_response_time := or_zero (sql_avg (omap response_time rows)) in
  ar <~ py_round avg_rating 2 ;;
  pct <~ (if 0 <? total_interactions
          then q <~ py_truediv resolved_count total_interactions ;;
               Return (PFloat (Qred (q * 100)))
          else Return (PInt 0)) ;;
  rr <~ py_round pct 2 ;;
  art <~ py_round avg_response_time 3 ;;
  Return {| total_interactions := total_interactions;
            rated_interactions := rated_interactions;
            average_rating := ar;
            resolved_count := resolved_count;
            resolution_rate := rr;
            average_response_time := art;
            intent_distribution := intent_stats |}.

Definition get_stats (st : Store) : Response :=
  match get_stats_try st with
  | Return s => StatsOk s
  | Raise e => ServerError e
  end.

End Handlers.

(** ** An instance of the library interface

    Enough of Python for Basic Latin, Latin-1 and Cyrillic text and for
    plain decimal numerals; used to run the model on concrete inputs. *)

Module Basic.

(** Lower-case mapping of one code point: A-Z, the Latin-1 capitals, and
    the Cyrillic capitals U+0400-U+042F. *)
Definition lower_cp (c : N) : N :=
  if ((65 <=? c) && (c <=? 90))%N then (c + 32)%N
  else if ((192 <=? c) && (c <=? 222) && negb (c =? 215))%N then (c + 32)%N
  else if ((1040 <=? c) && (c <=? 1071))%N then (c + 32)%N
  else if ((1024 <=? c) && (c <=? 1039))%N then (c + 80)%N
  else c.

Definition lower (s : pystr) : pystr := map lower_cp s.

Definition digit_of (c : N) : option Z :=
  if ((48 <=? c) && (c <=? 57))%N then Some (Z.of_N (c - 48)) else None.

(** The value of a non-empty run of decimal digits. *)
Fixpoint digits_value (acc : Z) (s : pystr) : option Z :=
  match s with
  | [] => Some acc
  | c :: s' =>
    match digit_of c with
    | Some d => digits_value (acc * 10 + d) s'
    | None => None
    end
  end.

Definition unsigned_int (s : pystr) : option Z :=
  match s with
  | [] => None
  | _ :: _ => digits_value 0 s
  end.

(** Optional sign, then digits; surrounding white space is allowed. *)
Definition parse_int (s : pystr) : option Z :=
  match strip s with
  | 45%N :: r => Z.opp <$> unsigned_int r
  | 43%N :: r => unsigned_int r
  | r => unsigned_int r
  end.

(** Split at the first occurrence of [c]. *)
Fixpoint split_at (c : N) (s : pystr) : pystr * option pystr :=
  match s with
  | [] => ([], None)
  | x :: s' =>
    if (x =? c)%N then ([], Some s')
    else let '(a, b) := split_at c s' in (x :: a, b)
  end.

Definition unsigned_decimal (s : pystr) : option Q :=
  match split_at 46 s with
  | (ip, None) => inject_Z <$> unsigned_int ip
  | (ip, Some fp) =>
    match digits_value 0 ip, digits_value 0 fp with
    | Some i, Some f =>
      match ip, fp with
      | [], [] => None
      | _, _ => Some (Qred (inject_Z i + inject_Z f / inject_Z (10 ^ Z.of_nat (length fp))))
      end
    | _, _ => None
    end
  end.

(** Optional sign, digits, optional fraction. *)
Definition parse_float (s : pystr) : option Q :=
  match strip s with
  | 45%N :: r => Qopp <$> unsigned_decimal r
  | 43%N :: r => unsigned_decimal r
  | r => unsigned_decimal r
  end.

(** Rounding of a rational to the nearest integer, ties to even. *)
Definition round_half_even (q : Q) : Z :=
  let fl := Qfloor q in
  let twice := Qred (2 * (q - inject_Z fl)) in
  match Qcompare twice 1 with
  | Lt => fl
  | Gt => fl + 1
  | Eq => if Z.even fl then fl else fl + 1
  end.

(** Rounding to [ndigits] decimals. *)
Definition round_to (q : Q) (ndigits : nat) : Q :=
  let scale := inject_Z (10 ^ Z.of_nat ndigits) in
  Qred (inject_Z (round_half_even (q * scale)) / scale).

End Basic.

Definition basic_builtins : PyBuiltins :=
  {| str_lower := Basic.lower;
     int_of_str := Basic.parse_int;
     float_of_str := Basic.parse_float;
     round_float := Basic.round_to;
     sqlite_int_of_text := Basic.parse_int |}.

(** ** Predicates used in the statements *)

(** A rating the range check lets through: an [int] object (a [bool] is
    one in Python, [True] being [1]) whose value is between 1 and 5. *)
Definition valid_rating (rating : pyval) (z : Z) : Prop :=
  int_value rating = Some z ∧ 1 ≤ z ≤ 5.

(** Two rows that differ at most in [rating]. *)
Definition same_but_rating (r r' : LogRow) : Prop :=
  user_id r' = user_id r ∧ session_id r' = session_id r ∧
  timestamp r' = timestamp r ∧ query_text r' = query_text r ∧
  bot_response r' = bot_response r ∧ intent r' = intent r ∧
  resolved r' = resolved r ∧ response_time r' = response_time r ∧
  channel r' = channel r ∧ language r' = language r.

(** The value binds to a non-NULL column value. *)
Definition binds_value (v : pyval) : bool :=
  match sql_bind v with
  | Return (Some _) => true
  | _ => false
  end.

(** The value binds (possibly to NULL). *)
Definition binds (v : pyval) : bool :=
  match sql_bind v with
  | Return _ => true
  | Raise _ => false
  end.

(** The optional fields of a chat request are such that the insert goes
    through: [user_id] and [session_id], when given, are neither [null] nor
    compound, [channel] and [language] are not compound. *)
Definition chat_storable (d : Json) : bool :=
  binds_value (json_get d "user_id" (PStr [])) &&
  binds_value (json_get d "session_id" (PStr [])) &&
  binds (json_get d "channel" (PStr [])) &&
  binds (json_get d "language" (PStr [])).

(** Every rating that is present lies in [1,5]. *)
Definition ratings_in_range (st : Store) : Prop :=
  ∀ i row z, st !! i = Some row → rating row = Some z → 1 ≤ z ≤ 5.

(** The column value a Python object is stored as (NULL when it binds to
    NULL or does not bind). *)
Definition bound (v : pyval) : option scalar :=
  match sql_bind v with
  | Return x => x
  | Raise _ => None
  end.

(** The value [get_stats] passes to [round(..., 2)] for the resolution
    rate. *)
Definition resolution_percent (resolved_n total : Z) : pyval :=
  if 0 <? total
  then PFloat (Qred (Qred (inject_Z resolved_n / inject_Z total) * 100))
  else PInt 0.

(** The connection after its working table is replaced. *)
Definition set_working (c : Conn) (w : Store) : Conn :=
  {| durable := durable c; working := w; replies_asked := replies_asked c |}.

Section Entries.
Context `{!PyBuiltins}.

(** What a CSV row with an integer [id] is stored as, when its cells coerce
    and the table's constraints accept them: the key and the row. *)
Definition row_entry (row : Series) : option (Z * LogRow) :=
  match prepare_data row with
  | Return data =>
    match d_id data, bound_row data with
    | PInt z, Return r => Some (z, r)
    | _, _ => None
    end
  | Raise _ => None
  end.

(** The entries of a whole snapshot, in file order; [None] as soon as one
    row has no entry. *)
Definition csv_entries (df : DataFrame) : option (list (Z * LogRow)) :=
  mapM row_entry (iterrows df).

End Entries.

(** The working table once the rows whose id is not in the snapshot are
    deleted. *)
Definition after_delete (st : Store) (csv_ids : gset Z) : Store :=
  filter (fun kv => kv.1 ∉ dom st ∖ csv_ids) st.

(** The table after the entries are written one after the other. *)
Definition write_entries (w : Store) (entries : list (Z * LogRow)) : Store :=
  foldl (fun w e => <[e.1 := e.2]> w) w entries.

Section Reachable.
Context `{!PyBuiltins}.

(** Every rating the CSV rows of the environment carry lies in [1,5]. *)
Definition csv_ratings_in_range (env : SyncEnv) : Prop :=
  ∀ df row data z, csv_file env = Parsed df → row ∈ iterrows df →
    prepare_data row = Return data → d_rating data = Some z → 1 ≤ z ≤ 5.

(** The tables the handlers build from the empty table, with reconciler
    runs on snapshots whose ratings are in range in between. *)
Inductive reachable : Store → Prop :=
| reach_empty : reachable ∅
| reach_chat env data st :
    reachable st → reachable (store_after (chat env data st))
| reach_rate data st :
    reachable st → reachable (store_after (rate_response data st))
| reach_sync env st :
    reachable st → csv_ratings_in_range env → reachable (csv_to_db env st).2.

End Reachable.

(** ** Concrete data for running the model *)

Module Demo.

Definition noon : Clock := {| now_HM := u8 "12:30"; now_dmY := u8 "01.02.2024" |}.

Definition chat_env : ChatEnv :=
  {| clock := noon; utcnow := u8 "2024-02-01 12:30:00.000000";
     uuid4 := u8 "3f2b8c1e-0000-4000-8000-000000000001"; elapsed := 1 # 10 |}.

(** A stored row, as [chat] would have written it. *)
Definition old_row (resolved_flag : Z) (rate : option Z) : LogRow :=
  {| user_id := SText (u8 "anonymous"); session_id := SText (u8 "s-old");
     timestamp := SText (u8 "2024-01-31 09:00:00.000000");
     query_text := SText (u8 "hello"); bot_response := SText Msg.greeting;
     intent := Some (SText (u8 "greeting")); resolved := resolved_flag;
     rating := rate; response_time := Some (1 # 10);
     channel := Some (SText (u8 "web")); language := Some (SText (u8 "ru")) |}.

(** A table with ids 2, 3 and 4. *)
Definition st234 : Store :=
  <[2 := old_row 1 None]> (<[3 := old_row 1 (Some 4)]> (<[4 := old_row 0 None]> ∅)).

(** A table with three rows, one of them resolved. *)
Definition st_one_of_three : Store :=
  <[1 := old_row 1 None]> (<[2 := old_row 0 None]> (<[3 := old_row 0 None]> ∅)).

Definition header : list string :=
  ["id"; "user_id"; "session_id"; "timestamp"; "query_text"; "bot_response";
   "intent"; "resolved"; "rating"; "response_time"; "channel"; "language"]%string.

(** One line of the CSV, as pandas types its cells. *)
Definition line (id : Z) (res rat chan : pyval) : list pyval :=
  [PInt id; PStr (u8 "u1"); PStr (u8 "s1"); PStr (u8 "2024-02-01 10:00:00");
   PStr (u8 "который час"); PStr (u8 "Сейчас 10:00."); PStr (u8 "time_query");
   res; rat; PFloat (2 # 10); chan; PStr (u8 "ru")].

(** A snapshot with ids 1, 2 and 3; the rating column has an empty cell,
    so pandas reads it as floats. *)
Definition df123 : DataFrame :=
  {| df_columns := header;
     df_data := [line 1 (PBool true) PNaN (PStr (u8 "web"));
                 line 2 (PBool true) (PFloat 4) (PStr (u8 "web"));
                 line 3 (PBool false) (PFloat 5) (PStr (u8 "telegram"))] |}.

Definition env123 : SyncEnv := {| csv_file := Parsed df123; db_reachable := true |}.

(** The file is not there. *)
Definition env_missing : SyncEnv := {| csv_file := NoFile; db_reachable := true |}.

(** The file has a header and no line. *)
Definition env_header_only : SyncEnv :=
  {| csv_file := Parsed {| df_columns := header; df_data := [] |};
     db_reachable := true |}.

(** A [resolved] cell that is no number. *)
Definition env_bad_resolved : SyncEnv :=
  {| csv_file := Parsed {| df_columns := header;
                           df_data := [line 1 (PStr (u8 "maybe")) PNaN (PStr (u8 "web"))] |};
     db_reachable := true |}.

(** A [rating] cell that is no number. *)
Definition env_bad_rating : SyncEnv :=
  {| csv_file := Parsed {| df_columns := header;
                           df_data := [line 1 (PBool true) (PStr (u8 "five")) (PStr (u8 "web"))] |};
     db_reachable := true |}.

(** An empty [channel] cell. *)
Definition env_blank_channel : SyncEnv :=
  {| csv_file := Parsed {| df_columns := header;
                           df_data := [line 1 (PBool true) PNaN PNaN] |};
     db_reachable := true |}.

(** A rating of 9. *)
Definition env_rating_9 : SyncEnv :=
  {| csv_file := Parsed {| df_columns := header;
                           df_data := [line 1 (PBool true) (PInt 9) (PStr (u8 "web"))] |};
     db_reachable := true |}.

(** The database cannot be opened. *)
Definition env_db_down : SyncEnv := {| csv_file := Parsed df123; db_reachable := false |}.

Definition entries123 : list (Z * LogRow) :=
  default [] (@csv_entries basic_builtins df123).

Definition rate_request (log_id rating : pyval) : Json :=
  <["log_id"%string := log_id]> (<["rating"%string := rating]> ∅).

Definition chat_request (message : pyval) : Json :=
  <["message"%string := message]> ∅.

End Demo.
From stdpp Require Import sorting.
Local Open Scope Z_scope.
Local Open Scope list_scope.

(** * The rest of the scripts *)

(** ** Deleting rows ([sync_csv_db.py], [view_db.py]) *)

(** [sqlite3.connect(...)] of a script: it raises when the database cannot
    be opened. *)
Definition connect_db (up : bool) : M unit :=
  if up then ret tt else raise OperationalError.

(** [try: ... except Exception as e: ...; return False] around the body of
    a script function; what was not committed is lost with the
    connection. *)
Definition run_script (body : M bool) (st : Store) : bool * Store :=
  match body (connect st) with
  | (Return b, c) => (b, durable c)
  | (Raise _, c) => (false, durable c)
  end.

(** [DELETE FROM interaction_log WHERE id = ?] with an integer. *)
Definition sql_delete_id (id : Z) : M unit :=
  st <- get_working ;; put_working (delete id st).

(** The rows in the order of [ORDER BY id]. *)
Definition by_id (a b : Z * LogRow) : Prop := (a.1 ≤ b.1)%Z.

#[global] Instance by_id_dec a b : Decision (by_id a b) := Z.le_dec _ _.

Definition select_ordered (st : Store) : list (Z * LogRow) :=
  merge_sort by_id (map_to_list st).

(** The database file as a script meets it: whether [sqlite3.connect] and
    the statements on the table succeed, and the largest number of [?]
    parameters one statement may have (SQLite's limit on bound variables,
    which depends on how the library was built). *)
Record DbFile := {
  db_opens : bool;
  max_variables : nat;
}.

(** An [int] SQLite can store; binding any other raises. *)
Definition sqlite_int (z : Z) : bool := (- 2 ^ 63 <=? z) && (z <? 2 ^ 63).

(** Binding one [int] to a [?]: [OverflowError] outside the 64-bit range.
    The scripts handle every exception alike, so the class is not kept
    apart here. *)
Definition bind_int (z : Z) : M unit :=
  if sqlite_int z then ret tt else raise OperationalError.

(** Can the list be bound to the placeholders of one statement. *)
Definition bindable (db : DbFile) (ids : list Z) : bool :=
  forallb sqlite_int ids && (length ids <=? max_variables db)%nat.

(** Binding a list of [int] to as many [?]: too many parameters, or an
    [int] outside the 64-bit range, raise. *)
Definition bind_ids (db : DbFile) (ids : list Z) : M unit :=
  if bindable db ids then ret tt else raise OperationalError.

Section Deletes.
Context `{!PyBuiltins}.

(** [CSVDBSync.delete_from_db(record_ids)] *)
Definition delete_from_db (db : DbFile) (record_ids : list Z) (st : Store)
  : bool * Store :=
  run_script
    (connect_db (db_opens db) ;;;
     (if bool_decide (record_ids ≠ [])
      then bind_ids db record_ids ;;; sql_delete_in (list_to_set record_ids)
      else ret tt) ;;;
     commit ;;;
     ret true) st.

(** [delete_record_by_id(record_id)] of [view_db.py] *)
Definition delete_record_by_id (db : DbFile) (record_id : Z) (st : Store)
  : bool * Store :=
  run_script
    (connect_db (db_opens db) ;;;
     bind_int record_id ;;;
     found <- sql_exists (PInt record_id) ;;
     if negb found then ret false
     else
       sql_delete_id record_id ;;;
       commit ;;;
       ret true) st.

(** [delete_records_by_ids(record_ids)] of [view_db.py]: no test for an
    empty list; SQLite accepts [IN ()] and matches nothing. *)
Definition delete_records_by_ids (db : DbFile) (record_ids : list Z) (st : Store)
  : bool * Store :=
  run_script
    (connect_db (db_opens db) ;;;
     bind_ids db record_ids ;;;
     sql_delete_in (list_to_set record_ids) ;;;
     commit ;;;
     ret true) st.

(** [delete_all_records()] of [view_db.py] *)
Definition delete_all_records (db : DbFile) (st : Store) : bool * Store :=
  run_script
    (connect_db (db_opens db) ;;;
     sql_delete_all ;;;
     commit ;;;
     ret true) st.

End Deletes.

(** ** The table editor ([view_db.py]) *)

(** [s.split()]: the maximal runs of characters that are no white space;
    [cur] holds the run being read, last character first. *)
Fixpoint split_ws_from (cur s : pystr) : list pystr :=
  match s with
  | [] => match cur with [] => [] | _ :: _ => [rev cur] end
  | c :: s' =>
    if is_space c
    then match cur with
         | [] => split_ws_from [] s'
         | _ :: _ => rev cur :: split_ws_from [] s'
         end
    else split_ws_from (c :: cur) s'
  end.

Definition split_ws (s : pystr) : list pystr := split_ws_from [] s.

(** [s.split(sep)] for a separator of one character: empty pieces are
    kept. *)
Fixpoint split_on_from (sep : N) (cur s : pystr) : list pystr :=
  match s with
  | [] => [rev cur]
  | c :: s' =>
    if (c =? sep)%N then rev cur :: split_on_from sep [] s'
    else split_on_from sep (c :: cur) s'
  end.

Definition split_on (sep : N) (s : pystr) : list pystr := split_on_from sep [] s.

Definition comma : N := 44%N.

Section ViewDb.
Context `{!PyBuiltins}.

(** [confirm.lower() in ['yes', 'y', 'да']] *)
Definition confirmed (answer : pystr) : bool :=
  bool_decide (str_lower answer ∈ [u8 "yes"; u8 "y"; u8 "да"]).

(** [interactive_mode()], on the lines [input()] returns, as the table it
    leaves.  Printing is left out, and so is [show], which only reads.
    When the lines run out [input()] raises [EOFError], which nothing
    catches: the program ends there. *)
Fixpoint interactive_mode (db : DbFile) (lines : list pystr) (st : Store)
  {struct lines} : Store :=
  match lines with
  | [] => st
  | line :: rest =>
    let command := str_lower (strip line) in
    if bool_decide (command = u8 "quit") || bool_decide (command = u8 "q") then st
    else if bool_decide (command = u8 "show") then interactive_mode db rest st
    else if startswith (u8 "delete ") command then
      interactive_mode db rest
        (match split_ws command !! 1%nat with
         | Some word =>
           match int_of_str word with
           | Some record_id => (delete_record_by_id db record_id st).2
           | None => st                                   (* ValueError *)
           end
         | None => st                                     (* IndexError *)
         end)
    else if startswith (u8 "delete_many ") command then
      interactive_mode db rest
        (match split_ws command !! 1%nat with
         | Some ids_str =>
           match mapM (fun x => int_of_str (strip x)) (split_on comma ids_str) with
           | Some record_ids => (delete_records_by_ids db record_ids st).2
           | None => st                                   (* ValueError *)
           end
         | None => st                                     (* IndexError *)
         end)
    else if bool_decide (command = u8 "delete_all") then
      match rest with
      | [] => st
      | confirm :: rest' =>
        interactive_mode db rest'
          (if confirmed confirm then (delete_all_records db st).2 else st)
      end
    else interactive_mode db rest st
  end.

(** [main()] of [view_db.py], on [sys.argv] and the lines of the standard
    input, as the table it leaves. *)
Definition view_db_main (db : DbFile) (argv lines : list pystr) (st : Store) : Store :=
  match argv with
  | _ :: arg1 :: args =>
    let command := str_lower arg1 in
    if bool_decide (command = u8 "show") then st
    else if bool_decide (command = u8 "delete") && bool_decide (args ≠ []) then
      match args with
      | arg2 :: _ =>
        match int_of_str arg2 with
        | Some record_id => (delete_record_by_id db record_id st).2
        | None => st                                      (* ValueError *)
        end
      | [] => st
      end
    else if bool_decide (command = u8 "delete_all") then
      match lines with
      | [] => st
      | confirm :: _ =>
        if confirmed confirm then (delete_all_records db st).2 else st
      end
    else st
  | _ => interactive_mode db lines st
  end.

End ViewDb.

(** ** Exporting the table ([sync_csv_db.py]) *)

(** [CSVDBSync.db_to_csv()]: the result and the rows written to
    [csv_path], in file order ([None]: the file is not written).  The path
    is taken to be writable. *)
Definition db_to_csv (up : bool) (st : Store) : bool * option (list (Z * LogRow)) :=
  if up then (true, Some (select_ordered st)) else (false, None).

(** [CSVDBSync._get_db_count()]: 0 when the database cannot be read. *)
Definition _get_db_count (up : bool) (st : Store) : Z :=
  if up then Z.of_nat (size st) else 0%Z.

(** What [sync_both_ways] leaves: its result, the table, and the rows
    written to the CSV path. *)
Record BothWays := {
  both_ok : bool;
  both_store : Store;
  both_written : option (list (Z * LogRow));
}.

(** The dictionary [CSVDBSync.get_stats()] returns, without its
    [last_check] time stamp. *)
Record SyncStats := {
  csv_exists : bool;
  csv_records : Z;
  db_records : Z;
  sync_status : pystr;
  stats_error : option exn;
}.

Section BothWaysDefs.
Context `{!PyBuiltins}.

(** [CSVDBSync.sync_both_ways()]: the export runs whatever the import
    returned. *)
Definition sync_both_ways (env : SyncEnv) (st : Store) : BothWays :=
  let '(csv_success, st') := csv_to_db env st in
  let '(db_success, written) := db_to_csv (db_reachable env) st' in
  {| both_ok := csv_success && db_success; both_store := st';
     both_written := written |}.

(** [CSVDBSync.get_stats()]: here [pd.read_csv] is not guarded against
    [EmptyDataError]. *)
Definition sync_get_stats (env : SyncEnv) (st : Store) : SyncStats :=
  let exists_ := path_exists (csv_file env) in
  match (if exists_
         then df <~ read_csv (csv_file env) ;; Return (Z.of_nat (length (df_data df)))
         else Return 0%Z) with
  | Return csv_count =>
    let db_count := _get_db_count (db_reachable env) st in
    {| csv_exists := exists_; csv_records := csv_count; db_records := db_count;
       sync_status := if (csv_count =? db_count)%Z then u8 "OK" else u8 "OUT_OF_SYNC";
       stats_error := None |}
  | Raise e =>
    {| csv_exists := false; csv_records := 0%Z; db_records := 0%Z;
       sync_status := u8 "ERROR"; stats_error := Some e |}
  end.

End BothWaysDefs.

(** ** The dashboard's calls to the API ([dashboard.py]) *)

(** [str(n)] of an [int]: its decimal digits. *)
Fixpoint uint_digits (d : Decimal.uint) : pystr :=
  match d with
  | Decimal.Nil => []
  | Decimal.D0 d' => 48%N :: uint_digits d'
  | Decimal.D1 d' => 49%N :: uint_digits d'
  | Decimal.D2 d' => 50%N :: uint_digits d'
  | Decimal.D3 d' => 51%N :: uint_digits d'
  | Decimal.D4 d' => 52%N :: uint_digits d'
  | Decimal.D5 d' => 53%N :: uint_digits d'
  | Decimal.D6 d' => 54%N :: uint_digits d'
  | Decimal.D7 d' => 55%N :: uint_digits d'
  | Decimal.D8 d' => 56%N :: uint_digits d'
  | Decimal.D9 d' => 57%N :: uint_digits d'
  end.

Definition str_of_int (z : Z) : pystr :=
  match z with
  | Z0 => [48%N]
  | Zpos p => uint_digits (Pos.to_uint p)
  | Zneg p => 45%N :: uint_digits (Pos.to_uint p)
  end.

(** What the dashboard's process meets: whether [requests.post] gets an
    answer from the server (it raises otherwise, before the server has
    handled anything), the server's environment, and [int(time.time())]. *)
Record DashEnv := {
  api_reachable : bool;
  api : ChatEnv;
  time_time : Z;
}.

Module Dashboard.
Section Calls.
Context `{!PyBuiltins}.

(** The JSON body [get_bot_response] posts to [/chat]. *)
Definition chat_body (env : DashEnv) (message : pystr) : Json :=
  <["message"%string := PStr message]>
  (<["user_id"%string := PStr (u8 "dashboard_user")]>
  (<["session_id"%string :=
       PStr (u8 "dashboard_session_" ++ str_of_int (time_time env))]>
  (<["channel"%string := PStr (u8 "dashboard")]>
  (<["language"%string := PStr (u8 "ru")]> ∅)))).

Definition unavailable : pystr :=
  u8 "⚠️ Чат-бот API недоступен. Запустите сервер: py app.py".

(** [get_bot_response(message)]: the pair it returns, and the table the
    server is left with. *)
Definition get_bot_response (env : DashEnv) (message : pystr) (st : Store)
  : (pystr * option Z) * Store :=
  if api_reachable env then
    let served := chat (api env) (Some (chat_body env message)) st in
    if status_of (response served) =? 200 then
      match response served with
      | ChatOk text log_id _ _ => ((text, Some log_id), store_after served)
      | _ => ((unavailable, None), store_after served)     (* KeyError *)
      end
    else ((u8 "Ошибка API: " ++ str_of_int (status_of (response served)), None),
          store_after served)
  else ((unavailable, None), st).

(** [rate_response(log_id, rating)] of the dashboard. *)
Definition rate_response (env : DashEnv) (log_id rating : pyval) (st : Store)
  : bool * Store :=
  if api_reachable env then
    let served :=
      rate_response
        (Some (<["log_id"%string := log_id]> (<["rating"%string := rating]> ∅))) st in
    (status_of (response served) =? 200, store_after served)
  else (false, st).

End Calls.
End Dashboard.

(** ** Watching the CSV file ([sync_csv_db.py], [auto_sync.py]) *)

(** What one pass of a monitoring loop meets: the file and the database,
    and the MD5 digest of the file's bytes.  The file is taken not to
    change within a pass, and the table to be written by the loop alone. *)
Record Tick := {
  tick_env : SyncEnv;
  tick_md5 : pystr;
}.

(** [CSVDBSync._get_csv_hash()] *)
Definition _get_csv_hash (t : Tick) : pystr :=
  if path_exists (csv_file (tick_env t)) then tick_md5 t else [].

(** [AutoSync.get_file_hash()] *)
Definition get_file_hash (t : Tick) : option pystr :=
  if path_exists (csv_file (tick_env t)) then Some (tick_md5 t) else None.

Section Monitors.
Context `{!PyBuiltins}.

(** The passes of the [while True] loop of [CSVDBSync.monitor_changes],
    from the remembered digest [last_csv_hash] ([None] in a new object)
    and the table: the digest and the table after the passes. *)
Fixpoint monitor_changes (ticks : list Tick) (last_csv_hash : option pystr)
    (st : Store) : option pystr * Store :=
  match ticks with
  | [] => (last_csv_hash, st)
  | t :: ticks' =>
    let current_csv_hash := _get_csv_hash t in
    if bool_decide (Some current_csv_hash ≠ last_csv_hash) then
      let '(ok, st') := csv_to_db (tick_env t) st in
      monitor_changes ticks' (if ok then Some current_csv_hash else last_csv_hash) st'
    else monitor_changes ticks' last_csv_hash st
  end.

(** The passes of the loop of [AutoSync.start_monitoring]. *)
Fixpoint monitoring_loop (ticks : list Tick) (last_hash : option pystr)
    (st : Store) : option pystr * Store :=
  match ticks with
  | [] => (last_hash, st)
  | t :: ticks' =>
    let current_hash := get_file_hash t in
    if bool_decide (current_hash ≠ last_hash) then
      let '(ok, st') := sync_csv_to_db (tick_env t) st in
      monitoring_loop ticks' (if ok then current_hash else last_hash) st'
    else monitoring_loop ticks' last_hash st
  end.

(** [AutoSync.start_monitoring()]: the digest of the file as it is at the
    start is remembered before the first pass. *)
Definition start_monitoring (start : Tick) (ticks : list Tick) (st : Store)
  : option pystr * Store :=
  monitoring_loop ticks (get_file_hash start) st.

(** A file the import accepts, with the database open. *)
Definition importable (t : Tick) : Prop :=
  ∃ df entries, csv_file (tick_env t) = Parsed df ∧ db_reachable (tick_env t) = true ∧
                df_empty df = false ∧ csv_entries df = Some entries.

End Monitors.

(** ** Rows without an id *)

Section NoId.
Context `{!PyBuiltins}.

(** What a CSV row is stored as, its key apart, when its cells coerce and
    the table's constraints accept them. *)
Definition row_content (row : Series) : option LogRow :=
  match prepare_data row with
  | Return data =>
    match bound_row data with
    | Return r => Some r
    | Raise _ => None
    end
  | Raise _ => None
  end.

End NoId.

(** The table after rows are inserted one after the other with a NULL
    [id]. *)
Definition append_rows (w : Store) (rows : list LogRow) : Store :=
  foldl (fun w r => <[fresh_id w := r]> w) w rows.

(** ** Predicates used in the further statements *)

(** A table the editor may leave: a part of the table it started from, and
    the very same table when the database cannot be opened. *)
Definition only_deleted (db : DbFile) (st st' : Store) : Prop :=
  st' ⊆ st ∧ (db_opens db = false → st' = st).


(** Every row holds a query that is not blank and a reply that is not
    empty. *)
Definition texts_present (st : Store) : Prop :=
  ∀ i row, st !! i = Some row →
    ∃ q b, query_text row = SText q ∧ strip q ≠ [] ∧
           bot_response row = SText b ∧ b ≠ [].

(** ** Sample data for the further statements *)

Module Sample.

(** The server answers; the dashboard's clock reads 1706790600. *)
Definition dash_env : DashEnv :=
  {| api_reachable := true; api := Demo.chat_env; time_time := 1706790600 |}.

(** A snapshot with the one id 7. *)
Definition df7 : DataFrame :=
  {| df_columns := Demo.header;
     df_data := [Demo.line 7 (PBool true) (PFloat 3) (PStr (u8 "web"))] |}.

Definition env7 : SyncEnv := {| csv_file := Parsed df7; db_reachable := true |}.

Definition entries7 : list (Z * LogRow) :=
  default [] (@csv_entries basic_builtins df7).

(** Two passes of a monitoring loop that meet the snapshot with ids 1, 2,
    3, and one that meets the snapshot with id 7. *)
Definition tick123 : Tick :=
  {| tick_env := Demo.env123; tick_md5 := u8 "9e107d9d372bb6826bd81d3542a419d6" |}.

Definition tick7 : Tick :=
  {| tick_env := env7; tick_md5 := u8 "e4d909c290d0fb1ca068ffaddf22cbd0" |}.

(** A snapshot of two lines whose columns do not include [id]. *)
Definition df_no_id : DataFrame :=
  {| df_columns := ["user_id"; "session_id"; "timestamp"; "query_text";
                    "bot_response"]%string;
     df_data := [[PStr (u8 "u1"); PStr (u8 "s1"); PStr (u8 "2024-02-01 10:00:00");
                  PStr (u8 "hello"); PStr (u8 "hi")];
                 [PStr (u8 "u2"); PStr (u8 "s2"); PStr (u8 "2024-02-01 10:05:00");
                  PStr (u8 "bye"); PStr (u8 "goodbye")]] |}.

Definition env_no_id : SyncEnv := {| csv_file := Parsed df_no_id; db_reachable := true |}.

Definition contents_no_id : list LogRow :=
  default [] (mapM (@row_content basic_builtins) (iterrows df_no_id)).

End Sample.

(** * Properties *)

(** String literals stay folded during proofs; closed examples evaluate
    them with [vm_compute]. *)
#[global] Opaque u8.

Set Warnings "-clear-no-such-hyp".

(** ** The intent responder *)

Lemma startswith_spec p s : startswith p s = true ↔ ∃ r, s = p ++ r.
Proof.
  revert s. induction p as [|a p IH]; intros s.
  - cbn. split; [eauto | reflexivity].
  - destruct s as [|b s]; cbn.
    + split; [discriminate | intros [r Hr]; discriminate].
    + rewrite andb_true_iff, N.eqb_eq, IH. split.
      * intros [-> [r ->]]. eauto.
      * intros [r [= -> ->]]. eauto.
Qed.

(** [contains needle hay] is Python's substring test. *)
Lemma contains_spec needle hay :
  contains needle hay = true ↔ ∃ before after, hay = before ++ needle ++ after.
Proof.
  induction hay as [|c hay IH].
  - cbn [contains]. rewrite orb_false_r, startswith_spec. split.
    + intros [r ->]. exists [], r. reflexivity.
    + intros (b & a & Hh). destruct b; [|discriminate]. eauto.
  - cbn [contains]. rewrite orb_true_iff, startswith_spec, IH. split.
    + intros [[r ->] | (b & a & ->)].
      * exists [], r. reflexivity.
      * exists (c :: b), a. reflexivity.
    + intros (b & a & Hh). destruct b as [|c' b].
      * left. eauto.
      * injection Hh as -> ->. right. eauto.
Qed.

Lemma find_first_match {A} (p : A → bool) earlier c later :
  Forall (fun x => p x = false) earlier → p c = true →
  List.find p (earlier ++ c :: later) = Some c.
Proof.
  intros He Hc. induction He as [|x l Hx _ IH]; cbn.
  - rewrite Hc. reflexivity.
  - rewrite Hx. exact IH.
Qed.

Lemma find_no_match {A} (p : A → bool) l :
  Forall (fun x => p x = false) l → List.find p l = None.
Proof.
  intros Hl. induction Hl as [|x l Hx _ IH]; cbn; [reflexivity|].
  rewrite Hx. exact IH.
Qed.

Section ResponderFacts.
Context `{!PyBuiltins}.

Lemma any_in_cons k ks t : any_in (k :: ks) t = contains k t || any_in ks t.
Proof. reflexivity. Qed.

Lemma any_in_nil t : any_in [] t = false.
Proof. reflexivity. Qed.

(** The [if]/[elif] chain of the source is the first-match search of the
    ordered table. *)
Lemma generate_bot_reply_first_match clk t :
  generate_bot_reply clk t = first_match_reply clk (str_lower t).
Proof.
  unfold generate_bot_reply, first_match_reply, categories, cat_matches.
  cbn [List.find cat_keywords].
  generalize (str_lower t) as text; intros text.
  replace (contains (u8 "время") text || contains (u8 "который час") text)
    with (any_in Kw.time_query text)
    by (unfold Kw.time_query; rewrite !any_in_cons, any_in_nil, orb_false_r; reflexivity).
  replace (contains (u8 "дата") text || contains (u8 "какое число") text
          || contains (u8 "какой день") text || contains (u8 "число") text)
    with (any_in Kw.date_query text)
    by (unfold Kw.date_query; rewrite !any_in_cons, any_in_nil, orb_false_r, !orb_assoc; reflexivity).
  replace (contains (u8 "погода") text || contains (u8 "дождь") text
          || contains (u8 "солнце") text)
    with (any_in Kw.weather_query text)
    by (unfold Kw.weather_query; rewrite !any_in_cons, any_in_nil, orb_false_r, !orb_assoc; reflexivity).
  replace (contains (u8 "возраст") text || contains (u8 "сколько тебе") text)
    with (any_in Kw.bot_age text)
    by (unfold Kw.bot_age; rewrite !any_in_cons, any_in_nil, orb_false_r; reflexivity).
  unfold cat_result; cbv beta iota; cbn [cat_reply cat_intent cat_resolved].
  generalize (any_in Kw.greeting text); intros [|]; [cbv beta iota; cbn [cat_reply cat_intent cat_resolved]; reflexivity|].
  generalize (any_in Kw.time_query text); intros [|]; [cbv beta iota; cbn [cat_reply cat_intent cat_resolved]; reflexivity|].
  generalize (any_in Kw.date_query text); intros [|]; [cbv beta iota; cbn [cat_reply cat_intent cat_resolved]; reflexivity|].
  generalize (any_in Kw.weather_query text); intros [|]; [cbv beta iota; cbn [cat_reply cat_intent cat_resolved]; reflexivity|].
  generalize (any_in Kw.help_request text); intros [|]; [cbv beta iota; cbn [cat_reply cat_intent cat_resolved]; reflexivity|].
  generalize (any_in Kw.thanks text); intros [|]; [cbv beta iota; cbn [cat_reply cat_intent cat_resolved]; reflexivity|].
  generalize (any_in Kw.goodbye text); intros [|]; [cbv beta iota; cbn [cat_reply cat_intent cat_resolved]; reflexivity|].
  generalize (any_in Kw.bot_info text); intros [|]; [cbv beta iota; cbn [cat_reply cat_intent cat_resolved]; reflexivity|].
  generalize (any_in Kw.bot_age text); intros [|]; cbv beta iota; cbn [cat_reply cat_intent cat_resolved]; reflexivity.
Qed.


End ResponderFacts.

(** ** The table and its keys *)

Lemma max_key_bound (st : Store) m k :
  max_key st = Some m → k ∈ dom st → k ≤ m.
Proof.
  unfold max_key. rewrite <- elem_of_elements.
  generalize (elements (dom st)) as l. intros l. revert m.
  induction l as [|a l IH]; intros m Hm Hk.
  - inversion Hk.
  - cbn [foldr] in Hm.
    destruct (foldr _ None l) as [m'|] eqn:Hf.
    + injection Hm as <-. apply elem_of_cons in Hk as [->|Hk]; [lia|].
      specialize (IH m' eq_refl Hk). lia.
    + injection Hm as <-. apply elem_of_cons in Hk as [->|Hk]; [lia|].
      destruct l; [inversion Hk|]. cbn [foldr] in Hf.
      destruct (foldr _ None l); discriminate.
Qed.

(** The key of a row inserted without an [id] is not in use. *)
Lemma fresh_id_unused (st : Store) : st !! fresh_id st = None.
Proof.
  apply not_elem_of_dom. intros Hin. unfold fresh_id in Hin.
  destruct (max_key st) as [m|] eqn:Hm.
  - pose proof (max_key_bound st m _ Hm Hin). lia.
  - unfold max_key in Hm. apply elem_of_elements in Hin.
    destruct (elements (dom st)); [inversion Hin|].
    cbn [foldr] in Hm. destruct (foldr _ None l); discriminate.
Qed.

(** ** Requests *)

Lemma json_falsy_lookup (d : Json) k v :
  d !! k = Some v → json_falsy (Some d) = false.
Proof.
  intros H. unfold json_falsy. apply bool_decide_eq_false_2.
  intros Hd. assert (k ∈ dom d) as Hk by (apply elem_of_dom; eauto).
  rewrite Hd in Hk. set_solver.
Qed.

Lemma json_has_lookup (d : Json) k v : d !! k = Some v → json_has d k = true.
Proof. intros H. unfold json_has. apply bool_decide_eq_true_2. eauto. Qed.

Lemma json_has_none (d : Json) k : d !! k = None → json_has d k = false.
Proof.
  intros H. unfold json_has. apply bool_decide_eq_false_2.
  rewrite H. intros [? ?]. discriminate.
Qed.

(** ** The rating update *)

Lemma rating_rejected_false rating :
  rating_rejected rating = false ↔ ∃ z, valid_rating rating z.
Proof.
  unfold rating_rejected, valid_rating. split.
  - destruct rating; cbn; try discriminate; intros H; eexists; split; try reflexivity; lia.
  - intros (z & Hz & Hr). destruct rating; cbn in *; try discriminate;
      injection Hz as <-; lia.
Qed.

Lemma rating_rejected_true rating :
  rating_rejected rating = true ↔ ¬ ∃ z, valid_rating rating z.
Proof.
  rewrite <- rating_rejected_false. destruct (rating_rejected rating); split; congruence.
Qed.

Section RatingFacts.
Context `{!PyBuiltins}.

Lemma rate_response_rejected (d : Json) st log_id rating :
  d !! "log_id" = Some log_id → d !! "rating" = Some rating →
  rating_rejected rating = true →
  rate_response (Some d) st =
    {| response := ClientError 400 Err.bad_rating; store_after := st;
       responder_calls := [] |}.
Proof.
  intros Hl Hr Hrej.
  unfold rate_response, serve, rate_response_try.
  rewrite (json_falsy_lookup _ _ _ Hl), (json_has_lookup _ _ _ Hl),
    (json_has_lookup _ _ _ Hr).
  cbn [negb orb]. unfold bind, lift, json_item. rewrite Hl, Hr. cbn beta iota.
  rewrite Hrej. reflexivity.
Qed.

Lemma rate_response_accepted (d : Json) st i rating z :
  d !! "log_id" = Some (PInt i) → d !! "rating" = Some rating →
  valid_rating rating z →
  rate_response (Some d) st =
    match st !! i with
    | None => {| response := ClientError 404 Err.not_found; store_after := st;
                 responder_calls := [] |}
    | Some row => {| response := RateOk (PInt i) rating;
                     store_after := <[i := set_rating row (Some z)]> st;
                     responder_calls := [] |}
    end.
Proof.
  intros Hl Hr Hv.
  assert (rating_rejected rating = false) as Hrej
    by (apply rating_rejected_false; eauto).
  destruct Hv as [Hz _].
  unfold rate_response, serve, rate_response_try.
  rewrite (json_falsy_lookup _ _ _ Hl), (json_has_lookup _ _ _ Hl),
    (json_has_lookup _ _ _ Hr).
  cbn [negb orb]. unfold bind, lift, json_item. rewrite Hl, Hr. cbn beta iota.
  rewrite Hrej. unfold session_get, bind, lift, get_working, ret.
  cbn [sql_bind key_of_scalar connect working durable replies_asked].
  destruct (st !! i) as [row|] eqn:Hi; cbn; [|reflexivity].
  rewrite Hz. reflexivity.
Qed.

End RatingFacts.

Section RatingClaims.
Context `{!PyBuiltins}.


(** C10.  The range check comes before the lookup: a request whose
    [rating] is not an integer in [1,5] gets the 400 validation error,
    whatever its [log_id] is and whether or not a row has that id, so in
    particular never the 404; the table is unchanged. *)
Theorem rate_validation_precedes_lookup (d : Json) (st : Store)
    (log_id rv : pyval) :
  d !! "log_id" = Some log_id → d !! "rating" = Some rv →
  (¬ ∃ z, valid_rating rv z) →
  let r := rate_response (Some d) st in
  response r = ClientError 400 Err.bad_rating ∧
  status_of (response r) ≠ 404 ∧
  store_after r = st.
Proof.
  intros Hl Hr Hbad r. subst r. apply rating_rejected_true in Hbad.
  rewrite (rate_response_rejected d st _ _ Hl Hr Hbad). cbn. repeat split. lia.
Qed.

End RatingClaims.

(** ** Interaction recording *)

Lemma binds_value_spec v :
  binds_value v = true → ∃ u, sql_bind v = Return (Some u).
Proof.
  unfold binds_value. destruct (sql_bind v) as [[u|]|]; try discriminate. eauto.
Qed.

Lemma binds_spec v : binds v = true → ∃ o, sql_bind v = Return o.
Proof. unfold binds. destruct (sql_bind v); try discriminate. eauto. Qed.

Lemma binds_value_json_get (d : Json) k a b :
  binds_value (json_get d k (PStr a)) = true →
  binds_value (json_get d k (PStr b)) = true.
Proof. unfold json_get. destruct (d !! k); [auto | reflexivity]. Qed.

Lemma binds_json_get (d : Json) k a b :
  binds (json_get d k (PStr a)) = true → binds (json_get d k (PStr b)) = true.
Proof. unfold json_get. destruct (d !! k); [auto | reflexivity]. Qed.

Arguments generate_bot_reply : simpl never.

Section ChatFacts.
Context `{!PyBuiltins}.

Lemma chat_rejects_no_body env st :
  chat env None st =
    {| response := ClientError 400 Err.no_message; store_after := st;
       responder_calls := [] |}.
Proof. reflexivity. Qed.

Lemma chat_rejects_empty_body env st (d : Json) :
  dom d = ∅ →
  chat env (Some d) st =
    {| response := ClientError 400 Err.no_message; store_after := st;
       responder_calls := [] |}.
Proof.
  intros Hd. unfold chat, serve, chat_try, json_falsy.
  rewrite bool_decide_eq_true_2 by assumption. reflexivity.
Qed.

Lemma chat_rejects_missing env st (d : Json) :
  d !! "message" = None →
  chat env (Some d) st =
    {| response := ClientError 400 Err.no_message; store_after := st;
       responder_calls := [] |}.
Proof.
  intros Hm. unfold chat, serve, chat_try.
  rewrite (json_has_none _ _ Hm), orb_true_r. reflexivity.
Qed.

Lemma chat_rejects_blank env st (d : Json) s :
  d !! "message" = Some (PStr s) → strip s = [] →
  chat env (Some d) st =
    {| response := ClientError 400 Err.blank_message; store_after := st;
       responder_calls := [] |}.
Proof.
  intros Hm Hs. unfold chat, serve, chat_try.
  rewrite (json_falsy_lookup _ _ _ Hm), (json_has_lookup _ _ _ Hm).
  cbn [negb orb]. unfold bind, lift, json_item, py_strip. rewrite Hm.
  cbn beta iota. rewrite Hs. reflexivity.
Qed.

(** A message that is no [str] has no [strip]: the handler answers 500. *)
Lemma chat_non_string env st (d : Json) v :
  d !! "message" = Some v → (∀ s, v ≠ PStr s) →
  chat env (Some d) st =
    {| response := ServerError AttributeError; store_after := st;
       responder_calls := [] |}.
Proof.
  intros Hm Hv. unfold chat, serve, chat_try.
  rewrite (json_falsy_lookup _ _ _ Hm), (json_has_lookup _ _ _ Hm).
  cbn [negb orb]. unfold bind, lift, json_item, py_strip. rewrite Hm.
  destruct v; try reflexivity. exfalso. eapply Hv. reflexivity.
Qed.

Lemma chat_accepts env st (d : Json) s :
  d !! "message" = Some (PStr s) → strip s ≠ [] → chat_storable d = true →
  ∃ row,
    chat env (Some d) st =
      (let r := generate_bot_reply (clock env) s in
       {| response := ChatOk (reply_text r) (fresh_id st) (reply_intent r)
                             (reply_resolved r);
          store_after := <[fresh_id st := row]> st;
          responder_calls := [s] |}) ∧
    (let r := generate_bot_reply (clock env) s in
     Some (user_id row) = bound (json_get d "user_id" (PStr (u8 "anonymous"))) ∧
     Some (session_id row) = bound (json_get d "session_id" (PStr (uuid4 env))) ∧
     timestamp row = SText (utcnow env) ∧
     query_text row = SText s ∧
     bot_response row = SText (reply_text r) ∧
     intent row = Some (SText (reply_intent r)) ∧
     resolved row = Z_of_bool (reply_resolved r) ∧
     rating row = None ∧
     response_time row = Some (elapsed env) ∧
     channel row = bound (json_get d "channel" (PStr (u8 "web"))) ∧
     language row = bound (json_get d "language" (PStr (u8 "ru")))).
Proof.
  intros Hm Hs Hok. unfold chat_storable in Hok.
  apply andb_prop in Hok as [Hok Hla]. apply andb_prop in Hok as [Hok Hch].
  apply andb_prop in Hok as [Hu Hse].
  apply (binds_value_json_get _ _ _ (u8 "anonymous")) in Hu.
  apply (binds_value_json_get _ _ _ (uuid4 env)) in Hse.
  apply (binds_json_get _ _ _ (u8 "web")) in Hch.
  apply (binds_json_get _ _ _ (u8 "ru")) in Hla.
  apply binds_value_spec in Hu as [u Hu]. apply binds_value_spec in Hse as [se Hse].
  apply binds_spec in Hch as [ch Hch]. apply binds_spec in Hla as [la Hla].
  eexists. split.
  - unfold chat, serve, chat_try.
    rewrite (json_falsy_lookup _ _ _ Hm), (json_has_lookup _ _ _ Hm).
    cbn [negb orb]. unfold bind, lift, json_item, py_strip. rewrite Hm.
    cbn beta iota. destruct (strip s) eqn:Hst; [congruence|]. cbn [truthy negb].
    unfold call_generate_bot_reply, sql_insert, bind, lift, bind_params, obind.
    cbn [d_id d_user_id d_session_id d_timestamp d_query_text d_bot_response
         d_intent d_channel d_language sql_bind].
    rewrite Hu, Hse, Hch, Hla. unfold get_working. cbn [working connect insert_key].
    unfold bound_row, obind.
    cbn [d_id d_user_id d_session_id d_timestamp d_query_text d_bot_response
         d_intent d_channel d_language d_resolved d_rating d_response_time
         sql_bind not_null].
    rewrite Hu, Hse, Hch, Hla. cbn [not_null].
    rewrite fresh_id_unused. unfold put_working, commit, ret.
    cbn [working durable replies_asked connect app]. reflexivity.
  - cbn zeta. unfold bound. rewrite Hu, Hse, Hch, Hla.
    cbn. repeat split; reflexivity.
Qed.

End ChatFacts.

Section ChatClaims.
Context `{!PyBuiltins}.


End ChatClaims.

(** ** Statistics *)

Lemma count_where_all (rows : list LogRow) :
  count_where (fun _ => true) rows = Z.of_nat (length rows).
Proof.
  unfold count_where. f_equal. f_equal.
  induction rows as [|a l IH]; [reflexivity|]. cbn. f_equal. exact IH.
Qed.

Lemma count_where_le p (rows : list LogRow) :
  0 ≤ count_where p rows ≤ Z.of_nat (length rows).
Proof.
  unfold count_where. split; [lia|]. apply inj_le.
  induction rows as [|a l IH]; [reflexivity|]. cbn. destruct (p a); cbn; lia.
Qed.

Section StatsFacts.
Context `{!PyBuiltins}.

Lemma py_round_or_zero x n :
  py_round (or_zero x) n =
    Return (match or_zero x with
            | PFloat q => PFloat (round_float q n)
            | v => v
            end).
Proof.
  unfold or_zero. destruct x as [q|]; [|reflexivity].
  destruct (Qeq_bool q 0); reflexivity.
Qed.

Lemma get_stats_try_total (st : Store) :
  ∃ s, get_stats_try st = Return s ∧
       total_interactions s = Z.of_nat (size st) ∧
       rated_interactions s =
         count_where (fun r => bool_decide (is_Some (rating r))) (map_to_list st).*2 ∧
       resolved_count s = count_where (fun r => resolved r =? 1) (map_to_list st).*2 ∧
       py_round (resolution_percent (resolved_count s) (total_interactions s)) 2
         = Return (resolution_rate s).
Proof.
  unfold get_stats_try. rewrite !py_round_or_zero. cbn [obind].
  set (rows := (map_to_list st).*2).
  assert (count_where (fun _ => true) rows = Z.of_nat (size st)) as Htot.
  { rewrite count_where_all. subst rows. rewrite length_fmap.
    rewrite length_map_to_list. reflexivity. }
  destruct (0 <? count_where (fun _ => true) rows) eqn:Hpos.
  - unfold py_truediv.
    assert ((count_where (fun _ => true) rows =? 0) = false) as ->
      by (apply Z.eqb_neq; apply Z.ltb_lt in Hpos; lia).
    cbn [obind py_round]. eexists. split; [reflexivity|].
    cbn [total_interactions rated_interactions resolved_count resolution_rate].
    unfold resolution_percent. rewrite Hpos. cbn [py_round].
    repeat split; auto.
  - cbn [obind py_round]. eexists. split; [reflexivity|].
    cbn [total_interactions rated_interactions resolved_count resolution_rate].
    unfold resolution_percent. rewrite Hpos. cbn [py_round].
    repeat split; auto.
Qed.

End StatsFacts.

Section StatsClaims.
Context `{!PyBuiltins}.


End StatsClaims.

(** ** The reconciler: one loop iteration *)

Section UpsertFacts.
Context `{!PyBuiltins}.

Lemma put_working_set w c : put_working w c = (Return tt, set_working c w).
Proof. reflexivity. Qed.

Lemma bound_row_bind_params data r k :
  bound_row data = Return r → sql_bind (d_id data) = Return k →
  bind_params data = Return tt.
Proof.
  unfold bound_row, bind_params, obind. intros Hr ->.
  destruct (sql_bind (d_user_id data)); [|discriminate].
  destruct (sql_bind (d_session_id data)); [|discriminate].
  destruct (sql_bind (d_timestamp data)); [|discriminate].
  destruct (sql_bind (d_query_text data)); [|discriminate].
  destruct (sql_bind (d_bot_response data)); [|discriminate].
  destruct (sql_bind (d_intent data)); [|discriminate].
  destruct (sql_bind (d_channel data)); [|discriminate].
  destruct (sql_bind (d_language data)); [|discriminate].
  reflexivity.
Qed.

Lemma bound_row_rating data r : bound_row data = Return r → rating r = d_rating data.
Proof.
  unfold bound_row, obind. intros Hr.
  repeat match type of Hr with
         | match ?x with _ => _ end = _ => destruct x; try discriminate
         end.
  injection Hr as <-. reflexivity.
Qed.

(** A row with an entry is written under its own key, by the [UPDATE]
    when the key is in use and by the [INSERT] when it is not. *)
Lemma upsert_row_entry row z r c :
  row_entry row = Some (z, r) →
  upsert_row row c = (Return tt, set_working c (<[z := r]> (working c))).
Proof.
  unfold row_entry. destruct (prepare_data row) as [data|] eqn:Hd; [|discriminate].
  destruct (d_id data) eqn:Hid; try discriminate.
  destruct (bound_row data) as [r'|] eqn:Hr; [|discriminate].
  intros [= -> ->].
  assert (bind_params data = Return tt) as Hbp
    by (eapply bound_row_bind_params; [exact Hr | rewrite Hid; reflexivity]).
  unfold upsert_row, bind, lift. rewrite Hd. cbn beta iota.
  unfold sql_exists, bind, lift, get_working, ret. rewrite Hid.
  cbn [sql_bind key_of_scalar].
  destruct (working c !! z) as [old|] eqn:Hz.
  - rewrite bool_decide_eq_true_2 by eauto.
    unfold sql_update, bind, lift, get_working. rewrite Hbp, Hid.
    cbn [sql_bind key_of_scalar]. rewrite Hz, Hr. reflexivity.
  - rewrite bool_decide_eq_false_2 by (intros [? ?]; discriminate).
    unfold sql_insert, bind, lift, get_working. rewrite Hbp, Hid.
    cbn [sql_bind insert_key key_of_scalar]. rewrite Hr, Hz. reflexivity.
Qed.

(** Whatever the row, one iteration either raises and leaves the
    connection as it was, or writes one row built from the CSV row, or (an
    [UPDATE] that matches nothing) changes nothing. *)
Lemma upsert_row_cases row c :
  (∃ e, upsert_row row c = (Raise e, c)) ∨
  (upsert_row row c = (Return tt, c)) ∨
  (∃ data z r, prepare_data row = Return data ∧ bound_row data = Return r ∧
     upsert_row row c = (Return tt, set_working c (<[z := r]> (working c)))).
Proof.
  unfold upsert_row, bind, lift.
  destruct (prepare_data row) as [data|e] eqn:Hd; [|left; eauto].
  cbn beta iota. unfold sql_exists, bind, lift, get_working, ret.
  destruct (sql_bind (d_id data)) as [k|e] eqn:Hk; [|left; eauto].
  cbn beta iota.
  destruct (key_of_scalar k) as [z|] eqn:Hz.
  - destruct (working c !! z) as [old|] eqn:Hw.
    + rewrite bool_decide_eq_true_2 by eauto.
      unfold sql_update, bind, lift, get_working.
      destruct (bind_params data) as [[]|e]; [|left; eauto].
      rewrite Hk. cbn beta iota. rewrite Hz, Hw.
      destruct (bound_row data) as [r|e] eqn:Hr; [|left; eauto].
      right. right. exists data, z, r. auto.
    + rewrite bool_decide_eq_false_2 by (intros [? ?]; discriminate).
      unfold sql_insert, bind, lift, get_working.
      destruct (bind_params data) as [[]|e]; [|left; eauto].
      rewrite Hk. cbn beta iota. unfold insert_key. rewrite Hz.
      destruct k as [k|]; [|discriminate]. cbn beta iota.
      destruct (bound_row data) as [r|e] eqn:Hr; [|left; eauto].
      rewrite Hw. right. right. exists data, z, r. auto.
  - unfold sql_insert, bind, lift, get_working.
    destruct (bind_params data) as [[]|e]; [|left; eauto].
    rewrite Hk. cbn beta iota. unfold insert_key. rewrite Hz.
    destruct k as [k|]; [left; eauto|]. cbn beta iota.
    destruct (bound_row data) as [r|e] eqn:Hr; [|left; eauto].
    rewrite fresh_id_unused. right. right. exists data, (fresh_id (working c)), r. auto.
Qed.

End UpsertFacts.

(** ** The reconciler: the loop and the run *)

Section LoopFacts.
Context `{!PyBuiltins}.

(** The loop never commits: the database file is as it was, whether the
    loop finishes or raises. *)
Lemma for_each_upsert_durable rows c :
  durable (for_each rows upsert_row c).2 = durable c.
Proof.
  revert c. induction rows as [|row rows IH]; intros c; [reflexivity|].
  cbn [for_each]. unfold bind.
  destruct (upsert_row_cases row c) as [[e ->] | [-> | (data & z & r & _ & _ & ->)]].
  - reflexivity.
  - apply IH.
  - rewrite IH. reflexivity.
Qed.

Lemma for_each_upsert_entries rows entries c :
  mapM row_entry rows = Some entries →
  for_each rows upsert_row c =
    (Return tt, set_working c (write_entries (working c) entries)).
Proof.
  intros Hm. apply mapM_Some_1 in Hm. revert c.
  induction Hm as [|row [z r] rows entries Hrow _ IH]; intros c.
  - destruct c. reflexivity.
  - cbn [for_each]. unfold bind. rewrite (upsert_row_entry row z r c Hrow).
    rewrite IH. reflexivity.
Qed.

(** A row whose cells do not coerce makes the loop raise. *)
Lemma for_each_upsert_raises rows row e c :
  row ∈ rows → prepare_data row = Raise e →
  ∃ e' c', for_each rows upsert_row c = (Raise e', c').
Proof.
  intros Hin Hbad. revert c.
  induction rows as [|x rows IH]; intros c; [inversion Hin|].
  cbn [for_each]. unfold bind.
  destruct (upsert_row x c) as [[[]|e0] c0] eqn:Hx; [|eauto].
  apply elem_of_cons in Hin as [<- | Hin]; [|apply IH; exact Hin].
  unfold upsert_row, bind, lift in Hx. rewrite Hbad in Hx. discriminate.
Qed.

(** Every row the loop writes is built from a CSV row: a property of
    tables that such writes keep is kept by the loop. *)
Lemma for_each_upsert_invariant (P : Store → Prop) rows c :
  (∀ w row data z r, P w → row ∈ rows → prepare_data row = Return data →
     bound_row data = Return r → P (<[z := r]> w)) →
  P (working c) → P (working (for_each rows upsert_row c).2).
Proof.
  revert c. induction rows as [|row rows IH]; intros c Hstep HP; [exact HP|].
  cbn [for_each]. unfold bind.
  destruct (upsert_row_cases row c) as [[e ->] | [-> | (data & z & r & Hd & Hr & ->)]].
  - exact HP.
  - apply IH; [|exact HP]. intros. eapply Hstep; eauto. apply elem_of_cons; auto.
  - apply IH.
    + intros. eapply Hstep; eauto. apply elem_of_cons; auto.
    + cbn [working set_working]. eapply Hstep; eauto. apply elem_of_cons; auto.
Qed.

Lemma after_delete_id (st : Store) ids :
  dom st ∖ ids = ∅ → after_delete st ids = st.
Proof.
  intros He. unfold after_delete. apply map_filter_id.
  intros i x _. rewrite He. set_solver.
Qed.

(** The outcome of a run on a snapshot with rows: the deletions, the loop,
    then one commit; a raise leaves the database file as it was. *)
Lemma csv_to_db_run env st df :
  csv_file env = Parsed df → db_reachable env = true → df_empty df = false →
  csv_to_db env st =
    match for_each (iterrows df) upsert_row
            (set_working (connect st) (after_delete st (csv_id_set df))) with
    | (Return _, c) => (true, working c)
    | (Raise _, _) => (false, st)
    end.
Proof.
  intros Hf Hdb Hne. unfold csv_to_db, csv_to_db_try.
  rewrite Hf. cbn [path_exists negb read_csv].
  unfold catch, bind, lift, sqlite3_connect. rewrite Hdb. unfold ret at 1.
  cbn beta iota. rewrite Hne.
  unfold sql_select_ids, bind, get_working, ret. cbn [working connect].
  set (ids := dom st ∖ csv_id_set df).
  assert (∀ c0 : Conn,
    durable c0 = st →
    match (let (o, c') := for_each (iterrows df) upsert_row c0 in
           match o with
           | Return _ =>
             (let (o0, c'0) := commit c' in
              match o0 with
              | Return _ => (Return true, c'0)
              | Raise e => (Raise e, c'0)
              end)
           | Raise e => (Raise e, c')
           end) with
    | (Return b, c) => (b, durable c)
    | (Raise _, c) => (false, durable c)
    end =
    match for_each (iterrows df) upsert_row c0 with
    | (Return _, c) => (true, working c)
    | (Raise _, _) => (false, st)
    end) as Hloop.
  { intros c0 Hc0. pose proof (for_each_upsert_durable (iterrows df) c0) as Hd.
    destruct (for_each (iterrows df) upsert_row c0) as [[[]|e] c1]; cbn in *.
    - reflexivity.
    - rewrite Hd, Hc0. reflexivity. }
  destruct (bool_decide (ids ≠ ∅)) eqn:Hids.
  - unfold sql_delete_in, bind, get_working, put_working. cbn [working connect durable replies_asked].
    apply (Hloop (set_working (connect st) (after_delete st (csv_id_set df)))).
    reflexivity.
  - apply bool_decide_eq_false_1 in Hids.
    assert (ids = ∅) as Hempty by (destruct (decide (ids = ∅)); [assumption | contradiction]).
    subst ids. rewrite (after_delete_id st _ Hempty).
    apply (Hloop (connect st)). reflexivity.
Qed.

End LoopFacts.

(** ** The reconciler: what a snapshot leaves in the table *)

Lemma write_entries_app w l1 l2 :
  write_entries w (l1 ++ l2) = write_entries (write_entries w l1) l2.
Proof. unfold write_entries. apply foldl_app. Qed.

Lemma write_entries_dom w entries :
  dom (write_entries w entries) = dom w ∪ list_to_set entries.*1.
Proof.
  revert w. induction entries as [|[z r] l IH]; intros w.
  - cbn. set_solver.
  - cbn [write_entries foldl fmap list_fmap list_to_set fst snd].
    change (foldl _ (<[z:=r]> w) l) with (write_entries (<[z:=r]> w) l).
    rewrite IH, dom_insert_L. set_solver.
Qed.

Lemma write_entries_other w entries z :
  z ∉ entries.*1 → write_entries w entries !! z = w !! z.
Proof.
  revert w. induction entries as [|[z' r] l IH]; intros w Hz; [reflexivity|].
  cbn [write_entries foldl fst snd].
  change (foldl _ (<[z':=r]> w) l) with (write_entries (<[z':=r]> w) l).
  cbn [fmap list_fmap fst] in Hz. apply not_elem_of_cons in Hz as [Hne Hz].
  rewrite IH by exact Hz. apply lookup_insert_ne. congruence.
Qed.

(** The last entry of a key is the one that stays. *)
Lemma write_entries_last w l1 z r l2 :
  z ∉ l2.*1 → write_entries w (l1 ++ (z, r) :: l2) !! z = Some r.
Proof.
  intros Hz. rewrite write_entries_app. cbn [write_entries foldl fst snd].
  change (foldl _ ?w0 l2) with (write_entries w0 l2).
  rewrite write_entries_other by exact Hz. apply lookup_insert_eq.
Qed.

Lemma after_delete_dom (st : Store) (ids : gset Z) :
  dom (after_delete st ids) = dom st ∩ ids.
Proof.
  unfold after_delete. apply dom_filter_L. intros i. split.
  - intros Hi. apply elem_of_intersection in Hi as [Hs Hc].
    apply elem_of_dom in Hs as [x Hx]. exists x. split; [exact Hx|].
    cbn. set_solver.
  - intros (x & Hx & Hp). cbn in Hp.
    assert (i ∈ dom st) by (apply elem_of_dom; eauto).
    destruct (decide (i ∈ ids)); set_solver.
Qed.

Section SnapshotFacts.
Context `{!PyBuiltins}.

(** The fields [prepare_data] copies without coercion. *)
Lemma prepare_data_copied row data :
  prepare_data row = Return data →
  d_id data = row_get row "id" PNone ∧
  d_user_id data = row_get row "user_id" (PStr []) ∧
  d_session_id data = row_get row "session_id" (PStr []) ∧
  d_timestamp data = row_get row "timestamp" (PStr []) ∧
  d_query_text data = row_get row "query_text" (PStr []) ∧
  d_bot_response data = row_get row "bot_response" (PStr []) ∧
  d_intent data = row_get row "intent" PNone ∧
  d_channel data = row_get row "channel" (PStr (u8 "web")) ∧
  d_language data = row_get row "language" (PStr (u8 "ru")).
Proof.
  unfold prepare_data, obind. intros Hd.
  repeat match type of Hd with
         | match ?x with _ => _ end = _ => destruct x; try discriminate
         end;
  injection Hd as <-; repeat split; reflexivity.
Qed.

Lemma row_entry_id row z r :
  row_entry row = Some (z, r) → row !! "id" = Some (PInt z).
Proof.
  unfold row_entry. destruct (prepare_data row) as [data|] eqn:Hd; [|discriminate].
  destruct (prepare_data_copied row data Hd) as (Hid & _).
  destruct (d_id data) eqn:Hz; try discriminate.
  destruct (bound_row data); [|discriminate]. intros [= -> ->].
  unfold row_get in Hid. destruct (row !! "id"); cbn in Hid; congruence.
Qed.

Lemma entries_ids rows entries :
  mapM row_entry rows = Some entries →
  omap (fun row => int_key (row_get row "id" PNaN)) rows = entries.*1.
Proof.
  intros Hm. apply mapM_Some_1 in Hm.
  induction Hm as [|row [z r] rows entries Hrow _ IH]; [reflexivity|].
  cbn [omap list_omap fmap list_fmap fst]. unfold row_get at 1.
  rewrite (row_entry_id row z r Hrow). cbn [default int_key].
  fold (omap (fun row => int_key (row_get row "id" PNaN)) rows). rewrite IH. reflexivity.
Qed.

(** On a snapshot whose rows all have entries, the id set the run
    computes is the set of the entries' keys. *)
Lemma csv_id_set_entries df entries :
  df_empty df = false → csv_entries df = Some entries →
  csv_id_set df = list_to_set entries.*1.
Proof.
  intros Hne He. unfold csv_id_set, csv_entries in *. rewrite Hne. cbn [negb andb].
  rewrite (entries_ids _ _ He).
  rewrite bool_decide_eq_true_2; [reflexivity|].
  unfold iterrows in He. unfold df_empty in Hne.
  destruct (df_columns df) as [|c0 cols] eqn:Hc; [discriminate|].
  destruct (df_data df) as [|cells rest]; [discriminate|].
  cbn [map] in He. apply mapM_Some_1 in He. inversion He as [|? [z r] ? ? Hrow _]; subst.
  apply row_entry_id in Hrow. apply elem_of_list_to_map_2 in Hrow.
  apply (elem_of_zip_l _ _ (c0 :: cols) cells) in Hrow. exact Hrow.
Qed.

End SnapshotFacts.

Section ReconcilerClaims.
Context `{!PyBuiltins}.

(** [AutoSync.sync_csv_to_db] is the same procedure as
    [CSVDBSync.csv_to_db]. *)
Lemma sync_csv_to_db_same env st : sync_csv_to_db env st = csv_to_db env st.
Proof. reflexivity. Qed.

(** The three ways a run can end: the early [return False] for a missing
    file, an exception before anything is committed, or one commit of
    everything the run wrote. *)
Lemma csv_to_db_try_outcome env st o c :
  csv_to_db_try env (connect st) = (o, c) →
  (o = Return false ∧ csv_file env = NoFile ∧ durable c = st) ∨
  (∃ e, o = Raise e ∧ durable c = st) ∨
  (o = Return true ∧ durable c = working c).
Proof.
  unfold csv_to_db_try.
  destruct (csv_file env) as [| | |df] eqn:Hf; cbn [path_exists negb read_csv].
  - intros [= <- <-]. left. auto.
  - intros [= <- <-]. right. left. eauto.
  - unfold catch, bind, lift, sqlite3_connect. cbn [is_EmptyDataError].
    destruct (db_reachable env).
    + intros [= <- <-]. right. right. auto.
    + intros [= <- <-]. right. left. eauto.
  - unfold catch, bind, lift, sqlite3_connect.
    destruct (db_reachable env); [|intros [= <- <-]; right; left; eauto].
    unfold ret at 1. cbn beta iota.
    destruct (df_empty df) eqn:He.
    + intros [= <- <-]. right. right. auto.
    + unfold sql_select_ids, bind, get_working, ret. cbn [working connect].
      assert (∀ c0 : Conn, durable c0 = st →
        (let (o0, c') := for_each (iterrows df) upsert_row c0 in
         match o0 with
         | Return _ =>
           (let (o1, c'0) := commit c' in
            match o1 with
            | Return _ => (Return true, c'0)
            | Raise e => (Raise e, c'0)
            end)
         | Raise e => (Raise e, c')
         end) = (o, c) →
        (∃ e, o = Raise e ∧ durable c = st) ∨
        (o = Return true ∧ durable c = working c)) as Hloop.
      { intros c0 Hc0. pose proof (for_each_upsert_durable (iterrows df) c0) as Hd.
        destruct (for_each (iterrows df) upsert_row c0) as [[[]|e] c1]; cbn in *.
        - intros [= <- <-]. right. auto.
        - intros [= <- <-]. left. exists e. split; congruence. }
      destruct (bool_decide (dom st ∖ csv_id_set df ≠ ∅)).
      * unfold sql_delete_in, bind, get_working, put_working.
        cbn [working connect durable replies_asked].
        intros Hrun. right. eapply Hloop; [|exact Hrun]. reflexivity.
      * intros Hrun. right. eapply Hloop; [|exact Hrun]. reflexivity.
Qed.

(** One row whose cells do not coerce fails the whole run. *)
Lemma csv_to_db_bad_row env st df row e :
  csv_file env = Parsed df → df_empty df = false →
  row ∈ iterrows df → prepare_data row = Raise e →
  csv_to_db env st = (false, st).
Proof.
  intros Hf Hne Hin Hbad.
  destruct (db_reachable env) eqn:Hdb.
  - rewrite (csv_to_db_run env st df Hf Hdb Hne).
    destruct (for_each_upsert_raises (iterrows df) row e
                (set_working (connect st) (after_delete st (csv_id_set df)))
                Hin Hbad) as (e' & c' & ->).
    reflexivity.
  - unfold csv_to_db, csv_to_db_try. rewrite Hf. cbn [path_exists negb read_csv].
    unfold catch, bind, lift, sqlite3_connect. rewrite Hdb. reflexivity.
Qed.

(** C3.  A run that does not succeed leaves the table as it was: whenever
    the [try] block raises (a CSV that does not parse, a database that
    cannot be opened, a cell that does not coerce, a constraint that
    refuses a row), [csv_to_db] returns [False] instead of raising and the
    table is the one from before the run; nothing a failed run wrote is
    kept.  A run that succeeds commits once, after all its deletes and
    upserts. *)
Theorem csv_to_db_failure_atomic (env : SyncEnv) (st : Store) :
  (∀ e c, csv_to_db_try env (connect st) = (Raise e, c) →
          csv_to_db env st = (false, st)) ∧
  (csv_file env = Garbled → csv_to_db env st = (false, st)) ∧
  (path_exists (csv_file env) = true → db_reachable env = false →
   csv_to_db env st = (false, st)) ∧
  (∀ df row e, csv_file env = Parsed df → df_empty df = false →
     row ∈ iterrows df → prepare_data row = Raise e →
     csv_to_db env st = (false, st)) ∧
  ((csv_to_db env st).1 = false → (csv_to_db env st).2 = st) ∧
  ((csv_to_db env st).1 = true →
   ∃ c, csv_to_db_try env (connect st) = (Return true, c) ∧
        (csv_to_db env st).2 = working c).
Proof.
  assert (∀ e c, csv_to_db_try env (connect st) = (Raise e, c) →
                 csv_to_db env st = (false, st)) as Hraise.
  { intros e c Hrun. unfold csv_to_db. rewrite Hrun.
    destruct (csv_to_db_try_outcome env st _ _ Hrun)
      as [(Ho & _) | [(e' & _ & Hd) | (Ho & _)]]; try discriminate.
    rewrite Hd. reflexivity. }
  split; [exact Hraise|]. split; [|split; [|split; [|split]]].
  - intros Hf. apply (Hraise ParserError (connect st)).
    unfold csv_to_db_try. rewrite Hf. reflexivity.
  - intros Hex Hdb. unfold csv_to_db, csv_to_db_try. rewrite Hex. cbn [negb].
    unfold catch, bind, lift, sqlite3_connect. rewrite Hdb.
    destruct (csv_file env); try discriminate; reflexivity.
  - intros df row e. apply csv_to_db_bad_row.
  - unfold csv_to_db.
    destruct (csv_to_db_try env (connect st)) as [[b|e] c] eqn:Hrun; cbn [fst snd].
    + intros ->.
      destruct (csv_to_db_try_outcome env st _ _ Hrun)
        as [(_ & _ & Hd) | [(e' & Ho & _) | (Ho & _)]]; try discriminate.
      exact Hd.
    + intros _.
      destruct (csv_to_db_try_outcome env st _ _ Hrun)
        as [(Ho & _) | [(e' & _ & Hd) | (Ho & _)]]; try discriminate.
      exact Hd.
  - unfold csv_to_db.
    destruct (csv_to_db_try env (connect st)) as [[b|e] c] eqn:Hrun; cbn [fst snd];
      [|discriminate].
    intros ->. exists c. split; [reflexivity|].
    destruct (csv_to_db_try_outcome env st _ _ Hrun)
      as [(Ho & _) | [(e' & Ho & _) | (_ & Hd)]]; try discriminate.
    exact Hd.
Qed.

(** C2 (as amended).  A CSV file with no rows (zero bytes, or a header
    only) clears the table: with the database reachable the run returns
    [True] and leaves the table empty.  A missing CSV file does not: the
    run returns [False] and the table is untouched.  Both procedures
    agree. *)
Theorem csv_to_db_empty_or_missing (env : SyncEnv) (st : Store) :
  (csv_file env = NoFile →
   csv_to_db env st = (false, st) ∧ sync_csv_to_db env st = (false, st)) ∧
  (db_reachable env = true →
   (csv_file env = NoData ∨ ∃ df, csv_file env = Parsed df ∧ df_empty df = true) →
   csv_to_db env st = (true, ∅) ∧ sync_csv_to_db env st = (true, ∅)).
Proof.
  split.
  - intros Hf. change (sync_csv_to_db env st) with (csv_to_db env st).
    unfold csv_to_db, csv_to_db_try.
    rewrite Hf. split; reflexivity.
  - intros Hdb Hempty. change (sync_csv_to_db env st) with (csv_to_db env st).
    unfold csv_to_db, csv_to_db_try.
    destruct Hempty as [Hf | (df & Hf & He)]; rewrite Hf;
      cbn [path_exists negb read_csv];
      unfold catch, bind, lift, sqlite3_connect; rewrite Hdb; cbn [is_EmptyDataError].
    + split; reflexivity.
    + unfold ret at 1. cbn beta iota. rewrite He. split; reflexivity.
Qed.


End ReconcilerClaims.

Section CoercionClaims.
Context `{!PyBuiltins}.

Lemma bound_row_fields data r :
  bound_row data = Return r →
  resolved r = d_resolved data ∧ rating r = d_rating data ∧
  response_time r = d_response_time data ∧
  channel r = bound (d_channel data) ∧ language r = bound (d_language data).
Proof.
  unfold bound_row, obind, bound. intros Hr.
  destruct (sql_bind (d_user_id data)); [|discriminate].
  destruct (sql_bind (d_session_id data)); [|discriminate].
  destruct (sql_bind (d_timestamp data)); [|discriminate].
  destruct (sql_bind (d_query_text data)); [|discriminate].
  destruct (sql_bind (d_bot_response data)); [|discriminate].
  destruct (sql_bind (d_intent data)); [|discriminate].
  destruct (sql_bind (d_channel data)); [|discriminate].
  destruct (sql_bind (d_language data)); [|discriminate].
  repeat match type of Hr with
         | match ?x with _ => _ end = _ => destruct x; try discriminate
         end.
  injection Hr as <-. repeat split; reflexivity.
Qed.

(** The three coerced fields, as the conditional expressions compute them. *)
Lemma prepare_data_coerced row data :
  prepare_data row = Return data →
  (if pd_notna (row_get row "resolved" PNone)
   then py_int (row_get row "resolved" (PInt 1))
   else Return 1) = Return (d_resolved data) ∧
  (if pd_notna (row_get row "rating" PNone)
   then z <~ py_int (row_get row "rating" PNone) ;; Return (Some z)
   else Return None) = Return (d_rating data) ∧
  (if pd_notna (row_get row "response_time" PNone)
   then q <~ py_float (row_get row "response_time" PNone) ;; Return (Some q)
   else Return None) = Return (d_response_time data).
Proof.
  unfold prepare_data. intros Hd.
  destruct (if pd_notna (row_get row "resolved" PNone) then _ else _) as [a|];
    [|discriminate].
  destruct (if pd_notna (row_get row "rating" PNone) then _ else _) as [b|];
    [|discriminate].
  destruct (if pd_notna (row_get row "response_time" PNone) then _ else _) as [c|];
    [|discriminate].
  cbn [obind] in Hd. injection Hd as <-. repeat split; reflexivity.
Qed.

Lemma row_get_lookup (row : Series) k v dflt :
  row !! k = Some v → row_get row k dflt = v.
Proof. unfold row_get. intros ->. reflexivity. Qed.

Lemma row_get_missing (row : Series) k dflt :
  row !! k = None → row_get row k dflt = dflt.
Proof. unfold row_get. intros ->. reflexivity. Qed.

(** C7 (as amended).  For a CSV row the reconciler upserts: [resolved] is 1
    (true) when the column is missing or the cell is empty, and the parsed
    integer otherwise; [rating] and [response_time] are absent (NULL, not
    zero) when the column is missing or the cell is empty, and the parsed
    number otherwise; [channel] and [language] are "web" and "ru" when the
    column is missing, and the cell as it is when the column is there (an
    empty cell is stored as NULL).  A [resolved], [rating] or
    [response_time] cell that cannot be parsed is not replaced by a
    default: the row is not upserted, the run returns [False] and the
    table stays as it was. *)
Theorem prepare_data_coercions (row : Series) :
  (∀ data, prepare_data row = Return data →
     (pd_notna (row_get row "resolved" PNone) = false → d_resolved data = 1) ∧
     (pd_notna (row_get row "rating" PNone) = false → d_rating data = None) ∧
     (pd_notna (row_get row "response_time" PNone) = false →
      d_response_time data = None) ∧
     (∀ v, row !! "resolved" = Some v → pd_notna v = true →
           py_int v = Return (d_resolved data)) ∧
     (∀ v, row !! "rating" = Some v → pd_notna v = true →
           ∃ z, py_int v = Return z ∧ d_rating data = Some z) ∧
     (∀ v, row !! "response_time" = Some v → pd_notna v = true →
           ∃ q, py_float v = Return q ∧ d_response_time data = Some q) ∧
     (row !! "channel" = None → d_channel data = PStr (u8 "web")) ∧
     (row !! "language" = None → d_language data = PStr (u8 "ru")) ∧
     (∀ v, row !! "channel" = Some v → d_channel data = v) ∧
     (∀ v, row !! "language" = Some v → d_language data = v) ∧
     (∀ r, bound_row data = Return r →
           resolved r = d_resolved data ∧ rating r = d_rating data ∧
           response_time r = d_response_time data ∧
           channel r = bound (d_channel data) ∧
           language r = bound (d_language data))) ∧
  (∀ v e, row !! "resolved" = Some v ∨ row !! "rating" = Some v →
          pd_notna v = true → py_int v = Raise e →
          ∃ e', prepare_data row = Raise e') ∧
  (∀ v e, row !! "response_time" = Some v → pd_notna v = true →
          py_float v = Raise e → ∃ e', prepare_data row = Raise e') ∧
  (∀ env st df e, csv_file env = Parsed df → df_empty df = false →
                  row ∈ iterrows df → prepare_data row = Raise e →
                  csv_to_db env st = (false, st)).
Proof.
  split; [|split; [|split]].
  - intros data Hd.
    destruct (prepare_data_copied row data Hd) as (_ & _ & _ & _ & _ & _ & _ & Hch & Hla).
    destruct (prepare_data_coerced row data Hd) as (H1 & H2 & H3).
    split; [|split; [|split; [|split; [|split; [|split; [|split; [|split; [|split; [|split]]]]]]]]].
    + intros Hn. rewrite Hn in H1. congruence.
    + intros Hn. rewrite Hn in H2. congruence.
    + intros Hn. rewrite Hn in H3. congruence.
    + intros v Hv Hn. rewrite !(row_get_lookup _ _ _ _ Hv), Hn in H1. exact H1.
    + intros v Hv Hn. rewrite !(row_get_lookup _ _ _ _ Hv), Hn in H2.
      unfold obind in H2. destruct (py_int v) as [z|]; [|discriminate].
      exists z. split; [reflexivity | congruence].
    + intros v Hv Hn. rewrite !(row_get_lookup _ _ _ _ Hv), Hn in H3.
      unfold obind in H3. destruct (py_float v) as [q|]; [|discriminate].
      exists q. split; [reflexivity | congruence].
    + intros Hm. rewrite Hch. apply row_get_missing. exact Hm.
    + intros Hm. rewrite Hla. apply row_get_missing. exact Hm.
    + intros v Hv. rewrite Hch. apply row_get_lookup. exact Hv.
    + intros v Hv. rewrite Hla. apply row_get_lookup. exact Hv.
    + intros r Hr. apply bound_row_fields. exact Hr.
  - intros v e Hv Hn Hbad. unfold prepare_data, obind.
    destruct Hv as [Hv | Hv].
    + rewrite !(row_get_lookup _ _ _ _ Hv), Hn, Hbad. eauto.
    + destruct (if pd_notna (row_get row "resolved" PNone) then _ else _); [|eauto].
      rewrite !(row_get_lookup _ _ _ _ Hv), Hn, Hbad. eauto.
  - intros v e Hv Hn Hbad. unfold prepare_data, obind.
    destruct (if pd_notna (row_get row "resolved" PNone) then _ else _); [|eauto].
    destruct (if pd_notna (row_get row "rating" PNone) then _ else _); [|eauto].
    rewrite !(row_get_lookup _ _ _ _ Hv), Hn, Hbad. eauto.
  - intros env st df e Hf Hne Hin Hbad.
    exact (csv_to_db_bad_row env st df row e Hf Hne Hin Hbad).
Qed.

End CoercionClaims.

(** ** The rating range *)

Lemma ratings_in_range_insert (st : Store) i row :
  ratings_in_range st → (∀ z, rating row = Some z → 1 ≤ z ≤ 5) →
  ratings_in_range (<[i := row]> st).
Proof.
  intros Hst Hrow j r z Hj Hz. destruct (decide (i = j)) as [->|Hne].
  - rewrite lookup_insert_eq in Hj. injection Hj as <-. auto.
  - rewrite lookup_insert_ne in Hj by exact Hne. eapply Hst; eauto.
Qed.

Lemma ratings_in_range_empty : ratings_in_range ∅.
Proof. intros i row z Hi. rewrite lookup_empty in Hi. discriminate. Qed.

Lemma ratings_in_range_after_delete st ids :
  ratings_in_range st → ratings_in_range (after_delete st ids).
Proof.
  intros Hst i row z Hi Hz. unfold after_delete in Hi.
  apply map_lookup_filter_Some in Hi as [Hi _]. eapply Hst; eauto.
Qed.

Section RangeFacts.
Context `{!PyBuiltins}.

(** Whatever the request, [chat] leaves the table as it was or adds one
    row without a rating. *)
Lemma chat_store_cases env data st :
  store_after (chat env data st) = st ∨
  ∃ row, rating row = None ∧
         store_after (chat env data st) = <[fresh_id st := row]> st.
Proof.
  unfold chat, serve, chat_try.
  destruct data as [d|]; [|left; reflexivity].
  destruct (json_falsy (Some d) || negb (json_has d "message")); [left; reflexivity|].
  unfold bind, lift, json_item. destruct (d !! "message") as [v|]; [|left; reflexivity].
  unfold py_strip. destruct v; try (left; reflexivity).
  destruct (truthy (strip s)); cbn [negb]; [|left; reflexivity].
  unfold call_generate_bot_reply, sql_insert, bind, lift.
  cbn [connect durable working replies_asked].
  destruct (bind_params _) as [[]|e]; [|left; reflexivity].
  cbn [d_id sql_bind]. unfold get_working. cbn [working insert_key].
  destruct (bound_row _) as [row|e] eqn:Hrow; [|left; reflexivity].
  rewrite fresh_id_unused. right. exists row. split; [|reflexivity].
  apply bound_row_rating in Hrow. exact Hrow.
Qed.

(** Whatever the request, [rate_response] leaves the table as it was or
    sets one row's rating to a value between 1 and 5. *)
Lemma rate_store_cases data st :
  store_after (rate_response data st) = st ∨
  ∃ i row z, st !! i = Some row ∧ 1 ≤ z ≤ 5 ∧
             store_after (rate_response data st) = <[i := set_rating row (Some z)]> st.
Proof.
  unfold rate_response, serve, rate_response_try.
  destruct data as [d|]; [|left; reflexivity].
  destruct (json_falsy (Some d) || negb (json_has d "log_id") || negb (json_has d "rating"));
    [left; reflexivity|].
  unfold bind, lift, json_item.
  destruct (d !! "log_id") as [log_id|]; [|left; reflexivity].
  destruct (d !! "rating") as [rv|]; [|left; reflexivity].
  cbn beta iota.
  destruct (rating_rejected rv) eqn:Hrej; [left; reflexivity|].
  apply rating_rejected_false in Hrej as (z & Hz & Hrange).
  unfold session_get, bind, lift, get_working, ret.
  destruct (sql_bind log_id) as [k|e]; [|left; reflexivity].
  cbn [connect durable working replies_asked].
  destruct (key_of_scalar k) as [i|]; [|left; reflexivity].
  destruct (st !! i) as [row|] eqn:Hi; [|left; reflexivity].
  right. exists i, row, z. rewrite Hz. cbn. auto.
Qed.

(** A run of the reconciler leaves the table as it was, or empty, or made
    of rows it kept and rows it built from CSV rows. *)
Lemma csv_to_db_keeps (P : Store → Prop) env st :
  P st → P ∅ →
  (∀ ids, P (after_delete st ids)) →
  (∀ df w row data z r, csv_file env = Parsed df → P w → row ∈ iterrows df →
     prepare_data row = Return data → bound_row data = Return r →
     P (<[z := r]> w)) →
  P (csv_to_db env st).2.
Proof.
  intros Hst Hempty Hdel Hstep.
  destruct (csv_file env) as [| | |df] eqn:Hf.
  - unfold csv_to_db, csv_to_db_try. rewrite Hf. exact Hst.
  - unfold csv_to_db, csv_to_db_try. rewrite Hf. exact Hst.
  - unfold csv_to_db, csv_to_db_try. rewrite Hf. cbn [path_exists negb read_csv].
    unfold catch, bind, lift, sqlite3_connect. cbn [is_EmptyDataError].
    destruct (db_reachable env); [exact Hempty | exact Hst].
  - destruct (db_reachable env) eqn:Hdb.
    + destruct (df_empty df) eqn:He.
      * unfold csv_to_db, csv_to_db_try. rewrite Hf. cbn [path_exists negb read_csv].
        unfold catch, bind, lift, sqlite3_connect. rewrite Hdb. unfold ret at 1.
        cbn beta iota. rewrite He. exact Hempty.
      * rewrite (csv_to_db_run env st df Hf Hdb He).
        pose proof (for_each_upsert_invariant P (iterrows df)
                      (set_working (connect st) (after_delete st (csv_id_set df)))) as Hinv.
        destruct (for_each (iterrows df) upsert_row _) as [[[]|e] c]; [|exact Hst].
        cbn [snd] in *. apply Hinv; [|apply Hdel].
        intros w row data z r Hw Hin Hd Hr. eapply Hstep; eauto.
    + unfold csv_to_db, csv_to_db_try. rewrite Hf. cbn [path_exists negb read_csv].
      unfold catch, bind, lift, sqlite3_connect. rewrite Hdb. exact Hst.
Qed.

End RangeFacts.

Section RangeClaims.
Context `{!PyBuiltins}.

(** C9 (as amended).  Every table the recorder and the rating update
    reach, with reconciler runs on snapshots whose ratings lie in [1,5] in
    between, has all its present ratings in [1,5].  The property is kept by
    recording an interaction and by a rating update, whatever the request.
    The reconciler copies the CSV's rating as it is: a run keeps the
    property when every rating the CSV rows carry lies in [1,5]. *)
Theorem ratings_in_range_preserved :
  (∀ st, reachable st → ratings_in_range st) ∧
  (∀ st, ratings_in_range st →
     (∀ env data, ratings_in_range (store_after (chat env data st))) ∧
     (∀ data, ratings_in_range (store_after (rate_response data st))) ∧
     (∀ env, csv_ratings_in_range env →
        ratings_in_range (csv_to_db env st).2 ∧
        ratings_in_range (sync_csv_to_db env st).2)).
Proof.
  assert (∀ st, ratings_in_range st →
     (∀ env data, ratings_in_range (store_after (chat env data st))) ∧
     (∀ data, ratings_in_range (store_after (rate_response data st))) ∧
     (∀ env, csv_ratings_in_range env →
        ratings_in_range (csv_to_db env st).2 ∧
        ratings_in_range (sync_csv_to_db env st).2)) as Hkeep.
  { intros st Hst. split; [|split].
    - intros env data.
      destruct (chat_store_cases env data st) as [-> | (row & Hr & ->)]; [exact Hst|].
      apply ratings_in_range_insert; [exact Hst|]. intros z Hz. congruence.
    - intros data.
      destruct (rate_store_cases data st) as [-> | (i & row & z & Hi & Hz & ->)];
        [exact Hst|].
      apply ratings_in_range_insert; [exact Hst|].
      intros z' Hz'. cbn in Hz'. injection Hz' as <-. exact Hz.
    - intros env Hcsv.
      assert (ratings_in_range (csv_to_db env st).2) as Hrun.
      { apply csv_to_db_keeps.
        - exact Hst.
        - exact ratings_in_range_empty.
        - intros ids. apply ratings_in_range_after_delete. exact Hst.
        - intros df w row data z r Hf Hw Hin Hd Hr.
          apply ratings_in_range_insert; [exact Hw|].
          intros z' Hz'. rewrite (bound_row_rating data r Hr) in Hz'.
          eapply Hcsv; eauto. }
      split; [exact Hrun | exact Hrun]. }
  split; [|exact Hkeep].
  intros st Hreach. induction Hreach as [|env data st _ IH|data st _ IH|env st _ IH Hcsv].
  - exact ratings_in_range_empty.
  - apply (Hkeep st IH).
  - apply (Hkeep st IH).
  - apply (Hkeep st IH). exact Hcsv.
Qed.

End RangeClaims.

(** * The model on concrete inputs *)

Section Concrete.
#[local] Existing Instance basic_builtins.

(** ** The responder *)

Example reply_greeting_first :
  generate_bot_reply Demo.noon (u8 "Привет! Какая сегодня погода?")
  = (Msg.greeting, u8 "greeting", true).
Proof. vm_compute. reflexivity. Qed.

Example reply_weather_unresolved :
  generate_bot_reply Demo.noon (u8 "Будет ли ДОЖДЬ?")
  = (Msg.weather_query, u8 "weather_query", false).
Proof. vm_compute. reflexivity. Qed.

Example reply_time :
  generate_bot_reply Demo.noon (u8 "Который час?")
  = (u8 "Сейчас 12:30.", u8 "time_query", true).
Proof. vm_compute. reflexivity. Qed.

Example reply_unknown :
  generate_bot_reply Demo.noon (u8 "2 + 2 = ?")
  = (Msg.unknown, u8 "unknown", false).
Proof. vm_compute. reflexivity. Qed.

(** "hi" is a substring of "this": first match, not best match. *)
Example reply_substring_greeting :
  reply_intent (generate_bot_reply Demo.noon (u8 "what is this weather")) = u8 "greeting".
Proof. vm_compute. reflexivity. Qed.

(** ** Recording and rating *)

Example chat_hello :
  let r := chat Demo.chat_env (Some (Demo.chat_request (PStr (u8 " Привет ")))) Demo.st234 in
  response r = ChatOk Msg.greeting 5 (u8 "greeting") true ∧
  dom (store_after r) = {[2; 3; 4; 5]} ∧
  responder_calls r = [u8 " Привет "].
Proof. vm_compute. repeat split; reflexivity. Qed.

Example chat_blank :
  chat Demo.chat_env (Some (Demo.chat_request (PStr (u8 "   ")))) Demo.st234
  = {| response := ClientError 400 Err.blank_message; store_after := Demo.st234;
       responder_calls := [] |}.
Proof. vm_compute. reflexivity. Qed.

(** A [null] user id is refused by the NOT NULL column: the handler answers
    500 and stores nothing. *)
Example chat_null_user :
  chat Demo.chat_env
       (Some (<["user_id"%string := PNone]> (Demo.chat_request (PStr (u8 "hello")))))
       Demo.st234
  = {| response := ServerError IntegrityError; store_after := Demo.st234;
       responder_calls := [u8 "hello"] |}.
Proof. vm_compute. reflexivity. Qed.


(** C10, on a request with rating 6 for an id no row has. *)
Lemma rate_validation_precedes_lookup_witness :
  Demo.rate_request (PInt 99) (PInt 6) !! "log_id"%string = Some (PInt 99) ∧
  Demo.rate_request (PInt 99) (PInt 6) !! "rating"%string = Some (PInt 6) ∧
  (¬ ∃ z, valid_rating (PInt 6) z) ∧
  Demo.st234 !! 99 = None ∧
  response (rate_response (Some (Demo.rate_request (PInt 99) (PInt 6))) Demo.st234)
    = ClientError 400 Err.bad_rating.
Proof.
  assert (Demo.rate_request (PInt 99) (PInt 6) !! "log_id"%string = Some (PInt 99)) as Hl
    by (vm_compute; reflexivity).
  assert (Demo.rate_request (PInt 99) (PInt 6) !! "rating"%string = Some (PInt 6)) as Hr
    by (vm_compute; reflexivity).
  assert (¬ ∃ z, valid_rating (PInt 6) z) as Hbad.
  { intros (z & Hz & Hrange). cbn in Hz. injection Hz as <-. lia. }
  split; [exact Hl|]. split; [exact Hr|]. split; [exact Hbad|].
  split; [vm_compute; reflexivity|].
  exact (proj1 (rate_validation_precedes_lookup _ Demo.st234 _ _ Hl Hr Hbad)).
Defined.

Example rate_zero_rejected :
  rate_response (Some (Demo.rate_request (PInt 3) (PInt 0))) Demo.st234
  = {| response := ClientError 400 Err.bad_rating; store_after := Demo.st234;
       responder_calls := [] |}.
Proof. vm_compute. reflexivity. Qed.

Example rate_float_rejected :
  response (rate_response (Some (Demo.rate_request (PInt 3) (PFloat 3))) Demo.st234)
  = ClientError 400 Err.bad_rating.
Proof. vm_compute. reflexivity. Qed.

(** [True] is an [int] for [isinstance]: the request is taken as rating 1. *)
Example rate_true_is_one :
  let r := rate_response (Some (Demo.rate_request (PInt 2) (PBool true))) Demo.st234 in
  response r = RateOk (PInt 2) (PBool true) ∧
  rating <$> (store_after r !! 2) = Some (Some 1).
Proof. vm_compute. split; reflexivity. Qed.

(** Rating twice with the same value is rating once. *)
Example rate_idempotent :
  let req := Some (Demo.rate_request (PInt 3) (PInt 4)) in
  store_after (rate_response req (store_after (rate_response req Demo.st234)))
  = store_after (rate_response req Demo.st234).
Proof. vm_compute. reflexivity. Qed.

End Concrete.

Section ConcreteReconciler.
#[local] Existing Instance basic_builtins.


Example csv_to_db_123_rows :
  let st' := (csv_to_db Demo.env123 Demo.st234).2 in
  rating <$> st' !! 1 = Some None ∧
  rating <$> st' !! 2 = Some (Some 4) ∧
  channel <$> st' !! 3 = Some (Some (SText (u8 "telegram"))) ∧
  resolved <$> st' !! 3 = Some 0 ∧
  query_text <$> st' !! 2 = Some (SText (u8 "который час")).
Proof. vm_compute. repeat split; reflexivity. Qed.

(** C2 does not hold for a missing file: the run returns [False] and the
    three rows are still there. *)
Lemma csv_to_db_missing_file_counterexample :
  csv_to_db Demo.env_missing Demo.st234 = (false, Demo.st234) ∧
  sync_csv_to_db Demo.env_missing Demo.st234 = (false, Demo.st234) ∧
  dom Demo.st234 = {[2; 3; 4]} ∧
  (csv_to_db Demo.env_missing Demo.st234).2 ≠ ∅.
Proof.
  split; [reflexivity|]. split; [reflexivity|]. split; [vm_compute; reflexivity|].
  intros Hempty.
  assert ((csv_to_db Demo.env_missing Demo.st234).2 !! 2 = Some (Demo.old_row 1 None))
    as Hrow by (vm_compute; reflexivity).
  rewrite Hempty, lookup_empty in Hrow. discriminate.
Qed.

Example csv_to_db_header_only_clears :
  csv_to_db Demo.env_header_only Demo.st234 = (true, ∅).
Proof. vm_compute. reflexivity. Qed.

Example csv_to_db_db_down :
  csv_to_db Demo.env_db_down Demo.st234 = (false, Demo.st234).
Proof. vm_compute. reflexivity. Qed.

(** A failed run keeps even the rows it had already deleted and written
    in its transaction. *)
Example csv_to_db_bad_rating_keeps_table :
  csv_to_db Demo.env_bad_rating Demo.st234 = (false, Demo.st234).
Proof. vm_compute. reflexivity. Qed.

(** C7 does not hold for an unparseable [resolved] cell nor for an
    unparseable [rating] cell (no default is taken: the run fails and
    nothing is upserted), nor for an empty [channel] cell (stored as NULL,
    not as "web"). *)
Lemma prepare_data_unparseable_counterexample :
  (∃ row, iterrows (match csv_file Demo.env_bad_resolved with
                    | Parsed df => df | _ => empty_frame end) = [row] ∧
          row !! "resolved"%string = Some (PStr (u8 "maybe")) ∧
          prepare_data row = Raise ValueError) ∧
  csv_to_db Demo.env_bad_resolved ∅ = (false, ∅) ∧
  csv_to_db Demo.env_bad_rating ∅ = (false, ∅) ∧
  (∃ st', csv_to_db Demo.env_blank_channel ∅ = (true, st') ∧
          channel <$> st' !! 1 = Some None ∧
          rating <$> st' !! 1 = Some None).
Proof.
  split; [|split; [|split]].
  - eexists. split; [reflexivity|]. split; vm_compute; reflexivity.
  - vm_compute. reflexivity.
  - vm_compute. reflexivity.
  - eexists. split; [vm_compute; reflexivity|]. split; vm_compute; reflexivity.
Qed.


(** C9 does not hold for the reconciler: a snapshot with a rating of 9
    puts a 9 into a table whose ratings were in range. *)
Lemma ratings_in_range_reconciler_counterexample :
  ratings_in_range (∅ : Store) ∧
  (csv_to_db Demo.env_rating_9 ∅).1 = true ∧
  ¬ ratings_in_range (csv_to_db Demo.env_rating_9 ∅).2.
Proof.
  split; [exact ratings_in_range_empty|]. split; [vm_compute; reflexivity|].
  intros Hin.
  assert (∃ row, (csv_to_db Demo.env_rating_9 ∅).2 !! 1 = Some row ∧
                 rating row = Some 9) as (row & Hrow & Hr)
    by (vm_compute; eexists; split; reflexivity).
  specialize (Hin 1 row 9 Hrow Hr). lia.
Qed.

End ConcreteReconciler.

(** * Further properties of the code *)

(** ** The responder's answers *)

Section ResponderAnswers.
Context `{!PyBuiltins}.

Ltac first_branch :=
  match goal with
  | |- context [if ?c then (Msg.greeting, _, _) else _] => destruct c
  | |- context [if ?c then (Msg.time_query _, _, _) else _] => destruct c
  | |- context [if ?c then (Msg.date_query _, _, _) else _] => destruct c
  | |- context [if ?c then (Msg.weather_query, _, _) else _] => destruct c
  | |- context [if ?c then (Msg.help_request, _, _) else _] => destruct c
  | |- context [if ?c then (Msg.thanks, _, _) else _] => destruct c
  | |- context [if ?c then (Msg.goodbye, _, _) else _] => destruct c
  | |- context [if ?c then (Msg.bot_info, _, _) else _] => destruct c
  | |- context [if ?c then (Msg.bot_age, _, _) else _] => destruct c
  end.

Ltac labels_differ :=
  let H := fresh in intros H; vm_compute in H; discriminate.

(** X1.  Whatever the text, the intent is one of the nine labels the
    source uses, and the answer is flagged unresolved exactly for the
    intents [weather_query] and [unknown]. *)
Theorem reply_intent_and_resolved (clk : Clock) (t : pystr) :
  let r := generate_bot_reply clk t in
  reply_intent r ∈ [u8 "greeting"; u8 "time_query"; u8 "date_query";
                    u8 "weather_query"; u8 "help_request"; u8 "thanks";
                    u8 "goodbye"; u8 "bot_info"; u8 "unknown"] ∧
  (reply_resolved r = false ↔
   reply_intent r = u8 "weather_query" ∨ reply_intent r = u8 "unknown").
Proof.
  cbv zeta. unfold generate_bot_reply. cbv zeta.
  repeat (first_branch;
          [cbn [reply_intent reply_resolved fst snd];
           split; [repeat first [apply list_elem_of_here | apply list_elem_of_further] |
                   split; [first [discriminate | auto] |
                           first [reflexivity | intros [Hl | Hl]; exfalso; revert Hl; labels_differ]]] |]).
  cbn [reply_intent reply_resolved fst snd].
  split; [repeat first [apply list_elem_of_here | apply list_elem_of_further] | split; auto].
Qed.

Lemma reply_text_cons (clk : Clock) (t : pystr) :
  ∃ c rest, reply_text (generate_bot_reply clk t) = c :: rest.
Proof.
  unfold generate_bot_reply. cbv zeta.
  repeat (first_branch; [cbn [reply_text fst snd]; vm_compute; eauto|]).
  cbn [reply_text fst snd]. vm_compute. eauto.
Qed.

End ResponderAnswers.

(** ** Recording: what every request leaves behind *)

Section ChatOutcomes.
Context `{!PyBuiltins}.

Lemma bound_row_texts data r q b :
  bound_row data = Return r →
  d_query_text data = PStr q → d_bot_response data = PStr b →
  query_text r = SText q ∧ bot_response r = SText b.
Proof.
  unfold bound_row, obind. intros Hr Hq Hb. rewrite Hq, Hb in Hr. cbn [sql_bind] in Hr.
  destruct (sql_bind (d_user_id data)) as [[u|]|]; try discriminate;
  destruct (sql_bind (d_session_id data)) as [[s|]|]; try discriminate;
  destruct (sql_bind (d_timestamp data)) as [[t|]|]; try discriminate;
  destruct (sql_bind (d_intent data)); try discriminate;
  destruct (sql_bind (d_channel data)); try discriminate;
  destruct (sql_bind (d_language data)); try discriminate;
  cbn [not_null] in Hr; try discriminate;
  injection Hr as <-; split; reflexivity.
Qed.

(** The two ways a chat request ends: an answer that is not a 200 and an
    untouched table, or a 200 and one new row under a fresh key. *)
Lemma chat_outcomes env data st :
  (status_of (response (chat env data st)) ≠ 200 ∧
   store_after (chat env data st) = st) ∨
  (∃ d s row,
     data = Some d ∧ d !! "message" = Some (PStr s) ∧ strip s ≠ [] ∧
     response (chat env data st) =
       (let r := generate_bot_reply (clock env) s in
        ChatOk (reply_text r) (fresh_id st) (reply_intent r) (reply_resolved r)) ∧
     store_after (chat env data st) = <[fresh_id st := row]> st ∧
     query_text row = SText s ∧
     bot_response row = SText (reply_text (generate_bot_reply (clock env) s)) ∧
     rating row = None).
Proof.
  unfold chat, serve, chat_try.
  destruct data as [d|]; [|left; split; [cbn; lia | reflexivity]].
  destruct (json_falsy (Some d) || negb (json_has d "message"));
    [left; split; [cbn; lia | reflexivity]|].
  unfold bind, lift, json_item.
  destruct (d !! "message") as [v|] eqn:Hm; [|left; split; [cbn; lia | reflexivity]].
  unfold py_strip. destruct v; try (left; split; [cbn; lia | reflexivity]).
  destruct (truthy (strip s)) eqn:Hs; cbn [negb];
    [|left; split; [cbn; lia | reflexivity]].
  unfold call_generate_bot_reply, sql_insert, bind, lift.
  cbn [connect durable working replies_asked].
  destruct (bind_params _) as [[]|e]; [|left; split; [cbn; lia | reflexivity]].
  cbn [d_id sql_bind]. unfold get_working. cbn [working insert_key].
  destruct (bound_row _) as [row|e] eqn:Hrow; [|left; split; [cbn; lia | reflexivity]].
  rewrite fresh_id_unused. right. exists d, s, row.
  split; [reflexivity|]. split; [exact Hm|].
  split; [intros He; rewrite He in Hs; discriminate|].
  split; [reflexivity|]. split; [reflexivity|].
  destruct (bound_row_texts _ _ s _ Hrow eq_refl eq_refl) as [Hq Hb].
  split; [exact Hq|]. split; [exact Hb|].
  apply bound_row_rating in Hrow. exact Hrow.
Qed.

(** X3.  Recording never removes or alters a row: whatever the request,
    every row of the table is still there unchanged afterwards, at most one
    row is added, and the table is exactly as before unless the answer is
    a 200. *)
Theorem chat_keeps_existing_rows (env : ChatEnv) (data : option Json) (st : Store) :
  let r := chat env data st in
  (∀ i row, st !! i = Some row → store_after r !! i = Some row) ∧
  (size (store_after r) ≤ S (size st))%nat ∧
  (status_of (response r) = 200 ∨ store_after r = st).
Proof.
  cbv zeta.
  destruct (chat_outcomes env data st)
    as [[Hst ->] | (d & s & row & _ & _ & _ & Hresp & -> & _)].
  - split; [auto|]. split; [lia|]. right. reflexivity.
  - split; [|split].
    + intros i r Hi. rewrite lookup_insert_ne; [exact Hi|].
      intros <-. rewrite fresh_id_unused in Hi. discriminate.
    + rewrite map_size_insert_None by apply fresh_id_unused. lia.
    + left. rewrite Hresp. reflexivity.
Qed.

End ChatOutcomes.

Lemma binds_value_json_get_eq (d : Json) k a b :
  binds_value (json_get d k (PStr a)) = binds_value (json_get d k (PStr b)).
Proof. unfold json_get. destruct (d !! k); reflexivity. Qed.

Lemma binds_json_get_eq (d : Json) k a b :
  binds (json_get d k (PStr a)) = binds (json_get d k (PStr b)).
Proof. unfold json_get. destruct (d !! k); reflexivity. Qed.

Lemma set_rating_twice row a b : set_rating (set_rating row a) b = set_rating row b.
Proof. reflexivity. Qed.

Section MoreHandlerFacts.
Context `{!PyBuiltins}.

(** X4.  A message the responder answered but the table refuses (a [null]
    or compound [user_id] or [session_id], a compound [channel] or
    [language]) ends in the 500 answer: the reply is computed once and
    dropped, and nothing is stored. *)
Theorem chat_refused_row (env : ChatEnv) (d : Json) (st : Store) (s : pystr) :
  d !! "message" = Some (PStr s) → strip s ≠ [] → chat_storable d = false →
  ∃ e, chat env (Some d) st =
         {| response := ServerError e; store_after := st; responder_calls := [s] |}.
Proof.
  intros Hm Hs Hbad. unfold chat_storable in Hbad.
  rewrite (binds_value_json_get_eq d "user_id" [] (u8 "anonymous")) in Hbad.
  rewrite (binds_value_json_get_eq d "session_id" [] (uuid4 env)) in Hbad.
  rewrite (binds_json_get_eq d "channel" [] (u8 "web")) in Hbad.
  rewrite (binds_json_get_eq d "language" [] (u8 "ru")) in Hbad.
  unfold binds_value, binds in Hbad.
  unfold chat, serve, chat_try.
  rewrite (json_falsy_lookup _ _ _ Hm), (json_has_lookup _ _ _ Hm).
  cbn [negb orb]. unfold bind, lift, json_item, py_strip. rewrite Hm.
  cbn beta iota. destruct (strip s) eqn:Hst; [congruence|]. cbn [truthy negb].
  unfold call_generate_bot_reply, sql_insert, bind, lift, bind_params, obind.
  cbn [d_id d_user_id d_session_id d_timestamp d_query_text d_bot_response
       d_intent d_channel d_language sql_bind].
  unfold get_working, bound_row, obind.
  cbn [d_id d_user_id d_session_id d_timestamp d_query_text d_bot_response
       d_intent d_channel d_language d_resolved d_rating d_response_time
       sql_bind not_null working connect insert_key].
  destruct (sql_bind (json_get d "user_id" (PStr (u8 "anonymous")))) as [[u|]|e1];
  destruct (sql_bind (json_get d "session_id" (PStr (uuid4 env)))) as [[se|]|e2];
  destruct (sql_bind (json_get d "channel" (PStr (u8 "web")))) as [ch|e3];
  destruct (sql_bind (json_get d "language" (PStr (u8 "ru")))) as [la|e4];
  cbn in Hbad; try discriminate; cbn; eexists; reflexivity.
Qed.

(** The two ways a rating request ends: an answer that is not a 200 and an
    untouched table, or a 200 and one row whose rating is set. *)
Lemma rate_outcomes data st :
  (status_of (response (rate_response data st)) ≠ 200 ∧
   store_after (rate_response data st) = st) ∨
  (∃ d log_id rv i row z,
     data = Some d ∧ d !! "log_id" = Some log_id ∧ d !! "rating" = Some rv ∧
     valid_rating rv z ∧ st !! i = Some row ∧
     response (rate_response data st) = RateOk log_id rv ∧
     store_after (rate_response data st) = <[i := set_rating row (Some z)]> st).
Proof.
  unfold rate_response, serve, rate_response_try.
  destruct data as [d|]; [|left; split; [cbn; lia | reflexivity]].
  destruct (json_falsy (Some d) || negb (json_has d "log_id") || negb (json_has d "rating"));
    [left; split; [cbn; lia | reflexivity]|].
  unfold bind, lift, json_item.
  destruct (d !! "log_id") as [log_id|] eqn:Hl; [|left; split; [cbn; lia | reflexivity]].
  destruct (d !! "rating") as [rv|] eqn:Hr; [|left; split; [cbn; lia | reflexivity]].
  cbn beta iota.
  destruct (rating_rejected rv) eqn:Hrej; [left; split; [cbn; lia | reflexivity]|].
  apply rating_rejected_false in Hrej as (z & Hz).
  unfold session_get, bind, lift, get_working, ret.
  destruct (sql_bind log_id) as [k|e]; [|left; split; [cbn; lia | reflexivity]].
  cbn [connect durable working replies_asked].
  destruct (key_of_scalar k) as [i|]; [|left; split; [cbn; lia | reflexivity]].
  destruct (st !! i) as [row|] eqn:Hi; [|left; split; [cbn; lia | reflexivity]].
  right. exists d, log_id, rv, i, row, z.
  split; [reflexivity|]. split; [exact Hl|]. split; [exact Hr|].
  split; [exact Hz|]. split; [exact Hi|]. destruct Hz as [Hz _].
  rewrite Hz. split; reflexivity.
Qed.

(** X5.  A rating update never adds or removes a row and never touches a
    field other than [rating]: whatever the request, the table has the
    same ids afterwards, each row differs from the one before at most in
    its rating, and the table is exactly as before unless the answer is a
    200. *)
Theorem rate_response_frame (data : option Json) (st : Store) :
  let r := rate_response data st in
  dom (store_after r) = dom st ∧
  (∀ i row, st !! i = Some row →
     ∃ row', store_after r !! i = Some row' ∧ same_but_rating row row') ∧
  (status_of (response r) = 200 ∨ store_after r = st).
Proof.
  cbv zeta.
  destruct (rate_outcomes data st)
    as [[_ ->] | (d & log_id & rv & i & row & z & _ & _ & _ & _ & Hi & Hresp & ->)].
  - split; [reflexivity|]. split; [|right; reflexivity].
    intros i row Hi. exists row. split; [exact Hi|]. repeat split; reflexivity.
  - split; [|split].
    + rewrite dom_insert_L.
      assert (i ∈ dom st) by (apply elem_of_dom; eauto). set_solver.
    + intros j r Hj. destruct (decide (i = j)) as [->|Hne].
      * rewrite lookup_insert_eq. exists (set_rating row (Some z)).
        split; [reflexivity|]. assert (r = row) as -> by congruence.
        repeat split; reflexivity.
      * rewrite lookup_insert_ne by exact Hne. exists r. split; [exact Hj|].
        repeat split; reflexivity.
    + left. rewrite Hresp. reflexivity.
Qed.

(** X6.  The last rating wins: rating a row and then rating it again
    leaves the table that the second rating alone would leave; in
    particular rating twice with the same value is rating once. *)
Theorem rate_last_write_wins (d1 d2 : Json) (st : Store) (i : Z)
    (a b : pyval) (za zb : Z) :
  d1 !! "log_id" = Some (PInt i) → d1 !! "rating" = Some a → valid_rating a za →
  d2 !! "log_id" = Some (PInt i) → d2 !! "rating" = Some b → valid_rating b zb →
  store_after (rate_response (Some d2) (store_after (rate_response (Some d1) st)))
  = store_after (rate_response (Some d2) st).
Proof.
  intros Hl1 Hr1 Hv1 Hl2 Hr2 Hv2.
  rewrite (rate_response_accepted d1 st i a za Hl1 Hr1 Hv1).
  rewrite (rate_response_accepted d2 st i b zb Hl2 Hr2 Hv2).
  destruct (st !! i) as [row|] eqn:Hi; cbn [store_after].
  - rewrite (rate_response_accepted d2 _ i b zb Hl2 Hr2 Hv2).
    rewrite lookup_insert_eq. cbn [store_after].
    rewrite insert_insert_eq, set_rating_twice. reflexivity.
  - rewrite (rate_response_accepted d2 st i b zb Hl2 Hr2 Hv2), Hi. reflexivity.
Qed.



End MoreHandlerFacts.

(** ** Texts are present *)

Lemma texts_present_empty : texts_present ∅.
Proof. intros i row Hi. rewrite lookup_empty in Hi. discriminate. Qed.

Lemma texts_present_insert (st : Store) i row q b :
  texts_present st → query_text row = SText q → strip q ≠ [] →
  bot_response row = SText b → b ≠ [] → texts_present (<[i := row]> st).
Proof.
  intros Hst Hq Hs Hb Hne j r Hj. destruct (decide (i = j)) as [->|Hij].
  - rewrite lookup_insert_eq in Hj. injection Hj as <-. eauto 10.
  - rewrite lookup_insert_ne in Hj by exact Hij. eapply Hst; eauto.
Qed.

Section TextsPresent.
Context `{!PyBuiltins}.

(** X2.  The reply of the responder is never empty, and the handlers keep
    every row with a query that is not blank and a reply that is not
    empty: if that holds of the table, it holds after any chat request and
    after any rating request. *)
Theorem texts_present_preserved (st : Store) :
  texts_present st →
  (∀ clk t, reply_text (generate_bot_reply clk t) ≠ []) ∧
  (∀ env data, texts_present (store_after (chat env data st))) ∧
  (∀ data, texts_present (store_after (rate_response data st))).
Proof.
  intros Hst.
  assert (∀ clk t, reply_text (generate_bot_reply clk t) ≠ []) as Hreply.
  { intros clk t. destruct (reply_text_cons clk t) as (c & rest & ->). discriminate. }
  split; [exact Hreply|]. split.
  - intros env data.
    destruct (chat_outcomes env data st)
      as [[_ ->] | (d & s & row & _ & _ & Hs & _ & -> & Hq & Hb & _)]; [exact Hst|].
    eapply texts_present_insert; eauto.
  - intros data.
    destruct (rate_outcomes data st)
      as [[_ ->] | (d & log_id & rv & i & row & z & _ & _ & _ & _ & Hi & _ & ->)];
      [exact Hst|].
    destruct (Hst i row Hi) as (q & b & Hq & Hs & Hb & Hne).
    eapply texts_present_insert; eauto.
Qed.

End TextsPresent.

(** ** Statistics: counts *)

Lemma count_in_total key groups :
  foldr Z.add 0 (count_in key groups).*2 = foldr Z.add 0 groups.*2 + 1.
Proof.
  induction groups as [|[k n] rest IH]; [reflexivity|].
  cbn [count_in]. destruct (sql_same k key); cbn [fmap list_fmap snd foldr] in *.
  - lia.
  - rewrite IH. lia.
Qed.

Lemma group_by_intent_total rows :
  foldr Z.add 0 (group_by_intent rows).*2 = Z.of_nat (length rows).
Proof.
  unfold group_by_intent.
  assert (∀ groups, foldr Z.add 0
            (fold_left (fun g r => count_in (intent r) g) rows groups).*2
          = foldr Z.add 0 groups.*2 + Z.of_nat (length rows)) as Hgen.
  { induction rows as [|r rows IH]; intros groups; cbn [fold_left length].
    - lia.
    - rewrite IH, count_in_total. lia. }
  rewrite Hgen. reflexivity.
Qed.

Lemma count_where_zero (p : LogRow → bool) {A} (f : LogRow → option A) rows :
  (∀ r, p r = false → f r = None) →
  count_where p rows = 0 → omap f rows = [].
Proof.
  intros Hpf. unfold count_where. induction rows as [|r rows IH]; [reflexivity|].
  cbn [List.filter]. destruct (p r) eqn:Hp; cbn [length]; [lia|].
  intros Hz. cbn [omap list_omap]. rewrite (Hpf r Hp).
  fold (omap f rows). apply IH. exact Hz.
Qed.

Section StatsCounts.
Context `{!PyBuiltins}.


End StatsCounts.

(** ** The reconciler: the snapshot alone decides *)

Lemma write_entries_agree w1 w2 entries :
  (∀ z, z ∉ entries.*1 → w1 !! z = w2 !! z) →
  write_entries w1 entries = write_entries w2 entries.
Proof.
  revert w1 w2. induction entries as [|[k r] l IH]; intros w1 w2 Hout.
  - apply map_eq. intros z. apply Hout. cbn. apply not_elem_of_nil.
  - cbn [write_entries foldl fst snd].
    change (foldl _ ?w l) with (write_entries w l).
    apply IH. intros z Hz. destruct (decide (k = z)) as [->|Hkz].
    + rewrite !lookup_insert_eq. reflexivity.
    + rewrite !lookup_insert_ne by exact Hkz. apply Hout.
      cbn [fmap list_fmap fst]. apply not_elem_of_cons. split; [congruence | exact Hz].
Qed.

Section SnapshotDecides.
Context `{!PyBuiltins}.

Lemma csv_to_db_entries env st df entries :
  csv_file env = Parsed df → db_reachable env = true → df_empty df = false →
  csv_entries df = Some entries →
  csv_to_db env st = (true, write_entries ∅ entries).
Proof.
  intros Hf Hdb Hne He.
  rewrite (csv_to_db_run env st df Hf Hdb Hne).
  unfold csv_entries in He. rewrite (for_each_upsert_entries _ _ _ He).
  cbn [working set_working]. f_equal. apply write_entries_agree.
  intros z Hz. rewrite lookup_empty. apply not_elem_of_dom.
  rewrite after_delete_dom, (csv_id_set_entries df entries Hne He).
  rewrite elem_of_intersection, elem_of_list_to_set. tauto.
Qed.


End SnapshotDecides.

(** ** Deleting rows *)

Section DeleteFacts.
Context `{!PyBuiltins}.

Lemma sql_exists_int (id : Z) (c : Conn) :
  sql_exists (PInt id) c = (Return (bool_decide (is_Some (working c !! id))), c).
Proof. reflexivity. Qed.

Lemma delete_record_by_id_run (db : DbFile) (id : Z) (st : Store) :
  delete_record_by_id db id st =
    if db_opens db && sqlite_int id
    then (bool_decide (is_Some (st !! id)), delete id st)
    else (false, st).
Proof.
  unfold delete_record_by_id, run_script, connect_db, bind_int, bind.
  destruct (db_opens db); [|reflexivity].
  destruct (sqlite_int id); [|reflexivity].
  cbn [ret andb]. rewrite sql_exists_int. cbn [working connect].
  destruct (st !! id) as [row|] eqn:Hi.
  - rewrite bool_decide_eq_true_2 by eauto. reflexivity.
  - rewrite bool_decide_eq_false_2 by (intros [x Hx]; discriminate).
    cbn. rewrite delete_id by exact Hi. reflexivity.
Qed.

Lemma delete_records_by_ids_run (db : DbFile) (ids : list Z) (st : Store) :
  delete_records_by_ids db ids st =
    if db_opens db && bindable db ids
    then (true, filter (fun kv => kv.1 ∉ (list_to_set ids : gset Z)) st)
    else (false, st).
Proof.
  unfold delete_records_by_ids, run_script, connect_db, bind_ids, bind.
  destruct (db_opens db); [|reflexivity].
  destruct (bindable db ids); reflexivity.
Qed.

Lemma delete_from_db_run (db : DbFile) (ids : list Z) (st : Store) :
  delete_from_db db ids st = delete_records_by_ids db ids st.
Proof.
  rewrite delete_records_by_ids_run.
  unfold delete_from_db, run_script, connect_db, bind_ids, bind.
  destruct (db_opens db); [|reflexivity]. cbn [andb].
  destruct ids as [|i ids].
  - rewrite bool_decide_eq_false_2 by (intros Hn; apply Hn; reflexivity).
    cbn. f_equal. symmetry. apply map_filter_id. intros j x _.
    cbn. apply not_elem_of_empty.
  - rewrite bool_decide_eq_true_2 by discriminate.
    destruct (bindable db (i :: ids)); reflexivity.
Qed.

Lemma delete_in_lookup (ids : list Z) (st : Store) (j : Z) :
  filter (fun kv : Z * LogRow => kv.1 ∉ (list_to_set ids : gset Z)) st !! j
  = if bool_decide (j ∈ ids) then None else st !! j.
Proof.
  destruct (bool_decide (j ∈ ids)) eqn:Hj.
  - apply bool_decide_eq_true_1 in Hj. apply map_lookup_filter_None. right.
    intros x _ Hn. apply Hn. cbn. apply elem_of_list_to_set. exact Hj.
  - apply bool_decide_eq_false_1 in Hj. destruct (st !! j) as [row|] eqn:Hi.
    + apply map_lookup_filter_Some. split; [exact Hi|].
      cbn. rewrite elem_of_list_to_set. exact Hj.
    + apply map_lookup_filter_None. left. exact Hi.
Qed.

(** X11.  [delete_record_by_id] answers True exactly when the database can
    be opened, the id is an integer SQLite can bind, and a row has the id;
    the row is then gone, every other row is as it was, and on False the
    table is unchanged. *)
Theorem delete_record_by_id_removes_one (db : DbFile) (id : Z) (st : Store) :
  let r := delete_record_by_id db id st in
  (r.1 = true ↔ db_opens db = true ∧ sqlite_int id = true ∧ is_Some (st !! id)) ∧
  (r.1 = true → r.2 !! id = None) ∧
  (r.1 = false → r.2 = st) ∧
  (∀ j, j ≠ id → r.2 !! j = st !! j).
Proof.
  cbv zeta. rewrite delete_record_by_id_run.
  destruct (db_opens db); [destruct (sqlite_int id)|]; cbn [andb fst snd].
  - split; [|split; [|split]].
    + rewrite bool_decide_eq_true. tauto.
    + intros _. apply lookup_delete_eq.
    + intros Hno. apply bool_decide_eq_false_1 in Hno.
      apply delete_id. destruct (st !! id); [exfalso; eauto | reflexivity].
    + intros j Hj. apply lookup_delete_ne. congruence.
  - split; [|split; [|split]]; try tauto; try discriminate.
    split; [discriminate | intros (_ & ? & _); discriminate].
  - split; [|split; [|split]]; try tauto; try discriminate.
    split; [discriminate | intros [? _]; discriminate].
Qed.

(** X12.  [CSVDBSync.delete_from_db] and [delete_records_by_ids] of
    [view_db.py] do the same; the test for an empty list in the first
    changes nothing.  They answer True exactly when the database can be
    opened and the ids can be bound (each within 64 bits, no more of them
    than one statement takes), whether or not any of the ids exists; the
    rows whose id is listed are then gone and the others are kept.  On
    False the table is unchanged. *)
Theorem delete_records_by_ids_removes_listed (db : DbFile) (ids : list Z) (st : Store) :
  let r := delete_records_by_ids db ids st in
  delete_from_db db ids st = r ∧
  (r.1 = true ↔ db_opens db = true ∧ bindable db ids = true) ∧
  (r.1 = false → r.2 = st) ∧
  (r.1 = true → ∀ j, r.2 !! j = if bool_decide (j ∈ ids) then None else st !! j).
Proof.
  cbv zeta. split; [apply delete_from_db_run|].
  rewrite delete_records_by_ids_run.
  destruct (db_opens db); [destruct (bindable db ids)|]; cbn [andb fst snd].
  - split; [tauto|]. split; [discriminate|]. intros _ j. apply delete_in_lookup.
  - split; [|split; [reflexivity | discriminate]].
    split; [discriminate | intros [_ ?]; discriminate].
  - split; [|split; [reflexivity | discriminate]].
    split; [discriminate | intros [? _]; discriminate].
Qed.

End DeleteFacts.

(** ** Reading the table in id order *)

Lemma by_id_strict (l : list (Z * LogRow)) :
  StronglySorted by_id l → NoDup l.*1 →
  StronglySorted (fun a b => a.1 < b.1) l.
Proof.
  induction 1 as [|a l Hl IH Ha]; intros Hnd; [constructor|].
  cbn in Hnd. apply NoDup_cons in Hnd as [Hnot Hnd].
  constructor; [apply IH; exact Hnd|].
  rewrite Forall_forall in Ha |- *. intros b Hb.
  specialize (Ha b Hb). unfold by_id in Ha.
  assert (a.1 ≠ b.1).
  { intros Heq. apply Hnot. rewrite Heq. apply list_elem_of_fmap_2. exact Hb. }
  lia.
Qed.

Lemma select_ordered_perm (st : Store) : select_ordered st ≡ₚ map_to_list st.
Proof. apply merge_sort_Permutation. Qed.

Lemma select_ordered_elem (st : Store) i row :
  (i, row) ∈ select_ordered st ↔ st !! i = Some row.
Proof. rewrite select_ordered_perm. apply elem_of_map_to_list. Qed.

Lemma select_ordered_sorted (st : Store) :
  StronglySorted (fun a b => a.1 < b.1) (select_ordered st).
Proof.
  apply by_id_strict.
  - apply StronglySorted_merge_sort.
    + intros a b c. unfold by_id. lia.
    + intros a b. unfold by_id. lia.
  - rewrite select_ordered_perm. apply NoDup_fst_map_to_list.
Qed.

Lemma ascending_by_id (l : list (Z * LogRow)) :
  StronglySorted (fun a b => a.1 < b.1) l →
  StronglySorted (fun a b : Z * LogRow => a.1 ≤ b.1) l.
Proof.
  induction 1 as [|a l Hl IH Ha]; constructor; [exact IH|].
  eapply Forall_impl; [exact Ha|]. intros b Hb. cbn in Hb. lia.
Qed.

Lemma ascending_NoDup (l : list (Z * LogRow)) :
  StronglySorted (fun a b => a.1 < b.1) l → NoDup l.
Proof.
  induction 1 as [|a l Hl IH Ha]; constructor; [|exact IH].
  intros Hin. rewrite Forall_forall in Ha. specialize (Ha _ Hin). lia.
Qed.

(** Two lists in strictly ascending id order with the same members are the
    same list. *)
Lemma ascending_unique (l1 l2 : list (Z * LogRow)) :
  StronglySorted (fun a b => a.1 < b.1) l1 →
  StronglySorted (fun a b => a.1 < b.1) l2 →
  (∀ x, x ∈ l1 ↔ x ∈ l2) → l1 = l2.
Proof.
  intros H1 H2 Hmem.
  apply (StronglySorted_unique_strong (fun a b : Z * LogRow => a.1 ≤ b.1)).
  - intros x y Hx Hy Hxy Hyx.
    assert (x.1 = y.1) as Hk by lia.
    apply Hmem in Hy.
    clear -H1 Hx Hy Hk.
    induction H1 as [|a l Hl IH Ha]; [inversion Hx|].
    rewrite Forall_forall in Ha.
    apply elem_of_cons in Hx as [->|Hx]; apply elem_of_cons in Hy as [->|Hy].
    + reflexivity.
    + specialize (Ha _ Hy). lia.
    + specialize (Ha _ Hx). lia.
    + auto.
  - apply ascending_by_id. exact H1.
  - apply ascending_by_id. exact H2.
  - apply NoDup_Permutation; [apply ascending_NoDup; exact H1 |
                              apply ascending_NoDup; exact H2 | exact Hmem].
Qed.

(** X13.  What [db_to_csv] writes is every row of the table once, by
    strictly ascending id; with the database closed it answers False and
    writes no file. *)
Theorem db_to_csv_writes_table (st : Store) :
  (∃ rows, db_to_csv true st = (true, Some rows) ∧
           StronglySorted (fun a b => a.1 < b.1) rows ∧
           (∀ i row, (i, row) ∈ rows ↔ st !! i = Some row) ∧
           length rows = size st) ∧
  db_to_csv false st = (false, None).
Proof.
  split; [|reflexivity].
  exists (select_ordered st). split; [reflexivity|].
  split; [apply select_ordered_sorted|]. split; [apply select_ordered_elem|].
  rewrite select_ordered_perm. apply length_map_to_list.
Qed.

(** ** Import followed by export *)

Lemma ascending_keys (l : list (Z * LogRow)) :
  StronglySorted (fun a b => a.1 < b.1) l → NoDup l.*1.
Proof.
  induction 1 as [|a l Hl IH Ha]; cbn; constructor; [|exact IH].
  intros Hin. apply list_elem_of_fmap in Hin as (b & Hk & Hb).
  rewrite Forall_forall in Ha. specialize (Ha _ Hb). lia.
Qed.

Lemma write_entries_member (entries : list (Z * LogRow)) i row :
  NoDup entries.*1 →
  write_entries ∅ entries !! i = Some row ↔ (i, row) ∈ entries.
Proof.
  intros Hnd.
  assert (∀ r, (i, r) ∈ entries → write_entries ∅ entries !! i = Some r) as Hin.
  { intros r Hr. apply list_elem_of_split in Hr as (l1 & l2 & ->).
    apply write_entries_last.
    rewrite fmap_app in Hnd. apply NoDup_app in Hnd as (_ & _ & Hnd).
    cbn in Hnd. apply NoDup_cons in Hnd as [Hnot _]. exact Hnot. }
  split; [|apply Hin].
  intros Hw. destruct (decide (i ∈ entries.*1)) as [Hi|Hi].
  - apply list_elem_of_fmap in Hi as ([k r] & Hk & Hr). cbn in Hk. subst k.
    rewrite (Hin r Hr) in Hw. injection Hw as <-. exact Hr.
  - rewrite write_entries_other in Hw by exact Hi. rewrite lookup_empty in Hw.
    discriminate.
Qed.

Lemma size_list_to_set_le (l : list Z) :
  (size (list_to_set l : gset Z) ≤ length l)%nat.
Proof.
  induction l as [|a l IH]; cbn [list_to_set length].
  - rewrite size_empty. lia.
  - rewrite size_union_alt, size_singleton.
    pose proof (subseteq_size (list_to_set l ∖ {[a]}) (list_to_set l : gset Z)) as Hd.
    assert (list_to_set l ∖ {[a]} ⊆ (list_to_set l : gset Z)) as Hsub by set_solver.
    specialize (Hd Hsub). lia.
Qed.

Lemma size_list_to_set_NoDup (l : list Z) :
  size (list_to_set l : gset Z) = length l ↔ NoDup l.
Proof.
  split; [|apply size_list_to_set].
  induction l as [|a l IH]; intros Hs; constructor.
  - intros Ha. cbn [list_to_set length] in Hs.
    assert ({[a]} ∪ list_to_set l = (list_to_set l : gset Z)) as Heq by set_solver.
    rewrite Heq in Hs. pose proof (size_list_to_set_le l). lia.
  - apply IH. cbn [list_to_set length] in Hs.
    pose proof (size_list_to_set_le l) as Hle.
    destruct (decide (a ∈ l)) as [Ha|Ha].
    + assert ({[a]} ∪ list_to_set l = (list_to_set l : gset Z)) as Heq by set_solver.
      rewrite Heq in Hs. lia.
    + rewrite size_union in Hs by set_solver. rewrite size_singleton in Hs. lia.
Qed.

Section BothWaysFacts.
Context `{!PyBuiltins}.

Lemma csv_to_db_false_keeps env st :
  (csv_to_db env st).1 = false → (csv_to_db env st).2 = st.
Proof.
  unfold csv_to_db.
  destruct (csv_to_db_try env (connect st)) as [o c] eqn:Hrun.
  destruct (csv_to_db_try_outcome env st o c Hrun)
    as [(-> & _ & Hd) | [(e & -> & Hd) | (-> & _)]]; cbn [fst snd]; intros Hf.
  - exact Hd.
  - exact Hd.
  - discriminate.
Qed.

(** X14.  [sync_both_ways] exports whatever the import did: when the import
    fails (the CSV is missing, cannot be parsed, or holds a row that cannot
    be stored) and the database can be read, the answer is False, the
    table is unchanged, and the CSV path is overwritten with the rows of
    the table. *)
Theorem sync_both_ways_exports_after_failed_import (env : SyncEnv) (st : Store) :
  db_reachable env = true → (csv_to_db env st).1 = false →
  sync_both_ways env st =
    {| both_ok := false; both_store := st;
       both_written := Some (select_ordered st) |}.
Proof.
  intros Hdb Hfail. pose proof (csv_to_db_false_keeps env st Hfail) as Hst.
  unfold sync_both_ways. destruct (csv_to_db env st) as [ok st'].
  cbn [fst snd] in Hfail, Hst. subst ok st'. rewrite Hdb. reflexivity.
Qed.


(** ** The status report of the synchroniser *)

Lemma status_labels_differ :
  u8 "OK" ≠ u8 "OUT_OF_SYNC" ∧ u8 "OK" ≠ u8 "ERROR" ∧ u8 "OUT_OF_SYNC" ≠ u8 "ERROR".
Proof. repeat split; intros Hl; vm_compute in Hl; discriminate. Qed.


(** X17.  The report compares counts and nothing else, and a database that
    cannot be read counts as zero rows: the status is ERROR exactly when
    the CSV exists and cannot be parsed or is a zero-byte file (which the
    import accepts as an empty snapshot), and the report then says the
    file does not exist; with no CSV the status is OK exactly when the
    table is empty or the database cannot be read. *)
Theorem sync_get_stats_status (env : SyncEnv) (st : Store) :
  let s := sync_get_stats env st in
  (sync_status s = u8 "ERROR" ↔ csv_file env = Garbled ∨ csv_file env = NoData) ∧
  (sync_status s = u8 "ERROR" →
     csv_exists s = false ∧ csv_records s = 0 ∧ db_records s = 0) ∧
  (csv_file env = NoFile →
     (sync_status s = u8 "OK" ↔ db_reachable env = false ∨ st = ∅)) ∧
  (csv_file env = NoData → db_reachable env = true → csv_to_db env st = (true, ∅)).
Proof.
  cbv zeta. destruct status_labels_differ as (H1 & H2 & H3).
  unfold sync_get_stats, _get_db_count.
  destruct (csv_file env) as [| | |df] eqn:Hf; cbn [path_exists read_csv obind];
    cbn [csv_exists csv_records db_records sync_status stats_error].
  - split; [|split; [|split]].
    + split; [|intros [?|?]; discriminate].
      destruct (0 =? _); intros Hl; contradiction.
    + destruct (0 =? _); intros Hl; contradiction.
    + intros _. destruct (db_reachable env).
      * destruct (Z.eqb_spec 0 (Z.of_nat (size st))) as [Heq|Hneq].
        -- split; [|reflexivity]. intros _. right. apply map_size_empty_iff. lia.
        -- split; [intros Hl; symmetry in Hl; contradiction|].
           intros [?| ->]; [discriminate|]. rewrite map_size_empty in Hneq. lia.
      * cbn. split; [auto | reflexivity].
    + discriminate.
  - split; [|split; [|split]]; try discriminate; auto.
    split; [auto | reflexivity].
  - split; [|split; [|split]]; try discriminate; auto.
    + split; [auto | reflexivity].
    + intros _ Hdb. unfold csv_to_db, csv_to_db_try, sqlite3_connect.
      rewrite Hf, Hdb. reflexivity.
  - split; [|split; [|split]]; try discriminate.
    + split; [|intros [?|?]; discriminate].
      destruct (_ =? _); intros Hl; contradiction.
    + destruct (_ =? _); intros Hl; contradiction.
Qed.

End BothWaysFacts.

(** ** The table editor *)

Section ViewDbFacts.
Context `{!PyBuiltins}.

Lemma delete_all_records_run (db : DbFile) (st : Store) :
  delete_all_records db st = if db_opens db then (true, ∅) else (false, st).
Proof. unfold delete_all_records, connect_db. destruct (db_opens db); reflexivity. Qed.

Lemma only_deleted_refl db st : only_deleted db st st.
Proof. split; [reflexivity | auto]. Qed.

Lemma only_deleted_trans db st1 st2 st3 :
  only_deleted db st1 st2 → only_deleted db st2 st3 → only_deleted db st1 st3.
Proof.
  intros [H12 E12] [H23 E23]. split; [etransitivity; eassumption|].
  intros Hup. rewrite (E23 Hup). auto.
Qed.

Lemma only_deleted_one db id st :
  only_deleted db st (delete_record_by_id db id st).2.
Proof.
  rewrite delete_record_by_id_run.
  destruct (db_opens db) eqn:Hup; [destruct (sqlite_int id)|]; cbn [andb snd].
  - split; [apply delete_subseteq | rewrite Hup; discriminate].
  - split; [reflexivity | auto].
  - split; [reflexivity | auto].
Qed.

Lemma only_deleted_many db ids st :
  only_deleted db st (delete_records_by_ids db ids st).2.
Proof.
  rewrite delete_records_by_ids_run.
  destruct (db_opens db) eqn:Hup; [destruct (bindable db ids)|]; cbn [andb snd].
  - split; [apply map_filter_subseteq | rewrite Hup; discriminate].
  - split; [reflexivity | auto].
  - split; [reflexivity | auto].
Qed.

Lemma only_deleted_all db st :
  only_deleted db st (delete_all_records db st).2.
Proof.
  rewrite delete_all_records_run. destruct (db_opens db) eqn:Hup; cbn [snd].
  - split; [apply map_empty_subseteq | rewrite Hup; discriminate].
  - split; [reflexivity | auto].
Qed.

Lemma interactive_mode_only_deletes (db : DbFile) (n : nat) :
  ∀ lines st, (length lines ≤ n)%nat →
    only_deleted db st (interactive_mode db lines st).
Proof.
  induction n as [|n IH]; intros lines st Hlen.
  - destruct lines; [apply only_deleted_refl | cbn in Hlen; lia].
  - destruct lines as [|line rest]; [apply only_deleted_refl|].
    cbn [length] in Hlen. assert (length rest ≤ n)%nat as Hrest by lia.
    cbn [interactive_mode]. cbv zeta.
    destruct (_ || _); [apply only_deleted_refl|].
    destruct (bool_decide (_ = u8 "show")); [apply IH; exact Hrest|].
    destruct (startswith (u8 "delete ") _).
    { eapply only_deleted_trans; [|apply IH; exact Hrest].
      destruct (_ !! 1%nat) as [word|]; [|apply only_deleted_refl].
      destruct (int_of_str word); [apply only_deleted_one | apply only_deleted_refl]. }
    destruct (startswith (u8 "delete_many ") _).
    { eapply only_deleted_trans; [|apply IH; exact Hrest].
      destruct (_ !! 1%nat) as [word|]; [|apply only_deleted_refl].
      destruct (mapM _ _); [apply only_deleted_many | apply only_deleted_refl]. }
    destruct (bool_decide (_ = u8 "delete_all")); [|apply IH; exact Hrest].
    destruct rest as [|confirm rest']; [apply only_deleted_refl|].
    cbn [length] in Hrest.
    eapply only_deleted_trans; [|apply IH; lia].
    destruct (confirmed confirm); [apply only_deleted_all | apply only_deleted_refl].
Qed.

(** X18.  The editor only ever deletes: whatever the arguments and the
    lines typed, every row of the table [view_db.py] leaves was in the
    table before, with the same content; when the database cannot be
    opened the table is unchanged. *)
Theorem view_db_only_deletes (db : DbFile) (argv lines : list pystr) (st : Store) :
  (∀ i row, view_db_main db argv lines st !! i = Some row → st !! i = Some row) ∧
  (∀ i row, interactive_mode db lines st !! i = Some row → st !! i = Some row) ∧
  (db_opens db = false →
     view_db_main db argv lines st = st ∧ interactive_mode db lines st = st).
Proof.
  assert (only_deleted db st (interactive_mode db lines st)) as Hi
    by (apply (interactive_mode_only_deletes db (length lines)); lia).
  assert (only_deleted db st (view_db_main db argv lines st)) as Hm.
  { unfold view_db_main. destruct argv as [|prog [|arg1 args]]; [exact Hi | exact Hi |].
    cbv zeta.
    destruct (bool_decide (_ = u8 "show")); [apply only_deleted_refl|].
    destruct (_ && _).
    { destruct args as [|arg2 args]; [apply only_deleted_refl|].
      destruct (int_of_str arg2); [apply only_deleted_one | apply only_deleted_refl]. }
    destruct (bool_decide (_ = u8 "delete_all")); [|apply only_deleted_refl].
    destruct lines as [|confirm rest]; [apply only_deleted_refl|].
    destruct (confirmed confirm); [apply only_deleted_all | apply only_deleted_refl]. }
  destruct Hi as [Hi Hi0], Hm as [Hm Hm0].
  split; [|split].
  - intros i row Hr. eapply lookup_weaken; eassumption.
  - intros i row Hr. eapply lookup_weaken; eassumption.
  - auto.
Qed.

(** X19.  From the command line the editor changes the table in two ways
    only: [delete] followed by an integer removes the row with that id,
    and [delete_all] empties the table once the first line typed is one of
    the three accepted answers.  Any other first argument, [delete_many]
    among them, leaves the table as it is. *)
Theorem view_db_command_line (db : DbFile) (prog arg1 : pystr) (args lines : list pystr)
    (st : Store) :
  let st' := view_db_main db (prog :: arg1 :: args) lines st in
  (st' = st ∨
   (str_lower arg1 = u8 "delete" ∧
    ∃ arg2 id, head args = Some arg2 ∧ int_of_str arg2 = Some id ∧ st' = delete id st) ∨
   (str_lower arg1 = u8 "delete_all" ∧
    ∃ answer, head lines = Some answer ∧ confirmed answer = true ∧ st' = ∅)) ∧
  (str_lower arg1 ≠ u8 "delete" → str_lower arg1 ≠ u8 "delete_all" → st' = st).
Proof.
  cbv zeta. unfold view_db_main. cbv zeta.
  destruct (bool_decide (_ = u8 "show")); [split; auto|].
  destruct (bool_decide (str_lower arg1 = u8 "delete")) eqn:Hd.
  - apply bool_decide_eq_true_1 in Hd. split; [|intros Hn; contradiction].
    destruct args as [|arg2 args].
    + rewrite (bool_decide_eq_false_2 ([] ≠ [])) by (intros Hn; apply Hn; reflexivity).
      cbn [andb]. destruct (bool_decide (_ = u8 "delete_all")) eqn:Ha; [|auto].
      apply bool_decide_eq_true_1 in Ha. rewrite Ha in Hd. vm_compute in Hd. discriminate.
    + rewrite bool_decide_eq_true_2 by discriminate. cbn [andb].
      destruct (int_of_str arg2) as [id|] eqn:Hid; [|auto].
      rewrite delete_record_by_id_run.
      destruct (db_opens db && sqlite_int id); cbn [snd]; [|auto].
      right. left. split; [exact Hd|]. exists arg2, id. auto.
  - cbn [andb]. destruct (bool_decide (str_lower arg1 = u8 "delete_all")) eqn:Ha.
    + apply bool_decide_eq_true_1 in Ha. split; [|intros _ Hn; contradiction].
      destruct lines as [|answer rest]; [auto|].
      destruct (confirmed answer) eqn:Hc; [|auto].
      rewrite delete_all_records_run. destruct (db_opens db); cbn [snd]; [|auto].
      right. right. split; [exact Ha|]. exists answer. auto.
    + split; auto.
Qed.

End ViewDbFacts.

(** ** The dashboard and the API *)

Section DashboardFacts.
Context `{!PyBuiltins}.

Lemma chat_body_message env message :
  Dashboard.chat_body env message !! "message"%string = Some (PStr message).
Proof. unfold Dashboard.chat_body. apply lookup_insert_eq. Qed.

Ltac body_lookup :=
  unfold Dashboard.chat_body;
  repeat first [rewrite lookup_insert_eq | rewrite lookup_insert_ne by discriminate].

Lemma chat_body_fields env message :
  json_get (Dashboard.chat_body env message) "user_id" (PStr (u8 "anonymous"))
    = PStr (u8 "dashboard_user") ∧
  json_get (Dashboard.chat_body env message) "session_id" (PStr (uuid4 (api env)))
    = PStr (u8 "dashboard_session_" ++ str_of_int (time_time env)) ∧
  json_get (Dashboard.chat_body env message) "channel" (PStr (u8 "web"))
    = PStr (u8 "dashboard") ∧
  json_get (Dashboard.chat_body env message) "language" (PStr (u8 "ru"))
    = PStr (u8 "ru").
Proof. unfold json_get. repeat split; body_lookup; reflexivity. Qed.

Lemma chat_body_storable env message :
  chat_storable (Dashboard.chat_body env message) = true.
Proof. unfold chat_storable, json_get. body_lookup. reflexivity. Qed.

Lemma get_bot_response_recorded env message st :
  api_reachable env = true → strip message ≠ [] →
  ∃ row,
    Dashboard.get_bot_response env message st =
      ((reply_text (generate_bot_reply (clock (api env)) message), Some (fresh_id st)),
       <[fresh_id st := row]> st) ∧
    user_id row = SText (u8 "dashboard_user") ∧
    session_id row = SText (u8 "dashboard_session_" ++ str_of_int (time_time env)) ∧
    query_text row = SText message ∧
    channel row = Some (SText (u8 "dashboard")) ∧
    language row = Some (SText (u8 "ru")) ∧
    rating row = None.
Proof.
  intros Hup Hs.
  destruct (chat_accepts (api env) st _ message (chat_body_message env message) Hs
              (chat_body_storable env message))
    as (row & Hrun & Hu & Hse & _ & Hq & _ & _ & _ & Hrat & _ & Hch & Hla).
  cbv zeta in Hrun, Hu, Hse, Hch, Hla.
  destruct (chat_body_fields env message) as (Eu & Ese & Ech & Ela).
  rewrite Eu in Hu. rewrite Ese in Hse. rewrite Ech in Hch. rewrite Ela in Hla.
  cbn [bound sql_bind] in Hu, Hse, Hch, Hla.
  exists row. split.
  - unfold Dashboard.get_bot_response. rewrite Hup. cbv zeta. rewrite Hrun.
    cbn [response store_after status_of]. reflexivity.
  - injection Hu as Hu. injection Hse as Hse.
    repeat split; assumption.
Qed.


Lemma rate_body_lookups (log_id rating : pyval) :
  let d : Json := <["log_id"%string := log_id]> (<["rating"%string := rating]> ∅) in
  d !! "log_id"%string = Some log_id ∧ d !! "rating"%string = Some rating.
Proof.
  cbv zeta. split; [apply lookup_insert_eq|].
  rewrite lookup_insert_ne by discriminate. apply lookup_insert_eq.
Qed.

(** X21.  A star pressed under a reply is stored on that reply: after
    [get_bot_response] has returned an id for a message that is not blank,
    [rate_response] of the dashboard with that id and any of the five
    ratings answers True, and the row of the message then carries the
    rating; no other row is touched. *)
Theorem dashboard_rate_after_reply (env : DashEnv) (message : pystr) (st : Store)
    (stars : Z) :
  api_reachable env = true → strip message ≠ [] → 1 ≤ stars ≤ 5 →
  let reply := Dashboard.get_bot_response env message st in
  ∃ id row,
    reply.1.2 = Some id ∧
    reply.2 !! id = Some row ∧
    Dashboard.rate_response env (PInt id) (PInt stars) reply.2
      = (true, <[id := set_rating row (Some stars)]> reply.2) ∧
    query_text row = SText message ∧
    st !! id = None.
Proof.
  intros Hup Hs Hstars. cbv zeta.
  destruct (get_bot_response_recorded env message st Hup Hs)
    as (row & -> & _ & _ & Hq & _).
  cbn [fst snd]. exists (fresh_id st), row.
  split; [reflexivity|]. split; [apply lookup_insert_eq|].
  split; [|split; [exact Hq | apply fresh_id_unused]].
  unfold Dashboard.rate_response. rewrite Hup. cbv zeta.
  destruct (rate_body_lookups (PInt (fresh_id st)) (PInt stars)) as [Hl Hr].
  cbv zeta in Hl, Hr.
  rewrite (rate_response_accepted _ _ (fresh_id st) (PInt stars) stars Hl Hr)
    by (split; [reflexivity | exact Hstars]).
  rewrite lookup_insert_eq. reflexivity.
Qed.

(** X22.  [rate_response] of the dashboard answers True only when a rating
    was stored: on True one existing row has its rating set to a value
    between 1 and 5 and nothing else differs; on False the table is
    unchanged. *)
Theorem dashboard_rate_true_only_if_stored (env : DashEnv) (log_id rating : pyval)
    (st : Store) :
  let r := Dashboard.rate_response env log_id rating st in
  (r.1 = false → r.2 = st) ∧
  (r.1 = true →
     ∃ i row z, valid_rating rating z ∧ st !! i = Some row ∧
                r.2 = <[i := set_rating row (Some z)]> st).
Proof.
  cbv zeta. unfold Dashboard.rate_response.
  destruct (api_reachable env); [|split; [reflexivity | discriminate]].
  cbv zeta. cbn [fst snd].
  set (d := (<["log_id"%string := log_id]> (<["rating"%string := rating]> ∅) : Json)).
  destruct (rate_body_lookups log_id rating) as [Hl Hr]. cbv zeta in Hl, Hr.
  fold d in Hl, Hr.
  destruct (rate_outcomes (Some d) st)
    as [[Hst Hsame] | (d' & l' & rv & i & row & z & Hd & Hl' & Hr' & Hv & Hi & Hresp & Hstore)].
  - split; [intros _; exact Hsame|].
    intros Hok. apply Z.eqb_eq in Hok. contradiction.
  - injection Hd as <-. rewrite Hr in Hr'. injection Hr' as <-.
    split.
    + rewrite Hresp. cbn [status_of]. discriminate.
    + intros _. exists i, row, z. auto.
Qed.

End DashboardFacts.

(** ** Watching the CSV file *)

Section MonitorFacts.
Context `{!PyBuiltins}.

(** X23.  [AutoSync.start_monitoring] remembers the digest of the file as
    it is at the start without importing it: as long as every pass sees
    that digest again, or its import fails, the table is never written and
    the remembered digest stays.  A CSV that is there when monitoring
    starts is imported only once its bytes change. *)
Theorem start_monitoring_idle (start : Tick) (ticks : list Tick) (st : Store) :
  (∀ t, t ∈ ticks →
     get_file_hash t = get_file_hash start ∨ (sync_csv_to_db (tick_env t) st).1 = false) →
  start_monitoring start ticks st = (get_file_hash start, st).
Proof.
  unfold start_monitoring. generalize (get_file_hash start) as last.
  intros last. induction ticks as [|t ticks IH]; intros Hall; [reflexivity|].
  cbn [monitoring_loop]. cbv zeta.
  assert (∀ t', t' ∈ ticks →
            get_file_hash t' = last ∨ (sync_csv_to_db (tick_env t') st).1 = false) as Hrest
    by (intros t' Ht'; apply Hall; apply elem_of_cons; auto).
  destruct (bool_decide (get_file_hash t ≠ last)) eqn:Hd; [|apply IH; exact Hrest].
  apply bool_decide_eq_true_1 in Hd.
  destruct (Hall t) as [Hsame | Hfail]; [apply elem_of_cons; auto | contradiction |].
  change (sync_csv_to_db (tick_env t) st) with (csv_to_db (tick_env t) st) in Hfail |- *.
  pose proof (csv_to_db_false_keeps _ _ Hfail) as Hkeep.
  destruct (csv_to_db (tick_env t) st) as [ok st']. cbn [fst snd] in Hfail, Hkeep.
  subst ok st'. apply IH. exact Hrest.
Qed.

Lemma importable_run (t : Tick) :
  importable t →
  ∃ w, (∀ st, csv_to_db (tick_env t) st = (true, w)) ∧
       _get_csv_hash t = tick_md5 t.
Proof.
  intros (df & entries & Hf & Hdb & Hne & He).
  exists (write_entries ∅ entries). split.
  - intros st. apply (csv_to_db_entries _ _ df entries Hf Hdb Hne He).
  - unfold _get_csv_hash. rewrite Hf. reflexivity.
Qed.

Lemma monitor_changes_latest (ticks : list Tick) :
  ∀ last st,
    (∀ t, t ∈ ticks → importable t) →
    (∀ t1 t2, t1 ∈ ticks → t2 ∈ ticks → tick_md5 t1 = tick_md5 t2 →
              tick_env t1 = tick_env t2) →
    (∀ t, t ∈ ticks → last = Some (tick_md5 t) → csv_to_db (tick_env t) st = (true, st)) →
    monitor_changes ticks last st =
      match list.last ticks with
      | Some t => (Some (tick_md5 t), (csv_to_db (tick_env t) st).2)
      | None => (last, st)
      end.
Proof.
  induction ticks as [|t ticks IH]; intros last st Himp Hinj Hcons; [reflexivity|].
  destruct (importable_run t) as (w & Hrun & Hhash); [apply Himp, elem_of_cons; auto|].
  assert (∀ t', t' ∈ ticks → importable t') as Himp'
    by (intros t' Ht'; apply Himp, elem_of_cons; auto).
  assert (∀ t1 t2, t1 ∈ ticks → t2 ∈ ticks → tick_md5 t1 = tick_md5 t2 →
                   tick_env t1 = tick_env t2) as Hinj'
    by (intros t1 t2 H1 H2; apply Hinj; apply elem_of_cons; auto).
  cbn [monitor_changes]. cbv zeta. rewrite Hhash.
  destruct (bool_decide (Some (tick_md5 t) ≠ last)) eqn:Hd.
  - rewrite (Hrun st).
    rewrite (IH (Some (tick_md5 t)) w Himp' Hinj').
    + destruct ticks as [|t' ticks']; [cbn [list.last]; rewrite Hrun; reflexivity|].
      change (list.last (t :: t' :: ticks')) with (list.last (t' :: ticks')).
      destruct (list.last (t' :: ticks')) as [tl|] eqn:Hl;
        [|apply last_None in Hl; discriminate].
      destruct (importable_run tl) as (wl & Hrunl & _).
      { apply Himp', last_Some_elem_of. exact Hl. }
      rewrite !Hrunl. reflexivity.
    + intros t' Ht' [= Hh].
      rewrite <- (Hinj t t'); [apply Hrun | apply elem_of_cons; auto |
                               apply elem_of_cons; auto | exact Hh].
  - apply bool_decide_eq_false_1 in Hd.
    assert (last = Some (tick_md5 t)) as Hlast.
    { destruct (decide (Some (tick_md5 t) = last)) as [<-|Hne]; [reflexivity|].
      exfalso. apply Hd. exact Hne. }
    assert (csv_to_db (tick_env t) st = (true, st)) as Hfix
      by (apply Hcons; [apply elem_of_cons; auto | exact Hlast]).
    rewrite IH; [| exact Himp' | exact Hinj' |
                 intros t' Ht'; apply Hcons; apply elem_of_cons; auto].
    destruct ticks as [|t' ticks'].
    + cbn [list.last]. rewrite Hfix, Hlast. reflexivity.
    + reflexivity.
Qed.


End MonitorFacts.

(** ** A snapshot without an id column *)

Lemma max_key_attained (st : Store) m : max_key st = Some m → m ∈ dom st.
Proof.
  unfold max_key. rewrite <- elem_of_elements.
  generalize (elements (dom st)) as l. intros l. revert m.
  induction l as [|a l IH]; intros m Hm; [discriminate|].
  cbn [foldr] in Hm. destruct (foldr _ None l) as [m'|] eqn:Hf.
  - injection Hm as <-. specialize (IH m' eq_refl).
    destruct (Z.max_spec a m') as [[_ ->] | [_ ->]];
      [apply list_elem_of_further; exact IH | apply list_elem_of_here].
  - injection Hm as <-. apply list_elem_of_here.
Qed.

Lemma fresh_id_range (w : Store) (m : Z) :
  0 ≤ m → (∀ i, is_Some (w !! i) ↔ 1 ≤ i ≤ m) → fresh_id w = m + 1.
Proof.
  intros Hm Hdom. unfold fresh_id. destruct (max_key w) as [x|] eqn:Hx.
  - pose proof (max_key_attained w x Hx) as Hin.
    apply elem_of_dom, Hdom in Hin.
    destruct (decide (m = 0)) as [->|Hpos]; [lia|].
    assert (m ∈ dom w) as Hmin by (apply elem_of_dom, Hdom; lia).
    pose proof (max_key_bound w x m Hx Hmin). lia.
  - destruct (decide (m = 0)) as [->|Hpos]; [reflexivity|].
    assert (w !! fresh_id w = None) as Hf by apply fresh_id_unused.
    unfold fresh_id in Hf. rewrite Hx in Hf.
    assert (is_Some (w !! 1)) as [r Hr] by (apply Hdom; lia).
    rewrite Hr in Hf. discriminate.
Qed.

Lemma append_rows_lookup (rows : list LogRow) :
  ∀ (w : Store) (m : Z),
    0 ≤ m → (∀ i, is_Some (w !! i) ↔ 1 ≤ i ≤ m) →
    (∀ i, i ≤ m → append_rows w rows !! i = w !! i) ∧
    (∀ k : nat, append_rows w rows !! (m + 1 + Z.of_nat k) = rows !! k) ∧
    (∀ i, is_Some (append_rows w rows !! i) ↔ 1 ≤ i ≤ m + Z.of_nat (length rows)).
Proof.
  induction rows as [|r rows IH]; intros w m Hm Hdom.
  - cbn [append_rows foldl length]. split; [auto|]. split.
    + intros k. cbn. destruct (w !! (m + 1 + Z.of_nat k)) eqn:Hw; [|reflexivity].
      assert (is_Some (w !! (m + 1 + Z.of_nat k))) as Hs by eauto.
      apply Hdom in Hs. lia.
    + intros i. rewrite Hdom. lia.
  - cbn [append_rows foldl]. change (foldl _ ?w0 rows) with (append_rows w0 rows).
    rewrite (fresh_id_range w m Hm Hdom).
    assert (∀ i, is_Some ((<[m + 1 := r]> w) !! i) ↔ 1 ≤ i ≤ m + 1) as Hdom'.
    { intros i. destruct (decide (i = m + 1)) as [->|Hne].
      - rewrite lookup_insert_eq. split; [lia | eauto].
      - rewrite lookup_insert_ne by congruence. rewrite Hdom. lia. }
    destruct (IH (<[m + 1 := r]> w) (m + 1) ltac:(lia) Hdom') as (Hlow & Hnew & Hall).
    split; [|split].
    + intros i Hi. rewrite Hlow by lia. apply lookup_insert_ne. lia.
    + intros [|k].
      * replace (m + 1 + Z.of_nat 0) with (m + 1) by lia.
        rewrite Hlow by lia. apply lookup_insert_eq.
      * replace (m + 1 + Z.of_nat (S k)) with (m + 1 + 1 + Z.of_nat k) by lia.
        apply Hnew.
    + intros i. rewrite Hall. cbn [length]. lia.
Qed.

Section NoIdColumn.
Context `{!PyBuiltins}.

Lemma iterrows_no_id (df : DataFrame) (row : Series) :
  "id"%string ∉ df_columns df → row ∈ iterrows df → row !! "id"%string = None.
Proof.
  intros Hno Hrow. unfold iterrows in Hrow.
  apply list_elem_of_fmap in Hrow as (cells & -> & _).
  apply not_elem_of_list_to_map_1. intros Hin.
  apply list_elem_of_fmap in Hin as ([c v] & Heq & Hcv). cbn in Heq. subst c.
  apply Hno. exact (elem_of_zip_l _ _ _ _ Hcv).
Qed.

Lemma upsert_row_no_id (row : Series) (r : LogRow) (c : Conn) :
  row !! "id"%string = None → row_content row = Some r →
  upsert_row row c =
    (Return tt, set_working c (<[fresh_id (working c) := r]> (working c))).
Proof.
  intros Hid. unfold row_content.
  destruct (prepare_data row) as [data|] eqn:Hd; [|discriminate].
  destruct (bound_row data) as [r'|] eqn:Hr; [|discriminate].
  intros [= ->].
  destruct (prepare_data_copied row data Hd) as (Hdid & _).
  rewrite (row_get_missing _ _ _ Hid) in Hdid.
  assert (bind_params data = Return tt) as Hbp
    by (eapply bound_row_bind_params; [exact Hr | rewrite Hdid; reflexivity]).
  unfold upsert_row, bind, lift. rewrite Hd. cbn beta iota.
  unfold sql_exists, bind, lift, get_working, ret. rewrite Hdid.
  cbn [sql_bind key_of_scalar].
  unfold sql_insert, bind, lift, get_working. rewrite Hbp, Hdid.
  cbn [sql_bind insert_key]. rewrite Hr, fresh_id_unused. reflexivity.
Qed.

Lemma for_each_upsert_no_id (rows : list Series) (contents : list LogRow) (c : Conn) :
  (∀ row, row ∈ rows → row !! "id"%string = None) →
  mapM row_content rows = Some contents →
  for_each rows upsert_row c =
    (Return tt, set_working c (append_rows (working c) contents)).
Proof.
  intros Hid Hm. apply mapM_Some_1 in Hm. revert c.
  induction Hm as [|row r rows contents Hrow _ IH]; intros c.
  - destruct c. reflexivity.
  - cbn [for_each]. unfold bind.
    rewrite (upsert_row_no_id row r c) by (try exact Hrow; apply Hid, list_elem_of_here).
    rewrite IH by (intros row' Hr'; apply Hid, list_elem_of_further, Hr').
    reflexivity.
Qed.


End NoIdColumn.

(** ** The statements above on concrete requests and snapshots *)

Section ConcreteFurther.
#[local] Existing Instance basic_builtins.

(** A request whose [user_id] is [null]. *)
Lemma chat_refused_row_witness :
  let d := <["user_id"%string := PNone]> (Demo.chat_request (PStr (u8 "hello"))) in
  d !! "message"%string = Some (PStr (u8 "hello")) ∧
  strip (u8 "hello") ≠ [] ∧
  chat_storable d = false ∧
  ∃ e, chat Demo.chat_env (Some d) Demo.st234 =
         {| response := ServerError e; store_after := Demo.st234;
            responder_calls := [u8 "hello"] |}.
Proof.
  cbv zeta.
  set (d := <["user_id"%string := PNone]> (Demo.chat_request (PStr (u8 "hello")))).
  assert (d !! "message"%string = Some (PStr (u8 "hello"))) as Hm
    by (vm_compute; reflexivity).
  assert (strip (u8 "hello") ≠ []) as Hs by (vm_compute; discriminate).
  assert (chat_storable d = false) as Hbad by (vm_compute; reflexivity).
  split; [exact Hm|]. split; [exact Hs|]. split; [exact Hbad|].
  exact (chat_refused_row Demo.chat_env d Demo.st234 (u8 "hello") Hm Hs Hbad).
Defined.

(** Row 3 rated 2, then 5. *)
Lemma rate_last_write_wins_witness :
  Demo.rate_request (PInt 3) (PInt 2) !! "log_id"%string = Some (PInt 3) ∧
  Demo.rate_request (PInt 3) (PInt 2) !! "rating"%string = Some (PInt 2) ∧
  valid_rating (PInt 2) 2 ∧
  Demo.rate_request (PInt 3) (PInt 5) !! "log_id"%string = Some (PInt 3) ∧
  Demo.rate_request (PInt 3) (PInt 5) !! "rating"%string = Some (PInt 5) ∧
  valid_rating (PInt 5) 5 ∧
  store_after (rate_response (Some (Demo.rate_request (PInt 3) (PInt 5)))
     (store_after (rate_response (Some (Demo.rate_request (PInt 3) (PInt 2))) Demo.st234)))
  = store_after (rate_response (Some (Demo.rate_request (PInt 3) (PInt 5))) Demo.st234).
Proof.
  assert (Demo.rate_request (PInt 3) (PInt 2) !! "log_id"%string = Some (PInt 3)) as Hl1
    by (vm_compute; reflexivity).
  assert (Demo.rate_request (PInt 3) (PInt 2) !! "rating"%string = Some (PInt 2)) as Hr1
    by (vm_compute; reflexivity).
  assert (valid_rating (PInt 2) 2) as Hv1 by (split; [reflexivity | lia]).
  assert (Demo.rate_request (PInt 3) (PInt 5) !! "log_id"%string = Some (PInt 3)) as Hl2
    by (vm_compute; reflexivity).
  assert (Demo.rate_request (PInt 3) (PInt 5) !! "rating"%string = Some (PInt 5)) as Hr2
    by (vm_compute; reflexivity).
  assert (valid_rating (PInt 5) 5) as Hv2 by (split; [reflexivity | lia]).
  repeat (split; [assumption|]).
  exact (rate_last_write_wins _ _ Demo.st234 3 _ _ 2 5 Hl1 Hr1 Hv1 Hl2 Hr2 Hv2).
Defined.



(** The empty table, and what one greeting leaves in it. *)
Lemma texts_present_preserved_witness :
  texts_present ∅ ∧
  texts_present
    (store_after (chat Demo.chat_env (Some (Demo.chat_request (PStr (u8 "hello")))) ∅)).
Proof.
  split; [exact texts_present_empty|].
  exact (proj1 (proj2 (texts_present_preserved ∅ texts_present_empty)) Demo.chat_env
           (Some (Demo.chat_request (PStr (u8 "hello"))))).
Defined.


(** The CSV is missing: the table with ids 2, 3, 4 is written out. *)
Lemma sync_both_ways_exports_after_failed_import_witness :
  db_reachable Demo.env_missing = true ∧
  (csv_to_db Demo.env_missing Demo.st234).1 = false ∧
  sync_both_ways Demo.env_missing Demo.st234 =
    {| both_ok := false; both_store := Demo.st234;
       both_written := Some (select_ordered Demo.st234) |}.
Proof.
  split; [reflexivity|]. split; [reflexivity|].
  exact (sync_both_ways_exports_after_failed_import Demo.env_missing Demo.st234
           eq_refl eq_refl).
Defined.



(** A greeting sent from the dashboard, then five stars. *)
Lemma dashboard_rate_after_reply_witness :
  api_reachable Sample.dash_env = true ∧
  strip (u8 "hello") ≠ [] ∧
  1 ≤ 5 ≤ 5 ∧
  ∃ id row,
    (Dashboard.get_bot_response Sample.dash_env (u8 "hello") Demo.st234).1.2 = Some id ∧
    (Dashboard.get_bot_response Sample.dash_env (u8 "hello") Demo.st234).2 !! id
      = Some row.
Proof.
  assert (strip (u8 "hello") ≠ []) as Hs by (vm_compute; discriminate).
  assert (1 ≤ 5 ≤ 5) as Hstars by lia.
  split; [reflexivity|]. split; [exact Hs|]. split; [exact Hstars|].
  destruct (dashboard_rate_after_reply Sample.dash_env (u8 "hello") Demo.st234 5
              eq_refl Hs Hstars) as (id & row & Hid & Hrow & _).
  exists id, row. split; [exact Hid | exact Hrow].
Defined.

(** Monitoring starts on the snapshot with ids 1, 2, 3 and meets it twice
    more. *)
Lemma start_monitoring_idle_witness :
  (∀ t, t ∈ [Sample.tick123; Sample.tick123] →
     get_file_hash t = get_file_hash Sample.tick123 ∨
     (sync_csv_to_db (tick_env t) Demo.st234).1 = false) ∧
  start_monitoring Sample.tick123 [Sample.tick123; Sample.tick123] Demo.st234
    = (get_file_hash Sample.tick123, Demo.st234).
Proof.
  assert (∀ t, t ∈ [Sample.tick123; Sample.tick123] →
            get_file_hash t = get_file_hash Sample.tick123 ∨
            (sync_csv_to_db (tick_env t) Demo.st234).1 = false) as Hall.
  { intros t Ht. left.
    apply elem_of_cons in Ht as [-> | Ht]; [reflexivity|].
    apply elem_of_cons in Ht as [-> | Ht]; [reflexivity|].
    inversion Ht. }
  split; [exact Hall|].
  exact (start_monitoring_idle Sample.tick123 _ Demo.st234 Hall).
Defined.

Lemma sample_ticks_importable :
  ∀ t, t ∈ [Sample.tick123; Sample.tick123; Sample.tick7] → importable t.
Proof.
  assert (importable Sample.tick123) as H123.
  { exists Demo.df123, Demo.entries123.
    split; [exact eq_refl|]. split; [exact eq_refl|]. split; [exact eq_refl|].
    vm_compute. reflexivity. }
  assert (importable Sample.tick7) as H7.
  { exists Sample.df7, Sample.entries7.
    split; [exact eq_refl|]. split; [exact eq_refl|]. split; [exact eq_refl|].
    vm_compute. reflexivity. }
  intros t Ht.
  apply elem_of_cons in Ht as [Ht | Ht]; [rewrite Ht; exact H123|].
  apply elem_of_cons in Ht as [Ht | Ht]; [rewrite Ht; exact H123|].
  apply elem_of_cons in Ht as [Ht | Ht]; [rewrite Ht; exact H7|].
  inversion Ht.
Defined.

Lemma sample_ticks_distinct :
  ∀ t1 t2, t1 ∈ [Sample.tick123; Sample.tick123; Sample.tick7] →
           t2 ∈ [Sample.tick123; Sample.tick123; Sample.tick7] →
           tick_md5 t1 = tick_md5 t2 → tick_env t1 = tick_env t2.
Proof.
  assert (tick_md5 Sample.tick123 ≠ tick_md5 Sample.tick7) as Hne
    by (intros Heq; vm_compute in Heq; discriminate).
  assert (∀ t, t ∈ [Sample.tick123; Sample.tick123; Sample.tick7] →
            t = Sample.tick123 ∨ t = Sample.tick7) as Hcases.
  { intros t Ht.
    apply elem_of_cons in Ht as [Ht | Ht]; [left; exact Ht|].
    apply elem_of_cons in Ht as [Ht | Ht]; [left; exact Ht|].
    apply elem_of_cons in Ht as [Ht | Ht]; [right; exact Ht|].
    inversion Ht. }
  intros t1 t2 H1 H2 Heq.
  destruct (Hcases t1 H1) as [E1 | E1], (Hcases t2 H2) as [E2 | E2];
    rewrite E1, E2 in Heq |- *.
  - exact eq_refl.
  - exfalso. exact (Hne Heq).
  - exfalso. exact (Hne (eq_sym Heq)).
  - exact eq_refl.
Defined.



End ConcreteFurther.
